(** * WaveDemo read-out core: ring buffers, cross-board synchroniser, statistics

    A shallow embedding of the buffering, synchronisation and statistics
    code of the DT5743 read-out program:

    - [WDBuffers.c]  : the per-board circular event queue ([WDBuff_*]);
    - [WaveDemo.c]   : [ProcessesSynchronizedEvents], one matching round per
                       loop iteration, [ProcessesUnsynchronizedEvents], and
                       the reference event that [EventProcessing] reads;
    - [WDStats.c]    : [UpdateStatistics].

    Conventions of the embedding.

    - C [int] values are [Z]; [%] on [int] is [Z.rem] and [/] is [Z.quot]
      (truncation, as in C).  [uint64_t] values are [Z] reduced by [u64]
      after every arithmetic operation.
    - C [float] is IEEE-754 binary32 and [double] is binary64, both taken
      from [SpecFloat] (round to nearest even), evaluated operation by
      operation in the type C assigns to each sub-expression (no excess
      precision: [FLT_EVAL_METHOD] 0).
    - The arrays indexed by board (and channel) are total functions of the
      index; the loops index them below [NumBoards] and [Nch].  The one
      index that comes from the configuration file, [TOFstartBoard] in
      [EventProcessing], is checked against the extent of [handles].
    - A dereference of a NULL pointer is a fault: the function that makes
      it has no result ([None], [RoundFault]).
    - The global structs [WDbuff], [WDstats], [WDcfg], [WDrun] are passed
      and returned explicitly. *)

From Stdlib Require Import ZArith List Bool Lia String.
From Stdlib Require Import SpecFloat.
From Stdlib Require Import Ascii.
Import ListNotations.
Local Open Scope Z_scope.

(* ================================================================== *)
(** * Part I - the model                                               *)
(* ================================================================== *)

(** ** Machine arithmetic *)

(** Wrap-around of [uint64_t]. *)
Definition u64 (z : Z) : Z := z mod 2 ^ 64.

Definition UINT64_MAX : Z := 2 ^ 64 - 1.   (* 0xFFFFFFFFFFFFFFFF *)

(** C truth value of an integer. *)
Definition truthy (z : Z) : bool := negb (z =? 0).

(** Update of one cell of an array indexed by board. *)
Definition upd {A : Type} (f : nat -> A) (i : nat) (v : A) : nat -> A :=
  fun j => if Nat.eqb j i then v else f j.

(** Update of one cell of a [MAX_BD][MAX_CH] array. *)
Definition upd2 {A : Type} (f : nat -> nat -> A) (b ch : nat) (v : A)
  : nat -> nat -> A :=
  fun b' ch' => if (Nat.eqb b' b && Nat.eqb ch' ch)%bool then v else f b' ch'.

(** [for (i = 0; i < n; i++) body] over a state. *)
Definition for_loop {St : Type} (n : Z) (body : nat -> St -> St) (s : St)
  : St :=
  fold_left (fun acc i => body i acc) (seq 0 (Z.to_nat n)) s.

(** The same loop with a body that can fault: the first [None] ends it. *)
Definition for_loop_opt {St : Type} (n : Z) (body : nat -> St -> option St)
  (s : St) : option St :=
  fold_left
    (fun acc i => match acc with Some a => body i a | None => None end)
    (seq 0 (Z.to_nat n)) (Some s).

(** ** Floating point (binary32 and binary64) *)

Definition float := spec_float.

Definition f32_of_Z (z : Z) : float := binary_normalize 24 128 z 0 false.
Definition fadd : float -> float -> float := SFadd 24 128.
Definition fsub : float -> float -> float := SFsub 24 128.
Definition fmul : float -> float -> float := SFmul 24 128.
Definition fdiv : float -> float -> float := SFdiv 24 128.

Definition feq : float -> float -> bool := SFeqb.   (* == *)
Definition flt : float -> float -> bool := SFltb.   (* <  *)
Definition fgt (x y : float) : bool := SFltb y x.   (* >  *)
Definition fge (x y : float) : bool := SFleb y x.   (* >= *)
Definition fne (x y : float) : bool := negb (SFeqb x y).  (* != *)

(** Promotion of a [float] to [double] (exact), and the two [double]
    operations the statistics need. *)
Definition double_of_float (x : float) : spec_float :=
  match x with
  | S754_finite s m e => binary_round 53 1024 s m e
  | _ => x
  end.
Definition f64_of_Z (z : Z) : spec_float := binary_normalize 53 1024 z 0 false.
Definition ddiv : spec_float -> spec_float -> spec_float := SFdiv 53 1024.

Definition F0 : float := f32_of_Z 0.
Definition F1 : float := f32_of_Z 1.
Definition Fm1 : float := f32_of_Z (-1).
Definition F1e6 : float := f32_of_Z 1000000.            (* 1e6f, exact *)
Definition F1e9 : float := f32_of_Z 1000000000.         (* 1e9f, exact *)
Definition F5000 : float := f32_of_Z 5000.
(** [1048.576f]: the binary32 nearest to 1048576/1000. *)
Definition F1048_576 : float := fdiv (f32_of_Z 1048576) (f32_of_Z 1000).
Definition D1e6 : spec_float := f64_of_Z 1000000.       (* 1e6 (double) *)

(** ** Constants of WaveDemo.h *)

Definition MAX_BD : Z := 4.
Definition MAX_CH : Z := 16.
Definition EVT_BUF_SIZE : Z := 2000.
Definition SYNC_WIN : Z := 100.
Definition REALTIME_FROM_BOARDS : Z := 0.
Definition REALTIME_FROM_COMPUTER : Z := 1.

(** ** Events and ring buffers (WDBuffers.c) *)

(** The part of [WaveDemoEvent_t] the core reads:
    [Event->DataGroup[g].TDC] and [EventPlus[g][c].FineTimeStamp]. *)
Record WaveDemoEvent_t := {
  DataGroup_TDC : nat -> Z;
  EventPlus_FineTimeStamp : nat -> nat -> float
}.

(** [buffer[bd]] is [None] for a NULL pointer, else the array of slots. *)
Record WaveDemoBuffers_t := {
  buffer : nat -> option (Z -> WaveDemoEvent_t);
  head : nat -> Z;
  tail : nat -> Z;
  tmp_pos : nat -> Z
}.

Definition set_head (buff : WaveDemoBuffers_t) (bd : nat) (v : Z) :=
  {| buffer := buffer buff; head := upd (head buff) bd v;
     tail := tail buff; tmp_pos := tmp_pos buff |}.
Definition set_tail (buff : WaveDemoBuffers_t) (bd : nat) (v : Z) :=
  {| buffer := buffer buff; head := head buff;
     tail := upd (tail buff) bd v; tmp_pos := tmp_pos buff |}.
Definition set_tmp_pos (buff : WaveDemoBuffers_t) (bd : nat) (v : Z) :=
  {| buffer := buffer buff; head := head buff;
     tail := tail buff; tmp_pos := upd (tmp_pos buff) bd v |}.

Definition is_null {A : Type} (p : option A) : bool :=
  match p with None => true | Some _ => false end.

Definition WDBuff_get_start (buff : WaveDemoBuffers_t) (bd : nat) : Z :=
  head buff bd.

Definition WDBuff_get_end (buff : WaveDemoBuffers_t) (bd : nat) : Z :=
  tail buff bd.

Definition WDBuff_reset (buff : WaveDemoBuffers_t) (bd : nat)
  : Z * WaveDemoBuffers_t :=
  if is_null (buffer buff bd) then (-1, buff)
  else (0, set_tmp_pos (set_tail (set_head buff bd 0) bd 0) bd 0).

Definition WDBuff_empty (buff : WaveDemoBuffers_t) (bd : nat) : Z :=
  if head buff bd =? tail buff bd then 1 else 0.

Definition WDBuff_full (buff : WaveDemoBuffers_t) (bd : nat) : Z :=
  if Z.rem (head buff bd + 1) EVT_BUF_SIZE =? tail buff bd then 1 else 0.

Definition WDBuff_free_space (buff : WaveDemoBuffers_t) (bd : nat) : Z :=
  if truthy (WDBuff_full buff bd) then 0
  else if head buff bd >=? tail buff bd
       then EVT_BUF_SIZE - 1 - (head buff bd - tail buff bd)
       else tail buff bd - head buff bd - 1.

Definition WDBuff_used_space (buff : WaveDemoBuffers_t) (bd : nat) : Z :=
  if head buff bd >=? tail buff bd
  then head buff bd - tail buff bd
  else EVT_BUF_SIZE - tail buff bd + head buff bd.

(** The loop of [WDBuff_remove]; [n] iterations remain, [i] is the C loop
    counter. *)
Fixpoint remove_loop (n : nat) (i : Z) (buff : WaveDemoBuffers_t) (bd : nat)
  : Z * WaveDemoBuffers_t :=
  match n with
  | O => (i, buff)
  | S n' =>
      if truthy (WDBuff_empty buff bd) then (i, buff)
      else remove_loop n' (i + 1)
             (set_tail buff bd (Z.rem (tail buff bd + 1) EVT_BUF_SIZE)) bd
  end.

Definition WDBuff_remove (buff : WaveDemoBuffers_t) (bd : nat) (num : Z)
  : Z * WaveDemoBuffers_t :=
  if (is_null (buffer buff bd) || (num <? 0))%bool then (-1, buff)
  else remove_loop (Z.to_nat num) 0 buff bd.

Definition WDBuff_get_write_pointer (buff : WaveDemoBuffers_t) (bd : nat)
  : Z * option Z :=
  if (is_null (buffer buff bd) || truthy (WDBuff_full buff bd))%bool
  then (-1, None)
  else (0, Some (head buff bd)).

(** The loop of [WDBuff_added]. *)
Fixpoint added_loop (n : nat) (i : Z) (buff : WaveDemoBuffers_t) (bd : nat)
  : Z * WaveDemoBuffers_t :=
  match n with
  | O => (i, buff)
  | S n' =>
      if truthy (WDBuff_full buff bd) then (i, buff)
      else added_loop n' (i + 1)
             (set_head buff bd (Z.rem (head buff bd + 1) EVT_BUF_SIZE)) bd
  end.

Definition WDBuff_added (buff : WaveDemoBuffers_t) (bd : nat) (num : Z)
  : Z * WaveDemoBuffers_t :=
  if (is_null (buffer buff bd) || (num <? 0))%bool then (-1, buff)
  else added_loop (Z.to_nat num) 0 buff bd.

(** [WDBuff_peak]: the event at [tail]; [*event] is left untouched on
    failure, which the caller sees as the second component [None]. *)
Definition WDBuff_peak (buff : WaveDemoBuffers_t) (bd : nat)
  : Z * option WaveDemoEvent_t :=
  match buffer buff bd with
  | None => (-1, None)
  | Some slots =>
      if truthy (WDBuff_empty buff bd) then (-1, None)
      else (0, Some (slots (tail buff bd)))
  end.

Definition WDBuff_set_position (buff : WaveDemoBuffers_t) (bd : nat) (pos : Z)
  : Z * WaveDemoBuffers_t :=
  if (is_null (buffer buff bd) || truthy (WDBuff_empty buff bd))%bool
  then (-1, buff)
  else if ((pos <? 0) || (pos >=? EVT_BUF_SIZE))%bool then (-1, buff)
  else if ((pos >=? head buff bd) || (pos <? tail buff bd))%bool
  then (-1, buff)
  else (0, set_tmp_pos buff bd pos).

Definition WDBuff_get_next (buff : WaveDemoBuffers_t) (bd : nat)
  : Z * option WaveDemoEvent_t * WaveDemoBuffers_t :=
  match buffer buff bd with
  | None => (-1, None, buff)
  | Some slots =>
      if truthy (WDBuff_empty buff bd) then (-1, None, buff)
      else if tmp_pos buff bd =? head buff bd then (-1, None, buff)
      else (0, Some (slots (tmp_pos buff bd)),
            set_tmp_pos buff bd (Z.rem (tmp_pos buff bd + 1) EVT_BUF_SIZE))
  end.

(** Sequences of queue operations, for the capacity invariant. *)
Inductive buffer_op :=
| OpReset (bd : nat)
| OpAdded (bd : nat) (num : Z)
| OpRemove (bd : nat) (num : Z).

Definition apply_op (buff : WaveDemoBuffers_t) (op : buffer_op)
  : WaveDemoBuffers_t :=
  match op with
  | OpReset bd => snd (WDBuff_reset buff bd)
  | OpAdded bd num => snd (WDBuff_added buff bd num)
  | OpRemove bd num => snd (WDBuff_remove buff bd num)
  end.

Definition run_ops (ops : list buffer_op) (buff : WaveDemoBuffers_t)
  : WaveDemoBuffers_t :=
  fold_left apply_op ops buff.

(** The logical slots of a queue, as the specification words them: the
    circular range from [tail] (inclusive) to [head] (exclusive). *)
Definition in_circular_range (buff : WaveDemoBuffers_t) (bd : nat) (pos : Z)
  : bool :=
  ((0 <=? pos) && (pos <? EVT_BUF_SIZE) &&
   (if tail buff bd <=? head buff bd
    then (tail buff bd <=? pos) && (pos <? head buff bd)
    else (tail buff bd <=? pos) || (pos <? head buff bd)))%bool.

(** Cursors of board [bd] are array indices. *)
Definition cursors_in_range (buff : WaveDemoBuffers_t) (bd : nat) : Prop :=
  0 <= head buff bd < EVT_BUF_SIZE /\ 0 <= tail buff bd < EVT_BUF_SIZE.

(** ** Statistics, configuration and run structs (WaveDemo.h) *)

(** One record per (board, channel) gathers the cells [X[b][ch]] of the
    [MAX_BD][MAX_CH] arrays of [WaveDemoStats_t]; every statement of the
    code that touches such an array touches only the cell of the current
    board and channel.  Counters and time stamps are [uint64_t], rates are
    [float]. *)
Record ChannelStats := {
  EvRead_cnt : Z;
  EvRead_pcnt : Z;
  EvRead_dcnt : Z;
  EvRead_rate : float;
  EvProcessed_cnt : Z;
  EvProcessed_pcnt : Z;
  EvInput_cnt : Z;
  EvInput_pcnt : Z;
  EvInput_rate : float;
  EvFilt_cnt : Z;
  EvFilt_pcnt : Z;
  EvFilt_rate : float;
  EvLost_cnt : Z;
  EvLost_pcnt : Z;
  EvLost_rate : float;
  DeadTime : float;
  MatchingRatio : float;
  EvOutput_rate : float;
  BusyTimeGap : Z;
  BusyTime : float;
  LatestReadTstamp : Z;
  PrevReadTstamp : Z;
  LatestProcTstamp : Z;
  PrevProcTstamp : Z;
  ICRUpdateTime : Z;
  PrevICRUpdateTime : Z;
  LostTrgUpdateTime : Z;
  PrevLostTrgUpdateTime : Z
}.

Definition set_EvRead_pcnt (v : Z) (c : ChannelStats) : ChannelStats :=
  {| EvRead_cnt := EvRead_cnt c; EvRead_pcnt := v;
     EvRead_dcnt := EvRead_dcnt c; EvRead_rate := EvRead_rate c;
     EvProcessed_cnt := EvProcessed_cnt c;
     EvProcessed_pcnt := EvProcessed_pcnt c; EvInput_cnt := EvInput_cnt c;
     EvInput_pcnt := EvInput_pcnt c; EvInput_rate := EvInput_rate c;
     EvFilt_cnt := EvFilt_cnt c; EvFilt_pcnt := EvFilt_pcnt c;
     EvFilt_rate := EvFilt_rate c; EvLost_cnt := EvLost_cnt c;
     EvLost_pcnt := EvLost_pcnt c; EvLost_rate := EvLost_rate c;
     DeadTime := DeadTime c; MatchingRatio := MatchingRatio c;
     EvOutput_rate := EvOutput_rate c; BusyTimeGap := BusyTimeGap c;
     BusyTime := BusyTime c; LatestReadTstamp := LatestReadTstamp c;
     PrevReadTstamp := PrevReadTstamp c;
     LatestProcTstamp := LatestProcTstamp c;
     PrevProcTstamp := PrevProcTstamp c; ICRUpdateTime := ICRUpdateTime c;
     PrevICRUpdateTime := PrevICRUpdateTime c;
     LostTrgUpdateTime := LostTrgUpdateTime c;
     PrevLostTrgUpdateTime := PrevLostTrgUpdateTime c |}.
Definition set_EvRead_dcnt (v : Z) (c : ChannelStats) : ChannelStats :=
  {| EvRead_cnt := EvRead_cnt c; EvRead_pcnt := EvRead_pcnt c;
     EvRead_dcnt := v; EvRead_rate := EvRead_rate c;
     EvProcessed_cnt := EvProcessed_cnt c;
     EvProcessed_pcnt := EvProcessed_pcnt c; EvInput_cnt := EvInput_cnt c;
     EvInput_pcnt := EvInput_pcnt c; EvInput_rate := EvInput_rate c;
     EvFilt_cnt := EvFilt_cnt c; EvFilt_pcnt := EvFilt_pcnt c;
     EvFilt_rate := EvFilt_rate c; EvLost_cnt := EvLost_cnt c;
     EvLost_pcnt := EvLost_pcnt c; EvLost_rate := EvLost_rate c;
     DeadTime := DeadTime c; MatchingRatio := MatchingRatio c;
     EvOutput_rate := EvOutput_rate c; BusyTimeGap := BusyTimeGap c;
     BusyTime := BusyTime c; LatestReadTstamp := LatestReadTstamp c;
     PrevReadTstamp := PrevReadTstamp c;
     LatestProcTstamp := LatestProcTstamp c;
     PrevProcTstamp := PrevProcTstamp c; ICRUpdateTime := ICRUpdateTime c;
     PrevICRUpdateTime := PrevICRUpdateTime c;
     LostTrgUpdateTime := LostTrgUpdateTime c;
     PrevLostTrgUpdateTime := PrevLostTrgUpdateTime c |}.
Definition set_EvRead_rate (v : float) (c : ChannelStats) : ChannelStats :=
  {| EvRead_cnt := EvRead_cnt c; EvRead_pcnt := EvRead_pcnt c;
     EvRead_dcnt := EvRead_dcnt c; EvRead_rate := v;
     EvProcessed_cnt := EvProcessed_cnt c;
     EvProcessed_pcnt := EvProcessed_pcnt c; EvInput_cnt := EvInput_cnt c;
     EvInput_pcnt := EvInput_pcnt c; EvInput_rate := EvInput_rate c;
     EvFilt_cnt := EvFilt_cnt c; EvFilt_pcnt := EvFilt_pcnt c;
     EvFilt_rate := EvFilt_rate c; EvLost_cnt := EvLost_cnt c;
     EvLost_pcnt := EvLost_pcnt c; EvLost_rate := EvLost_rate c;
     DeadTime := DeadTime c; MatchingRatio := MatchingRatio c;
     EvOutput_rate := EvOutput_rate c; BusyTimeGap := BusyTimeGap c;
     BusyTime := BusyTime c; LatestReadTstamp := LatestReadTstamp c;
     PrevReadTstamp := PrevReadTstamp c;
     LatestProcTstamp := LatestProcTstamp c;
     PrevProcTstamp := PrevProcTstamp c; ICRUpdateTime := ICRUpdateTime c;
     PrevICRUpdateTime := PrevICRUpdateTime c;
     LostTrgUpdateTime := LostTrgUpdateTime c;
     PrevLostTrgUpdateTime := PrevLostTrgUpdateTime c |}.
Definition set_EvProcessed_cnt (v : Z) (c : ChannelStats) : ChannelStats :=
  {| EvRead_cnt := EvRead_cnt c; EvRead_pcnt := EvRead_pcnt c;
     EvRead_dcnt := EvRead_dcnt c; EvRead_rate := EvRead_rate c;
     EvProcessed_cnt := v; EvProcessed_pcnt := EvProcessed_pcnt c;
     EvInput_cnt := EvInput_cnt c; EvInput_pcnt := EvInput_pcnt c;
     EvInput_rate := EvInput_rate c; EvFilt_cnt := EvFilt_cnt c;
     EvFilt_pcnt := EvFilt_pcnt c; EvFilt_rate := EvFilt_rate c;
     EvLost_cnt := EvLost_cnt c; EvLost_pcnt := EvLost_pcnt c;
     EvLost_rate := EvLost_rate c; DeadTime := DeadTime c;
     MatchingRatio := MatchingRatio c; EvOutput_rate := EvOutput_rate c;
     BusyTimeGap := BusyTimeGap c; BusyTime := BusyTime c;
     LatestReadTstamp := LatestReadTstamp c;
     PrevReadTstamp := PrevReadTstamp c;
     LatestProcTstamp := LatestProcTstamp c;
     PrevProcTstamp := PrevProcTstamp c; ICRUpdateTime := ICRUpdateTime c;
     PrevICRUpdateTime := PrevICRUpdateTime c;
     LostTrgUpdateTime := LostTrgUpdateTime c;
     PrevLostTrgUpdateTime := PrevLostTrgUpdateTime c |}.
Definition set_EvProcessed_pcnt (v : Z) (c : ChannelStats) : ChannelStats :=
  {| EvRead_cnt := EvRead_cnt c; EvRead_pcnt := EvRead_pcnt c;
     EvRead_dcnt := EvRead_dcnt c; EvRead_rate := EvRead_rate c;
     EvProcessed_cnt := EvProcessed_cnt c; EvProcessed_pcnt := v;
     EvInput_cnt := EvInput_cnt c; EvInput_pcnt := EvInput_pcnt c;
     EvInput_rate := EvInput_rate c; EvFilt_cnt := EvFilt_cnt c;
     EvFilt_pcnt := EvFilt_pcnt c; EvFilt_rate := EvFilt_rate c;
     EvLost_cnt := EvLost_cnt c; EvLost_pcnt := EvLost_pcnt c;
     EvLost_rate := EvLost_rate c; DeadTime := DeadTime c;
     MatchingRatio := MatchingRatio c; EvOutput_rate := EvOutput_rate c;
     BusyTimeGap := BusyTimeGap c; BusyTime := BusyTime c;
     LatestReadTstamp := LatestReadTstamp c;
     PrevReadTstamp := PrevReadTstamp c;
     LatestProcTstamp := LatestProcTstamp c;
     PrevProcTstamp := PrevProcTstamp c; ICRUpdateTime := ICRUpdateTime c;
     PrevICRUpdateTime := PrevICRUpdateTime c;
     LostTrgUpdateTime := LostTrgUpdateTime c;
     PrevLostTrgUpdateTime := PrevLostTrgUpdateTime c |}.
Definition set_EvInput_pcnt (v : Z) (c : ChannelStats) : ChannelStats :=
  {| EvRead_cnt := EvRead_cnt c; EvRead_pcnt := EvRead_pcnt c;
     EvRead_dcnt := EvRead_dcnt c; EvRead_rate := EvRead_rate c;
     EvProcessed_cnt := EvProcessed_cnt c;
     EvProcessed_pcnt := EvProcessed_pcnt c; EvInput_cnt := EvInput_cnt c;
     EvInput_pcnt := v; EvInput_rate := EvInput_rate c;
     EvFilt_cnt := EvFilt_cnt c; EvFilt_pcnt := EvFilt_pcnt c;
     EvFilt_rate := EvFilt_rate c; EvLost_cnt := EvLost_cnt c;
     EvLost_pcnt := EvLost_pcnt c; EvLost_rate := EvLost_rate c;
     DeadTime := DeadTime c; MatchingRatio := MatchingRatio c;
     EvOutput_rate := EvOutput_rate c; BusyTimeGap := BusyTimeGap c;
     BusyTime := BusyTime c; LatestReadTstamp := LatestReadTstamp c;
     PrevReadTstamp := PrevReadTstamp c;
     LatestProcTstamp := LatestProcTstamp c;
     PrevProcTstamp := PrevProcTstamp c; ICRUpdateTime := ICRUpdateTime c;
     PrevICRUpdateTime := PrevICRUpdateTime c;
     LostTrgUpdateTime := LostTrgUpdateTime c;
     PrevLostTrgUpdateTime := PrevLostTrgUpdateTime c |}.
Definition set_EvInput_rate (v : float) (c : ChannelStats) : ChannelStats :=
  {| EvRead_cnt := EvRead_cnt c; EvRead_pcnt := EvRead_pcnt c;
     EvRead_dcnt := EvRead_dcnt c; EvRead_rate := EvRead_rate c;
     EvProcessed_cnt := EvProcessed_cnt c;
     EvProcessed_pcnt := EvProcessed_pcnt c; EvInput_cnt := EvInput_cnt c;
     EvInput_pcnt := EvInput_pcnt c; EvInput_rate := v;
     EvFilt_cnt := EvFilt_cnt c; EvFilt_pcnt := EvFilt_pcnt c;
     EvFilt_rate := EvFilt_rate c; EvLost_cnt := EvLost_cnt c;
     EvLost_pcnt := EvLost_pcnt c; EvLost_rate := EvLost_rate c;
     DeadTime := DeadTime c; MatchingRatio := MatchingRatio c;
     EvOutput_rate := EvOutput_rate c; BusyTimeGap := BusyTimeGap c;
     BusyTime := BusyTime c; LatestReadTstamp := LatestReadTstamp c;
     PrevReadTstamp := PrevReadTstamp c;
     LatestProcTstamp := LatestProcTstamp c;
     PrevProcTstamp := PrevProcTstamp c; ICRUpdateTime := ICRUpdateTime c;
     PrevICRUpdateTime := PrevICRUpdateTime c;
     LostTrgUpdateTime := LostTrgUpdateTime c;
     PrevLostTrgUpdateTime := PrevLostTrgUpdateTime c |}.
Definition set_EvFilt_cnt (v : Z) (c : ChannelStats) : ChannelStats :=
  {| EvRead_cnt := EvRead_cnt c; EvRead_pcnt := EvRead_pcnt c;
     EvRead_dcnt := EvRead_dcnt c; EvRead_rate := EvRead_rate c;
     EvProcessed_cnt := EvProcessed_cnt c;
     EvProcessed_pcnt := EvProcessed_pcnt c; EvInput_cnt := EvInput_cnt c;
     EvInput_pcnt := EvInput_pcnt c; EvInput_rate := EvInput_rate c;
     EvFilt_cnt := v; EvFilt_pcnt := EvFilt_pcnt c;
     EvFilt_rate := EvFilt_rate c; EvLost_cnt := EvLost_cnt c;
     EvLost_pcnt := EvLost_pcnt c; EvLost_rate := EvLost_rate c;
     DeadTime := DeadTime c; MatchingRatio := MatchingRatio c;
     EvOutput_rate := EvOutput_rate c; BusyTimeGap := BusyTimeGap c;
     BusyTime := BusyTime c; LatestReadTstamp := LatestReadTstamp c;
     PrevReadTstamp := PrevReadTstamp c;
     LatestProcTstamp := LatestProcTstamp c;
     PrevProcTstamp := PrevProcTstamp c; ICRUpdateTime := ICRUpdateTime c;
     PrevICRUpdateTime := PrevICRUpdateTime c;
     LostTrgUpdateTime := LostTrgUpdateTime c;
     PrevLostTrgUpdateTime := PrevLostTrgUpdateTime c |}.
Definition set_EvFilt_pcnt (v : Z) (c : ChannelStats) : ChannelStats :=
  {| EvRead_cnt := EvRead_cnt c; EvRead_pcnt := EvRead_pcnt c;
     EvRead_dcnt := EvRead_dcnt c; EvRead_rate := EvRead_rate c;
     EvProcessed_cnt := EvProcessed_cnt c;
     EvProcessed_pcnt := EvProcessed_pcnt c; EvInput_cnt := EvInput_cnt c;
     EvInput_pcnt := EvInput_pcnt c; EvInput_rate := EvInput_rate c;
     EvFilt_cnt := EvFilt_cnt c; EvFilt_pcnt := v;
     EvFilt_rate := EvFilt_rate c; EvLost_cnt := EvLost_cnt c;
     EvLost_pcnt := EvLost_pcnt c; EvLost_rate := EvLost_rate c;
     DeadTime := DeadTime c; MatchingRatio := MatchingRatio c;
     EvOutput_rate := EvOutput_rate c; BusyTimeGap := BusyTimeGap c;
     BusyTime := BusyTime c; LatestReadTstamp := LatestReadTstamp c;
     PrevReadTstamp := PrevReadTstamp c;
     LatestProcTstamp := LatestProcTstamp c;
     PrevProcTstamp := PrevProcTstamp c; ICRUpdateTime := ICRUpdateTime c;
     PrevICRUpdateTime := PrevICRUpdateTime c;
     LostTrgUpdateTime := LostTrgUpdateTime c;
     PrevLostTrgUpdateTime := PrevLostTrgUpdateTime c |}.
Definition set_EvFilt_rate (v : float) (c : ChannelStats) : ChannelStats :=
  {| EvRead_cnt := EvRead_cnt c; EvRead_pcnt := EvRead_pcnt c;
     EvRead_dcnt := EvRead_dcnt c; EvRead_rate := EvRead_rate c;
     EvProcessed_cnt := EvProcessed_cnt c;
     EvProcessed_pcnt := EvProcessed_pcnt c; EvInput_cnt := EvInput_cnt c;
     EvInput_pcnt := EvInput_pcnt c; EvInput_rate := EvInput_rate c;
     EvFilt_cnt := EvFilt_cnt c; EvFilt_pcnt := EvFilt_pcnt c;
     EvFilt_rate := v; EvLost_cnt := EvLost_cnt c;
     EvLost_pcnt := EvLost_pcnt c; EvLost_rate := EvLost_rate c;
     DeadTime := DeadTime c; MatchingRatio := MatchingRatio c;
     EvOutput_rate := EvOutput_rate c; BusyTimeGap := BusyTimeGap c;
     BusyTime := BusyTime c; LatestReadTstamp := LatestReadTstamp c;
     PrevReadTstamp := PrevReadTstamp c;
     LatestProcTstamp := LatestProcTstamp c;
     PrevProcTstamp := PrevProcTstamp c; ICRUpdateTime := ICRUpdateTime c;
     PrevICRUpdateTime := PrevICRUpdateTime c;
     LostTrgUpdateTime := LostTrgUpdateTime c;
     PrevLostTrgUpdateTime := PrevLostTrgUpdateTime c |}.
Definition set_EvLost_cnt (v : Z) (c : ChannelStats) : ChannelStats :=
  {| EvRead_cnt := EvRead_cnt c; EvRead_pcnt := EvRead_pcnt c;
     EvRead_dcnt := EvRead_dcnt c; EvRead_rate := EvRead_rate c;
     EvProcessed_cnt := EvProcessed_cnt c;
     EvProcessed_pcnt := EvProcessed_pcnt c; EvInput_cnt := EvInput_cnt c;
     EvInput_pcnt := EvInput_pcnt c; EvInput_rate := EvInput_rate c;
     EvFilt_cnt := EvFilt_cnt c; EvFilt_pcnt := EvFilt_pcnt c;
     EvFilt_rate := EvFilt_rate c; EvLost_cnt := v;
     EvLost_pcnt := EvLost_pcnt c; EvLost_rate := EvLost_rate c;
     DeadTime := DeadTime c; MatchingRatio := MatchingRatio c;
     EvOutput_rate := EvOutput_rate c; BusyTimeGap := BusyTimeGap c;
     BusyTime := BusyTime c; LatestReadTstamp := LatestReadTstamp c;
     PrevReadTstamp := PrevReadTstamp c;
     LatestProcTstamp := LatestProcTstamp c;
     PrevProcTstamp := PrevProcTstamp c; ICRUpdateTime := ICRUpdateTime c;
     PrevICRUpdateTime := PrevICRUpdateTime c;
     LostTrgUpdateTime := LostTrgUpdateTime c;
     PrevLostTrgUpdateTime := PrevLostTrgUpdateTime c |}.
Definition set_EvLost_pcnt (v : Z) (c : ChannelStats) : ChannelStats :=
  {| EvRead_cnt := EvRead_cnt c; EvRead_pcnt := EvRead_pcnt c;
     EvRead_dcnt := EvRead_dcnt c; EvRead_rate := EvRead_rate c;
     EvProcessed_cnt := EvProcessed_cnt c;
     EvProcessed_pcnt := EvProcessed_pcnt c; EvInput_cnt := EvInput_cnt c;
     EvInput_pcnt := EvInput_pcnt c; EvInput_rate := EvInput_rate c;
     EvFilt_cnt := EvFilt_cnt c; EvFilt_pcnt := EvFilt_pcnt c;
     EvFilt_rate := EvFilt_rate c; EvLost_cnt := EvLost_cnt c;
     EvLost_pcnt := v; EvLost_rate := EvLost_rate c; DeadTime := DeadTime c;
     MatchingRatio := MatchingRatio c; EvOutput_rate := EvOutput_rate c;
     BusyTimeGap := BusyTimeGap c; BusyTime := BusyTime c;
     LatestReadTstamp := LatestReadTstamp c;
     PrevReadTstamp := PrevReadTstamp c;
     LatestProcTstamp := LatestProcTstamp c;
     PrevProcTstamp := PrevProcTstamp c; ICRUpdateTime := ICRUpdateTime c;
     PrevICRUpdateTime := PrevICRUpdateTime c;
     LostTrgUpdateTime := LostTrgUpdateTime c;
     PrevLostTrgUpdateTime := PrevLostTrgUpdateTime c |}.
Definition set_EvLost_rate (v : float) (c : ChannelStats) : ChannelStats :=
  {| EvRead_cnt := EvRead_cnt c; EvRead_pcnt := EvRead_pcnt c;
     EvRead_dcnt := EvRead_dcnt c; EvRead_rate := EvRead_rate c;
     EvProcessed_cnt := EvProcessed_cnt c;
     EvProcessed_pcnt := EvProcessed_pcnt c; EvInput_cnt := EvInput_cnt c;
     EvInput_pcnt := EvInput_pcnt c; EvInput_rate := EvInput_rate c;
     EvFilt_cnt := EvFilt_cnt c; EvFilt_pcnt := EvFilt_pcnt c;
     EvFilt_rate := EvFilt_rate c; EvLost_cnt := EvLost_cnt c;
     EvLost_pcnt := EvLost_pcnt c; EvLost_rate := v; DeadTime := DeadTime c;
     MatchingRatio := MatchingRatio c; EvOutput_rate := EvOutput_rate c;
     BusyTimeGap := BusyTimeGap c; BusyTime := BusyTime c;
     LatestReadTstamp := LatestReadTstamp c;
     PrevReadTstamp := PrevReadTstamp c;
     LatestProcTstamp := LatestProcTstamp c;
     PrevProcTstamp := PrevProcTstamp c; ICRUpdateTime := ICRUpdateTime c;
     PrevICRUpdateTime := PrevICRUpdateTime c;
     LostTrgUpdateTime := LostTrgUpdateTime c;
     PrevLostTrgUpdateTime := PrevLostTrgUpdateTime c |}.
Definition set_DeadTime (v : float) (c : ChannelStats) : ChannelStats :=
  {| EvRead_cnt := EvRead_cnt c; EvRead_pcnt := EvRead_pcnt c;
     EvRead_dcnt := EvRead_dcnt c; EvRead_rate := EvRead_rate c;
     EvProcessed_cnt := EvProcessed_cnt c;
     EvProcessed_pcnt := EvProcessed_pcnt c; EvInput_cnt := EvInput_cnt c;
     EvInput_pcnt := EvInput_pcnt c; EvInput_rate := EvInput_rate c;
     EvFilt_cnt := EvFilt_cnt c; EvFilt_pcnt := EvFilt_pcnt c;
     EvFilt_rate := EvFilt_rate c; EvLost_cnt := EvLost_cnt c;
     EvLost_pcnt := EvLost_pcnt c; EvLost_rate := EvLost_rate c;
     DeadTime := v; MatchingRatio := MatchingRatio c;
     EvOutput_rate := EvOutput_rate c; BusyTimeGap := BusyTimeGap c;
     BusyTime := BusyTime c; LatestReadTstamp := LatestReadTstamp c;
     PrevReadTstamp := PrevReadTstamp c;
     LatestProcTstamp := LatestProcTstamp c;
     PrevProcTstamp := PrevProcTstamp c; ICRUpdateTime := ICRUpdateTime c;
     PrevICRUpdateTime := PrevICRUpdateTime c;
     LostTrgUpdateTime := LostTrgUpdateTime c;
     PrevLostTrgUpdateTime := PrevLostTrgUpdateTime c |}.
Definition set_MatchingRatio (v : float) (c : ChannelStats) : ChannelStats :=
  {| EvRead_cnt := EvRead_cnt c; EvRead_pcnt := EvRead_pcnt c;
     EvRead_dcnt := EvRead_dcnt c; EvRead_rate := EvRead_rate c;
     EvProcessed_cnt := EvProcessed_cnt c;
     EvProcessed_pcnt := EvProcessed_pcnt c; EvInput_cnt := EvInput_cnt c;
     EvInput_pcnt := EvInput_pcnt c; EvInput_rate := EvInput_rate c;
     EvFilt_cnt := EvFilt_cnt c; EvFilt_pcnt := EvFilt_pcnt c;
     EvFilt_rate := EvFilt_rate c; EvLost_cnt := EvLost_cnt c;
     EvLost_pcnt := EvLost_pcnt c; EvLost_rate := EvLost_rate c;
     DeadTime := DeadTime c; MatchingRatio := v;
     EvOutput_rate := EvOutput_rate c; BusyTimeGap := BusyTimeGap c;
     BusyTime := BusyTime c; LatestReadTstamp := LatestReadTstamp c;
     PrevReadTstamp := PrevReadTstamp c;
     LatestProcTstamp := LatestProcTstamp c;
     PrevProcTstamp := PrevProcTstamp c; ICRUpdateTime := ICRUpdateTime c;
     PrevICRUpdateTime := PrevICRUpdateTime c;
     LostTrgUpdateTime := LostTrgUpdateTime c;
     PrevLostTrgUpdateTime := PrevLostTrgUpdateTime c |}.
Definition set_EvOutput_rate (v : float) (c : ChannelStats) : ChannelStats :=
  {| EvRead_cnt := EvRead_cnt c; EvRead_pcnt := EvRead_pcnt c;
     EvRead_dcnt := EvRead_dcnt c; EvRead_rate := EvRead_rate c;
     EvProcessed_cnt := EvProcessed_cnt c;
     EvProcessed_pcnt := EvProcessed_pcnt c; EvInput_cnt := EvInput_cnt c;
     EvInput_pcnt := EvInput_pcnt c; EvInput_rate := EvInput_rate c;
     EvFilt_cnt := EvFilt_cnt c; EvFilt_pcnt := EvFilt_pcnt c;
     EvFilt_rate := EvFilt_rate c; EvLost_cnt := EvLost_cnt c;
     EvLost_pcnt := EvLost_pcnt c; EvLost_rate := EvLost_rate c;
     DeadTime := DeadTime c; MatchingRatio := MatchingRatio c;
     EvOutput_rate := v; BusyTimeGap := BusyTimeGap c;
     BusyTime := BusyTime c; LatestReadTstamp := LatestReadTstamp c;
     PrevReadTstamp := PrevReadTstamp c;
     LatestProcTstamp := LatestProcTstamp c;
     PrevProcTstamp := PrevProcTstamp c; ICRUpdateTime := ICRUpdateTime c;
     PrevICRUpdateTime := PrevICRUpdateTime c;
     LostTrgUpdateTime := LostTrgUpdateTime c;
     PrevLostTrgUpdateTime := PrevLostTrgUpdateTime c |}.
Definition set_BusyTimeGap (v : Z) (c : ChannelStats) : ChannelStats :=
  {| EvRead_cnt := EvRead_cnt c; EvRead_pcnt := EvRead_pcnt c;
     EvRead_dcnt := EvRead_dcnt c; EvRead_rate := EvRead_rate c;
     EvProcessed_cnt := EvProcessed_cnt c;
     EvProcessed_pcnt := EvProcessed_pcnt c; EvInput_cnt := EvInput_cnt c;
     EvInput_pcnt := EvInput_pcnt c; EvInput_rate := EvInput_rate c;
     EvFilt_cnt := EvFilt_cnt c; EvFilt_pcnt := EvFilt_pcnt c;
     EvFilt_rate := EvFilt_rate c; EvLost_cnt := EvLost_cnt c;
     EvLost_pcnt := EvLost_pcnt c; EvLost_rate := EvLost_rate c;
     DeadTime := DeadTime c; MatchingRatio := MatchingRatio c;
     EvOutput_rate := EvOutput_rate c; BusyTimeGap := v;
     BusyTime := BusyTime c; LatestReadTstamp := LatestReadTstamp c;
     PrevReadTstamp := PrevReadTstamp c;
     LatestProcTstamp := LatestProcTstamp c;
     PrevProcTstamp := PrevProcTstamp c; ICRUpdateTime := ICRUpdateTime c;
     PrevICRUpdateTime := PrevICRUpdateTime c;
     LostTrgUpdateTime := LostTrgUpdateTime c;
     PrevLostTrgUpdateTime := PrevLostTrgUpdateTime c |}.
Definition set_BusyTime (v : float) (c : ChannelStats) : ChannelStats :=
  {| EvRead_cnt := EvRead_cnt c; EvRead_pcnt := EvRead_pcnt c;
     EvRead_dcnt := EvRead_dcnt c; EvRead_rate := EvRead_rate c;
     EvProcessed_cnt := EvProcessed_cnt c;
     EvProcessed_pcnt := EvProcessed_pcnt c; EvInput_cnt := EvInput_cnt c;
     EvInput_pcnt := EvInput_pcnt c; EvInput_rate := EvInput_rate c;
     EvFilt_cnt := EvFilt_cnt c; EvFilt_pcnt := EvFilt_pcnt c;
     EvFilt_rate := EvFilt_rate c; EvLost_cnt := EvLost_cnt c;
     EvLost_pcnt := EvLost_pcnt c; EvLost_rate := EvLost_rate c;
     DeadTime := DeadTime c; MatchingRatio := MatchingRatio c;
     EvOutput_rate := EvOutput_rate c; BusyTimeGap := BusyTimeGap c;
     BusyTime := v; LatestReadTstamp := LatestReadTstamp c;
     PrevReadTstamp := PrevReadTstamp c;
     LatestProcTstamp := LatestProcTstamp c;
     PrevProcTstamp := PrevProcTstamp c; ICRUpdateTime := ICRUpdateTime c;
     PrevICRUpdateTime := PrevICRUpdateTime c;
     LostTrgUpdateTime := LostTrgUpdateTime c;
     PrevLostTrgUpdateTime := PrevLostTrgUpdateTime c |}.
Definition set_PrevReadTstamp (v : Z) (c : ChannelStats) : ChannelStats :=
  {| EvRead_cnt := EvRead_cnt c; EvRead_pcnt := EvRead_pcnt c;
     EvRead_dcnt := EvRead_dcnt c; EvRead_rate := EvRead_rate c;
     EvProcessed_cnt := EvProcessed_cnt c;
     EvProcessed_pcnt := EvProcessed_pcnt c; EvInput_cnt := EvInput_cnt c;
     EvInput_pcnt := EvInput_pcnt c; EvInput_rate := EvInput_rate c;
     EvFilt_cnt := EvFilt_cnt c; EvFilt_pcnt := EvFilt_pcnt c;
     EvFilt_rate := EvFilt_rate c; EvLost_cnt := EvLost_cnt c;
     EvLost_pcnt := EvLost_pcnt c; EvLost_rate := EvLost_rate c;
     DeadTime := DeadTime c; MatchingRatio := MatchingRatio c;
     EvOutput_rate := EvOutput_rate c; BusyTimeGap := BusyTimeGap c;
     BusyTime := BusyTime c; LatestReadTstamp := LatestReadTstamp c;
     PrevReadTstamp := v; LatestProcTstamp := LatestProcTstamp c;
     PrevProcTstamp := PrevProcTstamp c; ICRUpdateTime := ICRUpdateTime c;
     PrevICRUpdateTime := PrevICRUpdateTime c;
     LostTrgUpdateTime := LostTrgUpdateTime c;
     PrevLostTrgUpdateTime := PrevLostTrgUpdateTime c |}.
Definition set_PrevProcTstamp (v : Z) (c : ChannelStats) : ChannelStats :=
  {| EvRead_cnt := EvRead_cnt c; EvRead_pcnt := EvRead_pcnt c;
     EvRead_dcnt := EvRead_dcnt c; EvRead_rate := EvRead_rate c;
     EvProcessed_cnt := EvProcessed_cnt c;
     EvProcessed_pcnt := EvProcessed_pcnt c; EvInput_cnt := EvInput_cnt c;
     EvInput_pcnt := EvInput_pcnt c; EvInput_rate := EvInput_rate c;
     EvFilt_cnt := EvFilt_cnt c; EvFilt_pcnt := EvFilt_pcnt c;
     EvFilt_rate := EvFilt_rate c; EvLost_cnt := EvLost_cnt c;
     EvLost_pcnt := EvLost_pcnt c; EvLost_rate := EvLost_rate c;
     DeadTime := DeadTime c; MatchingRatio := MatchingRatio c;
     EvOutput_rate := EvOutput_rate c; BusyTimeGap := BusyTimeGap c;
     BusyTime := BusyTime c; LatestReadTstamp := LatestReadTstamp c;
     PrevReadTstamp := PrevReadTstamp c;
     LatestProcTstamp := LatestProcTstamp c; PrevProcTstamp := v;
     ICRUpdateTime := ICRUpdateTime c;
     PrevICRUpdateTime := PrevICRUpdateTime c;
     LostTrgUpdateTime := LostTrgUpdateTime c;
     PrevLostTrgUpdateTime := PrevLostTrgUpdateTime c |}.
Definition set_PrevICRUpdateTime (v : Z) (c : ChannelStats) : ChannelStats :=
  {| EvRead_cnt := EvRead_cnt c; EvRead_pcnt := EvRead_pcnt c;
     EvRead_dcnt := EvRead_dcnt c; EvRead_rate := EvRead_rate c;
     EvProcessed_cnt := EvProcessed_cnt c;
     EvProcessed_pcnt := EvProcessed_pcnt c; EvInput_cnt := EvInput_cnt c;
     EvInput_pcnt := EvInput_pcnt c; EvInput_rate := EvInput_rate c;
     EvFilt_cnt := EvFilt_cnt c; EvFilt_pcnt := EvFilt_pcnt c;
     EvFilt_rate := EvFilt_rate c; EvLost_cnt := EvLost_cnt c;
     EvLost_pcnt := EvLost_pcnt c; EvLost_rate := EvLost_rate c;
     DeadTime := DeadTime c; MatchingRatio := MatchingRatio c;
     EvOutput_rate := EvOutput_rate c; BusyTimeGap := BusyTimeGap c;
     BusyTime := BusyTime c; LatestReadTstamp := LatestReadTstamp c;
     PrevReadTstamp := PrevReadTstamp c;
     LatestProcTstamp := LatestProcTstamp c;
     PrevProcTstamp := PrevProcTstamp c; ICRUpdateTime := ICRUpdateTime c;
     PrevICRUpdateTime := v; LostTrgUpdateTime := LostTrgUpdateTime c;
     PrevLostTrgUpdateTime := PrevLostTrgUpdateTime c |}.
Definition set_PrevLostTrgUpdateTime (v : Z) (c : ChannelStats) : ChannelStats :=
  {| EvRead_cnt := EvRead_cnt c; EvRead_pcnt := EvRead_pcnt c;
     EvRead_dcnt := EvRead_dcnt c; EvRead_rate := EvRead_rate c;
     EvProcessed_cnt := EvProcessed_cnt c;
     EvProcessed_pcnt := EvProcessed_pcnt c; EvInput_cnt := EvInput_cnt c;
     EvInput_pcnt := EvInput_pcnt c; EvInput_rate := EvInput_rate c;
     EvFilt_cnt := EvFilt_cnt c; EvFilt_pcnt := EvFilt_pcnt c;
     EvFilt_rate := EvFilt_rate c; EvLost_cnt := EvLost_cnt c;
     EvLost_pcnt := EvLost_pcnt c; EvLost_rate := EvLost_rate c;
     DeadTime := DeadTime c; MatchingRatio := MatchingRatio c;
     EvOutput_rate := EvOutput_rate c; BusyTimeGap := BusyTimeGap c;
     BusyTime := BusyTime c; LatestReadTstamp := LatestReadTstamp c;
     PrevReadTstamp := PrevReadTstamp c;
     LatestProcTstamp := LatestProcTstamp c;
     PrevProcTstamp := PrevProcTstamp c; ICRUpdateTime := ICRUpdateTime c;
     PrevICRUpdateTime := PrevICRUpdateTime c;
     LostTrgUpdateTime := LostTrgUpdateTime c; PrevLostTrgUpdateTime := v |}.

(** The scalar members of [WaveDemoStats_t], and the per-channel cells. *)
Record WaveDemoStats_t := {
  RxByte_cnt : Z;
  RxByte_pcnt : Z;
  RxByte_rate : float;
  BlockRead_cnt : Z;
  TotEvRead_cnt : Z;
  UnSyncEv_cnt : Z;
  StartTime : Z;
  LastUpdateTime : Z;
  AcqRealTime : float;
  AcqStopTime : float;
  RealTimeSource : Z;
  LatestProcTstampAll : Z;
  PrevProcTstampAll : Z;
  chan : nat -> nat -> ChannelStats
}.

Definition set_RxByte_pcnt (v : Z) (s : WaveDemoStats_t) : WaveDemoStats_t :=
  {| RxByte_cnt := RxByte_cnt s; RxByte_pcnt := v;
     RxByte_rate := RxByte_rate s; BlockRead_cnt := BlockRead_cnt s;
     TotEvRead_cnt := TotEvRead_cnt s; UnSyncEv_cnt := UnSyncEv_cnt s;
     StartTime := StartTime s; LastUpdateTime := LastUpdateTime s;
     AcqRealTime := AcqRealTime s; AcqStopTime := AcqStopTime s;
     RealTimeSource := RealTimeSource s;
     LatestProcTstampAll := LatestProcTstampAll s;
     PrevProcTstampAll := PrevProcTstampAll s; chan := chan s |}.
Definition set_RxByte_rate (v : float) (s : WaveDemoStats_t) : WaveDemoStats_t :=
  {| RxByte_cnt := RxByte_cnt s; RxByte_pcnt := RxByte_pcnt s;
     RxByte_rate := v; BlockRead_cnt := BlockRead_cnt s;
     TotEvRead_cnt := TotEvRead_cnt s; UnSyncEv_cnt := UnSyncEv_cnt s;
     StartTime := StartTime s; LastUpdateTime := LastUpdateTime s;
     AcqRealTime := AcqRealTime s; AcqStopTime := AcqStopTime s;
     RealTimeSource := RealTimeSource s;
     LatestProcTstampAll := LatestProcTstampAll s;
     PrevProcTstampAll := PrevProcTstampAll s; chan := chan s |}.
Definition set_BlockRead_cnt (v : Z) (s : WaveDemoStats_t) : WaveDemoStats_t :=
  {| RxByte_cnt := RxByte_cnt s; RxByte_pcnt := RxByte_pcnt s;
     RxByte_rate := RxByte_rate s; BlockRead_cnt := v;
     TotEvRead_cnt := TotEvRead_cnt s; UnSyncEv_cnt := UnSyncEv_cnt s;
     StartTime := StartTime s; LastUpdateTime := LastUpdateTime s;
     AcqRealTime := AcqRealTime s; AcqStopTime := AcqStopTime s;
     RealTimeSource := RealTimeSource s;
     LatestProcTstampAll := LatestProcTstampAll s;
     PrevProcTstampAll := PrevProcTstampAll s; chan := chan s |}.
Definition set_UnSyncEv_cnt (v : Z) (s : WaveDemoStats_t) : WaveDemoStats_t :=
  {| RxByte_cnt := RxByte_cnt s; RxByte_pcnt := RxByte_pcnt s;
     RxByte_rate := RxByte_rate s; BlockRead_cnt := BlockRead_cnt s;
     TotEvRead_cnt := TotEvRead_cnt s; UnSyncEv_cnt := v;
     StartTime := StartTime s; LastUpdateTime := LastUpdateTime s;
     AcqRealTime := AcqRealTime s; AcqStopTime := AcqStopTime s;
     RealTimeSource := RealTimeSource s;
     LatestProcTstampAll := LatestProcTstampAll s;
     PrevProcTstampAll := PrevProcTstampAll s; chan := chan s |}.
Definition set_LastUpdateTime (v : Z) (s : WaveDemoStats_t) : WaveDemoStats_t :=
  {| RxByte_cnt := RxByte_cnt s; RxByte_pcnt := RxByte_pcnt s;
     RxByte_rate := RxByte_rate s; BlockRead_cnt := BlockRead_cnt s;
     TotEvRead_cnt := TotEvRead_cnt s; UnSyncEv_cnt := UnSyncEv_cnt s;
     StartTime := StartTime s; LastUpdateTime := v;
     AcqRealTime := AcqRealTime s; AcqStopTime := AcqStopTime s;
     RealTimeSource := RealTimeSource s;
     LatestProcTstampAll := LatestProcTstampAll s;
     PrevProcTstampAll := PrevProcTstampAll s; chan := chan s |}.
Definition set_AcqRealTime (v : float) (s : WaveDemoStats_t) : WaveDemoStats_t :=
  {| RxByte_cnt := RxByte_cnt s; RxByte_pcnt := RxByte_pcnt s;
     RxByte_rate := RxByte_rate s; BlockRead_cnt := BlockRead_cnt s;
     TotEvRead_cnt := TotEvRead_cnt s; UnSyncEv_cnt := UnSyncEv_cnt s;
     StartTime := StartTime s; LastUpdateTime := LastUpdateTime s;
     AcqRealTime := v; AcqStopTime := AcqStopTime s;
     RealTimeSource := RealTimeSource s;
     LatestProcTstampAll := LatestProcTstampAll s;
     PrevProcTstampAll := PrevProcTstampAll s; chan := chan s |}.
Definition set_RealTimeSource (v : Z) (s : WaveDemoStats_t) : WaveDemoStats_t :=
  {| RxByte_cnt := RxByte_cnt s; RxByte_pcnt := RxByte_pcnt s;
     RxByte_rate := RxByte_rate s; BlockRead_cnt := BlockRead_cnt s;
     TotEvRead_cnt := TotEvRead_cnt s; UnSyncEv_cnt := UnSyncEv_cnt s;
     StartTime := StartTime s; LastUpdateTime := LastUpdateTime s;
     AcqRealTime := AcqRealTime s; AcqStopTime := AcqStopTime s;
     RealTimeSource := v; LatestProcTstampAll := LatestProcTstampAll s;
     PrevProcTstampAll := PrevProcTstampAll s; chan := chan s |}.
Definition set_PrevProcTstampAll (v : Z) (s : WaveDemoStats_t) : WaveDemoStats_t :=
  {| RxByte_cnt := RxByte_cnt s; RxByte_pcnt := RxByte_pcnt s;
     RxByte_rate := RxByte_rate s; BlockRead_cnt := BlockRead_cnt s;
     TotEvRead_cnt := TotEvRead_cnt s; UnSyncEv_cnt := UnSyncEv_cnt s;
     StartTime := StartTime s; LastUpdateTime := LastUpdateTime s;
     AcqRealTime := AcqRealTime s; AcqStopTime := AcqStopTime s;
     RealTimeSource := RealTimeSource s;
     LatestProcTstampAll := LatestProcTstampAll s; PrevProcTstampAll := v;
     chan := chan s |}.
Definition set_chan (v : nat -> nat -> ChannelStats) (s : WaveDemoStats_t) : WaveDemoStats_t :=
  {| RxByte_cnt := RxByte_cnt s; RxByte_pcnt := RxByte_pcnt s;
     RxByte_rate := RxByte_rate s; BlockRead_cnt := BlockRead_cnt s;
     TotEvRead_cnt := TotEvRead_cnt s; UnSyncEv_cnt := UnSyncEv_cnt s;
     StartTime := StartTime s; LastUpdateTime := LastUpdateTime s;
     AcqRealTime := AcqRealTime s; AcqStopTime := AcqStopTime s;
     RealTimeSource := RealTimeSource s;
     LatestProcTstampAll := LatestProcTstampAll s;
     PrevProcTstampAll := PrevProcTstampAll s; chan := v |}.

(** The members of [WaveDemoConfig_t] the core reads or writes:
    [handles[b].Nch], [boards[b].channels[ch].ChannelEnable] (a [char]),
    [boards[b].RefChannel], [TOFstartBoard] and [handles[b].RefEvent]. *)
Record WaveDemoConfig_t := {
  NumBoards : Z;
  Nch : nat -> Z;
  ChannelEnable : nat -> nat -> Z;
  RefChannel : nat -> Z;
  TOFstartBoard : Z;
  RefEvent : nat -> option WaveDemoEvent_t
}.

Definition set_RefEvent (v : nat -> option WaveDemoEvent_t)
  (cfg : WaveDemoConfig_t) : WaveDemoConfig_t :=
  {| NumBoards := NumBoards cfg; Nch := Nch cfg;
     ChannelEnable := ChannelEnable cfg; RefChannel := RefChannel cfg;
     TOFstartBoard := TOFstartBoard cfg; RefEvent := v |}.

Record WaveDemoRun_t := {
  AcqRun : Z;
  IntegratedRates : Z
}.

(** The process-wide state: the four global structs and the text written
    to [MsgLog] by [msg_printf], oldest line first. *)
Record World := {
  WDbuff : WaveDemoBuffers_t;
  WDstats : WaveDemoStats_t;
  WDcfg : WaveDemoConfig_t;
  WDrun : WaveDemoRun_t;
  MsgLog : list string
}.

Definition set_WDbuff (v : WaveDemoBuffers_t) (w : World) : World :=
  {| WDbuff := v; WDstats := WDstats w; WDcfg := WDcfg w; WDrun := WDrun w;
     MsgLog := MsgLog w |}.
Definition set_WDstats (v : WaveDemoStats_t) (w : World) : World :=
  {| WDbuff := WDbuff w; WDstats := v; WDcfg := WDcfg w; WDrun := WDrun w;
     MsgLog := MsgLog w |}.
Definition set_WDcfg (v : WaveDemoConfig_t) (w : World) : World :=
  {| WDbuff := WDbuff w; WDstats := WDstats w; WDcfg := v; WDrun := WDrun w;
     MsgLog := MsgLog w |}.
Definition msg_printf (line : string) (w : World) : World :=
  {| WDbuff := WDbuff w; WDstats := WDstats w; WDcfg := WDcfg w;
     WDrun := WDrun w; MsgLog := MsgLog w ++ [line] |}.

(** [WDstats.X[b][ch] = f (WDstats.X[b][ch])] for the cell of one channel. *)
Definition on_chan (b ch : nat) (f : ChannelStats -> ChannelStats)
  (s : WaveDemoStats_t) : WaveDemoStats_t :=
  set_chan (upd2 (chan s) b ch (f (chan s b ch))) s.

(** [for (ch = 0; ch < handles[bd].Nch; ch++) if (ChannelEnable) f] *)
Definition for_enabled_channels (cfg : WaveDemoConfig_t) (bd : nat)
  (f : nat -> WaveDemoStats_t -> WaveDemoStats_t) (s : WaveDemoStats_t)
  : WaveDemoStats_t :=
  for_loop (Nch cfg bd)
    (fun ch acc => if truthy (ChannelEnable cfg bd ch) then f ch acc else acc)
    s.

(** The same loop with a body that can fault. *)
Definition for_enabled_channels_opt (cfg : WaveDemoConfig_t) (bd : nat)
  (f : nat -> WaveDemoStats_t -> option WaveDemoStats_t)
  (s : WaveDemoStats_t) : option WaveDemoStats_t :=
  for_loop_opt (Nch cfg bd)
    (fun ch acc =>
       if truthy (ChannelEnable cfg bd ch) then f ch acc else Some acc)
    s.

(** ** Event processing (WaveDemo.c) *)

(** [EventProcessing], lines 361-393, called for every accepted channel
    of an event.  It fills the energy and time histograms and writes the
    output files, none of which is part of [World], and it returns 0.
    For the time spectrum it reads the reference event, unconditionally
    (lines 374-375):
    [WDcfg.handles[BrdRef].RefEvent->Event->DataGroup[ChRef / 2].TDC]
    with [BrdRef = WDcfg.TOFstartBoard].  [None] is this dereference when
    [RefEvent] is NULL, or when [BrdRef] is no index of [handles[MAX_BD]].
    Only whether the pointer is NULL matters to [World]; what it points
    to goes to the histograms. *)
Definition EventProcessing (cfg : WaveDemoConfig_t) (bd ch : nat)
  (event : WaveDemoEvent_t) : option Z :=
  let BrdRef := TOFstartBoard cfg in
  if ((0 <=? BrdRef) && (BrdRef <? MAX_BD))%bool then
    match RefEvent cfg (Z.to_nat BrdRef) with
    | Some _ => Some 0
    | None => None
    end
  else None.

(** ** The cross-board synchroniser (WaveDemo.c) *)

Definition WARN_UNSYNC : string := "WARN: events unsynchronized found!".

(** The locals of [ProcessesSynchronizedEvents] that live across the
    statements of one iteration: [events] and [TDC_min] are declared at
    function level and keep their value from one iteration to the next;
    [event_good] and [count_sync_evt] are initialised by every iteration. *)
Record SyncLocals := {
  events : nat -> option WaveDemoEvent_t;
  TDC_min : Z;
  event_good : nat -> Z;
  count_sync_evt : Z
}.

Definition initial_locals : SyncLocals :=
  {| events := fun _ => None; TDC_min := 0;
     event_good := fun _ => 0; count_sync_evt := 0 |}.

(** What one iteration of the round loop does: it leaves the function with
    [return 0], or it dereferences a NULL pointer (an event, or the
    reference event in [EventProcessing]), or it completes. *)
Inductive RoundResult :=
| RoundReturn0
| RoundFault
| RoundDone (l : SyncLocals) (w : World).

(** Lines 602-607: peek the oldest event of every board; [None] is the
    [return 0] of an empty buffer.  A failed [WDBuff_peak] leaves
    [events[bd]] as it was. *)
Fixpoint peek_boards (bds : list nat) (buff : WaveDemoBuffers_t)
  (ev : nat -> option WaveDemoEvent_t)
  : option (nat -> option WaveDemoEvent_t) :=
  match bds with
  | [] => Some ev
  | bd :: rest =>
      if truthy (WDBuff_empty buff bd) then None
      else
        let ev' := match snd (WDBuff_peak buff bd) with
                   | Some e => upd ev bd (Some e)
                   | None => ev
                   end in
        peek_boards rest buff ev'
  end.

(** [events[bd]->Event->DataGroup[RefChannel / 2].TDC] *)
Definition ref_TDC (cfg : WaveDemoConfig_t) (bd : nat) (e : WaveDemoEvent_t)
  : Z :=
  DataGroup_TDC e (Z.to_nat (Z.quot (RefChannel cfg bd) 2)).

(** Lines 614-618: the loop over boards 1 .. NumBoards-1; [None] is the
    dereference of a NULL [events[bd]]. *)
Fixpoint min_loop (bds : list nat) (cfg : WaveDemoConfig_t)
  (ev : nat -> option WaveDemoEvent_t) (tmin : Z) : option Z :=
  match bds with
  | [] => Some tmin
  | bd :: rest =>
      match ev bd with
      | None => None
      | Some e =>
          min_loop rest cfg ev
            (if ref_TDC cfg bd e <? tmin then ref_TDC cfg bd e else tmin)
      end
  end.

(** Lines 609-618. *)
Definition minimum_timestamp (cfg : WaveDemoConfig_t)
  (ev : nat -> option WaveDemoEvent_t) (tmin : Z) : option Z :=
  let tmin0 := match ev 0%nat with
               | Some e => ref_TDC cfg 0%nat e
               | None => tmin
               end in
  min_loop (seq 1 (Z.to_nat (NumBoards cfg) - 1)) cfg ev tmin0.

(** Line 622-625: [TDCdiff_ns], a [uint64_t]. *)
Definition TDCdiff_ns (cfg : WaveDemoConfig_t)
  (ev : nat -> option WaveDemoEvent_t) (tmin : Z) (bd : nat) : Z :=
  match ev bd with
  | Some e => u64 (u64 (ref_TDC cfg bd e - tmin) * 5)
  | None => SYNC_WIN + 1
  end.

(** Lines 620-635: one iteration of the marking loop, on
    ([event_good], [count_sync_evt], [WDcfg]). *)
Definition mark_board (ev : nat -> option WaveDemoEvent_t) (tmin : Z)
  (bd : nat) (acc : (nat -> Z) * Z * WaveDemoConfig_t)
  : (nat -> Z) * Z * WaveDemoConfig_t :=
  let '(good, count, cfg) := acc in
  let '(good, count) :=
    if TDCdiff_ns cfg ev tmin bd <=? SYNC_WIN
    then (upd good bd 1, count + 1)
    else (good, count) in
  let cfg :=
    if Z.of_nat bd =? TOFstartBoard cfg
    then set_RefEvent (upd (RefEvent cfg) bd (ev bd)) cfg
    else set_RefEvent (upd (RefEvent cfg) bd None) cfg in
  (good, count, cfg).

Section Synchronizer.

(** [MultiWaveformProcess] (WDWaveformProcess.c) is not part of the
    sources at hand.  It receives the array of event pointers and fills
    the [EventPlus] members of the events they point to; here it maps
    the event of board [bd] to its processed content.  The slots it
    writes are the ones the same iteration removes from the queues. *)
Variable MultiWaveformProcess :
  (nat -> option WaveDemoEvent_t) -> Z -> nat ->
  WaveDemoEvent_t -> WaveDemoEvent_t.

(** Lines 658-677 for one enabled channel of board [bd].  [None] is the
    dereference of a NULL [events[bd]] at line 664, or the fault of
    [EventProcessing] at line 667; the counter is raised after the call
    has returned.  The plotting calls write plot variables only. *)
Definition filter_channel (cfg : WaveDemoConfig_t)
  (ev : option WaveDemoEvent_t) (bd ch : nat) (s : WaveDemoStats_t)
  : option WaveDemoStats_t :=
  match ev with
  | None => None
  | Some e =>
      let toProcess :=
        if feq (EventPlus_FineTimeStamp e (Nat.div ch 2) (Nat.modulo ch 2)) F0
        then false else true in
      if toProcess then
        match EventProcessing cfg bd ch e with
        | Some _ =>
            Some (on_chan bd ch
                    (fun c => set_EvFilt_cnt (u64 (EvFilt_cnt c + 1)) c) s)
        | None => None
        end
      else Some s
  end.

(** Lines 654-694: the body of the last loop for one board.  [None] is a
    fault in the channel loop of a full match, which leaves the function
    before [WDBuff_remove]. *)
Definition drain_board (l : SyncLocals) (bd : nat) (w : World)
  : option World :=
  if truthy (event_good l bd) then
    let cfg := WDcfg w in
    let s1 :=
      if count_sync_evt l =? NumBoards cfg then
        for_enabled_channels_opt cfg bd (filter_channel cfg (events l bd) bd)
          (WDstats w)
      else
        Some
          (for_enabled_channels cfg bd
             (fun ch =>
                on_chan bd ch
                  (fun c => set_EvLost_cnt (u64 (EvLost_cnt c + 1)) c))
             (WDstats w)) in
    match s1 with
    | None => None
    | Some s1 =>
        let buff := snd (WDBuff_remove (WDbuff w) bd 1) in
        let s2 :=
          for_enabled_channels cfg bd
            (fun ch =>
               on_chan bd ch
                 (fun c =>
                    set_EvProcessed_cnt (u64 (EvProcessed_cnt c + 1)) c))
            s1 in
        Some (set_WDstats s2 (set_WDbuff buff w))
    end
  else Some w.

(** Lines 637-652: full match or partial match.  The plotting calls of
    lines 641-644 write plot variables only; [SLEEP(120)] passes time and
    changes no variable.  The line sent to [MsgLog] is recorded without its
    final newline. *)
Definition account_round (l : SyncLocals) (w : World) : SyncLocals * World :=
  let n := NumBoards (WDcfg w) in
  if count_sync_evt l =? n then
    ({| events := fun bd =>
                    option_map (MultiWaveformProcess (events l) n bd)
                               (events l bd);
        TDC_min := TDC_min l; event_good := event_good l;
        count_sync_evt := count_sync_evt l |}, w)
  else
    let s := WDstats w in
    let cnt := u64 (UnSyncEv_cnt s + u64 (u64 n - u64 (count_sync_evt l))) in
    let w1 := set_WDstats (set_UnSyncEv_cnt cnt s) w in
    (l, if cnt =? 0 then msg_printf WARN_UNSYNC w1 else w1).

(** Lines 599-635, the first half of an iteration: peek the oldest event
    of every board, find the minimum time stamp, mark the boards within
    the window and set the reference event pointers. *)
Definition mark_round (l : SyncLocals) (w : World) : RoundResult :=
  let cfg := WDcfg w in
  let n := NumBoards cfg in
  match peek_boards (seq 0 (Z.to_nat n)) (WDbuff w) (events l) with
  | None => RoundReturn0
  | Some ev =>
      match minimum_timestamp cfg ev (TDC_min l) with
      | None => RoundFault
      | Some tmin =>
          let '(good, count, cfg') :=
            for_loop n (mark_board ev tmin) (fun _ => 0, 0, cfg) in
          RoundDone {| events := ev; TDC_min := tmin;
                       event_good := good; count_sync_evt := count |}
                    (set_WDcfg cfg' w)
      end
  end.

(** One iteration of the loop of lines 598-695. *)
Definition sync_round (l : SyncLocals) (w : World) : RoundResult :=
  match mark_round l w with
  | RoundDone l1 w1 =>
      let '(l2, w2) := account_round l1 w1 in
      match for_loop_opt (NumBoards (WDcfg w)) (drain_board l2) w2 with
      | Some w' => RoundDone l2 w'
      | None => RoundFault
      end
  | r => r
  end.

(** Lines 589-593. *)
Definition min_buff_len (w : World) : Z :=
  for_loop (NumBoards (WDcfg w) - 1)
    (fun i m =>
       let bd := Datatypes.S i in
       if WDBuff_used_space (WDbuff w) bd <? m
       then WDBuff_used_space (WDbuff w) bd else m)
    (WDBuff_used_space (WDbuff w) 0%nat).

(** The round loop; [None] is a NULL dereference, otherwise the return
    value and the final state. *)
Fixpoint round_loop (k : nat) (l : SyncLocals) (w : World)
  : option (Z * World) :=
  match k with
  | O => Some (1, w)
  | Datatypes.S k' =>
      match sync_round l w with
      | RoundReturn0 => Some (0, w)
      | RoundFault => None
      | RoundDone l' w' => round_loop k' l' w'
      end
  end.

Definition ProcessesSynchronizedEvents (w : World) : option (Z * World) :=
  let len := min_buff_len w in
  if len =? 0 then Some (0, w)
  else round_loop (Z.to_nat len) initial_locals w.

End Synchronizer.

(** ** The statistics engine (WDStats.c) *)

(** The body of the channel loop of [UpdateStatistics], cut into the
    stages the comments of the source separate. *)

(** Lines 88-106: read, filtered and output rates. *)
Definition read_rates (run : WaveDemoRun_t) (c : ChannelStats)
  : ChannelStats :=
  let c := set_EvRead_rate F0 c in
  let c := set_EvFilt_rate F0 c in
  let c := set_EvOutput_rate F0 c in
  let c :=
    if (truthy (IntegratedRates run) && (LatestReadTstamp c >? 0))%bool then
      let elapsed := fdiv (f32_of_Z (LatestReadTstamp c)) F1e9 in
      let c := set_EvRead_rate (fdiv (f32_of_Z (EvRead_cnt c)) elapsed) c in
      set_EvFilt_rate (fdiv (f32_of_Z (EvFilt_cnt c)) elapsed) c
    else if LatestReadTstamp c >? PrevReadTstamp c then
      let elapsed :=
        fdiv (f32_of_Z (u64 (LatestReadTstamp c - PrevReadTstamp c))) F1e9 in
      let c :=
        set_EvRead_rate
          (fdiv (f32_of_Z (u64 (EvRead_cnt c - EvRead_pcnt c))) elapsed) c in
      set_EvFilt_rate
        (fdiv (f32_of_Z (u64 (EvFilt_cnt c - EvFilt_pcnt c))) elapsed) c
    else c in
  let c := set_EvOutput_rate (EvFilt_rate c) c in
  let c := if fgt (EvFilt_rate c) (EvRead_rate c)
           then set_EvFilt_rate (EvRead_rate c) c else c in
  if flt (EvOutput_rate c) F0 then set_EvOutput_rate F0 c else c.

(** Lines 108-136: the input (ICR) rate; [acq] is [WDstats.AcqRealTime]. *)
Definition input_rate (run : WaveDemoRun_t) (acq : float) (c : ChannelStats)
  : ChannelStats :=
  let c :=
    if negb (truthy (AcqRun run)) then set_EvInput_rate F0 c
    else if EvInput_cnt c =? UINT64_MAX then set_EvInput_rate Fm1 c
    else if (feq (EvRead_rate c) F0 || (ICRUpdateTime c =? 0))%bool
    then set_EvInput_rate F0 c
    else if truthy (IntegratedRates run) then
      let c :=
        set_EvInput_rate
          (fdiv (f32_of_Z (EvInput_cnt c))
                (fdiv (f32_of_Z (ICRUpdateTime c)) F1e9)) c in
      let c := set_EvInput_pcnt (EvInput_cnt c) c in
      set_PrevICRUpdateTime (ICRUpdateTime c) c
    else if ICRUpdateTime c >? PrevICRUpdateTime c then
      let c :=
        set_EvInput_rate
          (fdiv (f32_of_Z (u64 (EvInput_cnt c - EvInput_pcnt c)))
                (fdiv (f32_of_Z (u64 (ICRUpdateTime c - PrevICRUpdateTime c)))
                      (f32_of_Z 1000000000))) c in
      let c := set_EvInput_pcnt (EvInput_cnt c) c in
      set_PrevICRUpdateTime (ICRUpdateTime c) c
    else if SFltb
              (ddiv (double_of_float (f32_of_Z (PrevICRUpdateTime c))) D1e6)
              (double_of_float (fsub acq F5000))
    then set_EvInput_rate (EvRead_rate c) c
    else c in
  if (fne (EvInput_rate c) Fm1 && flt (EvInput_rate c) (EvRead_rate c))%bool
  then set_EvInput_rate (EvRead_rate c) c
  else c.

(** Lines 138-156: the lost-trigger rate.  [EvLost_cnt] is unsigned, so
    the first test never holds. *)
Definition lost_rate (run : WaveDemoRun_t) (c : ChannelStats)
  : ChannelStats :=
  if EvLost_cnt c <? 0 then set_EvLost_rate Fm1 c
  else if (truthy (IntegratedRates run) && (LostTrgUpdateTime c >? 0))%bool
  then
    let c :=
      set_EvLost_rate
        (fdiv (f32_of_Z (EvLost_cnt c))
              (fdiv (f32_of_Z (LostTrgUpdateTime c)) F1e9)) c in
    let c := set_EvLost_pcnt (EvLost_cnt c) c in
    set_PrevLostTrgUpdateTime (LostTrgUpdateTime c) c
  else if LostTrgUpdateTime c >? PrevLostTrgUpdateTime c then
    let c :=
      set_EvLost_rate
        (fdiv (f32_of_Z (u64 (EvLost_cnt c - EvLost_pcnt c)))
              (fdiv (f32_of_Z
                       (u64 (LostTrgUpdateTime c - PrevLostTrgUpdateTime c)))
                    F1e9)) c in
    let c := set_EvLost_pcnt (EvLost_cnt c) c in
    set_PrevLostTrgUpdateTime (LostTrgUpdateTime c) c
  else set_EvLost_rate F0 c.

(** Lines 157-158: the lost rate may not exceed the input rate. *)
Definition clamp_lost_rate (c : ChannelStats) : ChannelStats :=
  if fgt (EvLost_rate c) (EvInput_rate c)
  then set_EvLost_rate (EvInput_rate c) c
  else c.

(** Lines 160-168. *)
Definition dead_time (c : ChannelStats) : ChannelStats :=
  let c :=
    if (fgt (EvInput_rate c) F0 && fge (EvLost_rate c) F0)%bool
    then set_DeadTime
           (fsub F1 (fdiv (fsub (EvInput_rate c) (EvLost_rate c))
                          (EvInput_rate c))) c
    else set_DeadTime F0 c in
  let c := if flt (DeadTime c) F0 then set_DeadTime F0 c else c in
  if fgt (DeadTime c) F1 then set_DeadTime F1 c else c.

(** Lines 170-179. *)
Definition busy_time (c : ChannelStats) : ChannelStats :=
  let c := set_BusyTime F0 c in
  let c :=
    if LatestReadTstamp c >? PrevReadTstamp c then
      let period :=
        if fgt (EvInput_rate c) F0 then fdiv F1e9 (EvInput_rate c) else F0 in
      set_BusyTime
        (fdiv (fsub (f32_of_Z (BusyTimeGap c)) period)
              (f32_of_Z (u64 (LatestReadTstamp c - PrevReadTstamp c)))) c
    else c in
  let c := if flt (BusyTime c) F0 then set_BusyTime F0 c else c in
  if fgt (BusyTime c) F1 then set_BusyTime F1 c else c.

(** Lines 182-186. *)
Definition matching_ratio (c : ChannelStats) : ChannelStats :=
  if EvProcessed_cnt c >? EvProcessed_pcnt c
  then set_MatchingRatio
         (fdiv (f32_of_Z (u64 (EvFilt_cnt c - EvFilt_pcnt c)))
               (f32_of_Z (u64 (EvProcessed_cnt c - EvProcessed_pcnt c)))) c
  else set_MatchingRatio F0 c.

(** Lines 189-196. *)
Definition save_counters (c : ChannelStats) : ChannelStats :=
  let c := set_EvRead_dcnt (u64 (EvRead_cnt c - EvRead_pcnt c)) c in
  let c := set_EvRead_pcnt (EvRead_cnt c) c in
  let c := set_EvFilt_pcnt (EvFilt_cnt c) c in
  let c := set_EvProcessed_pcnt (EvProcessed_cnt c) c in
  let c := set_PrevReadTstamp (LatestReadTstamp c) c in
  let c := set_PrevProcTstamp (LatestProcTstamp c) c in
  set_BusyTimeGap 0 c.

(** The state of a channel when control reaches line 157: the rates of
    this update have been computed, the clamp has not been applied. *)
Definition computed_rates (run : WaveDemoRun_t) (acq : float)
  (c : ChannelStats) : ChannelStats :=
  lost_rate run (input_rate run acq (read_rates run c)).

(** Lines 88-196 for one enabled channel. *)
Definition update_channel (run : WaveDemoRun_t) (acq : float)
  (c : ChannelStats) : ChannelStats :=
  save_counters
    (matching_ratio
       (busy_time (dead_time (clamp_lost_rate (computed_rates run acq c))))).

(** Lines 67-82: real time and throughput. *)
Definition update_globals (run : WaveDemoRun_t) (CurrentTime : Z)
  (s : WaveDemoStats_t) : WaveDemoStats_t :=
  let s :=
    if LatestProcTstampAll s >? PrevProcTstampAll s then
      let s :=
        set_AcqRealTime (fdiv (f32_of_Z (LatestProcTstampAll s)) F1e6) s in
      set_RealTimeSource REALTIME_FROM_BOARDS s
    else
      let s :=
        set_AcqRealTime (f32_of_Z (u64 (CurrentTime - StartTime s))) s in
      set_RealTimeSource REALTIME_FROM_COMPUTER s in
  let s :=
    if truthy (IntegratedRates run) then
      set_RxByte_rate
        (fdiv (f32_of_Z (RxByte_cnt s)) (fmul (AcqRealTime s) F1048_576)) s
    else
      set_RxByte_rate
        (fdiv (f32_of_Z (u64 (RxByte_cnt s - RxByte_pcnt s)))
              (fmul (f32_of_Z (u64 (CurrentTime - LastUpdateTime s)))
                    F1048_576)) s in
  let s := set_RxByte_pcnt (RxByte_cnt s) s in
  let s := set_BlockRead_cnt 0 s in
  set_LastUpdateTime CurrentTime s.

Definition UpdateStatistics (cfg : WaveDemoConfig_t) (run : WaveDemoRun_t)
  (CurrentTime : Z) (s : WaveDemoStats_t) : Z * WaveDemoStats_t :=
  let s := update_globals run CurrentTime s in
  let s :=
    for_loop (NumBoards cfg)
      (fun b acc =>
         for_enabled_channels cfg b
           (fun ch acc' =>
              on_chan b ch (update_channel run (AcqRealTime acc')) acc')
           acc)
      s in
  (0, set_PrevProcTstampAll (LatestProcTstampAll s) s).

(** ** Concrete states used by the examples *)

Definition zero_channel : ChannelStats :=
  {| EvRead_cnt := 0; EvRead_pcnt := 0; EvRead_dcnt := 0; EvRead_rate := F0;
     EvProcessed_cnt := 0; EvProcessed_pcnt := 0;
     EvInput_cnt := 0; EvInput_pcnt := 0; EvInput_rate := F0;
     EvFilt_cnt := 0; EvFilt_pcnt := 0; EvFilt_rate := F0;
     EvLost_cnt := 0; EvLost_pcnt := 0; EvLost_rate := F0;
     DeadTime := F0; MatchingRatio := F0; EvOutput_rate := F0;
     BusyTimeGap := 0; BusyTime := F0;
     LatestReadTstamp := 0; PrevReadTstamp := 0;
     LatestProcTstamp := 0; PrevProcTstamp := 0;
     ICRUpdateTime := 0; PrevICRUpdateTime := 0;
     LostTrgUpdateTime := 0; PrevLostTrgUpdateTime := 0 |}.

(** [WDstats] after [ResetStatistics] (all bytes zero), with every channel
    cell set to [c]. *)
Definition stats_with (c : ChannelStats) : WaveDemoStats_t :=
  {| RxByte_cnt := 0; RxByte_pcnt := 0; RxByte_rate := F0; BlockRead_cnt := 0;
     TotEvRead_cnt := 0; UnSyncEv_cnt := 0; StartTime := 0;
     LastUpdateTime := 0; AcqRealTime := F0; AcqStopTime := F0;
     RealTimeSource := 0; LatestProcTstampAll := 0; PrevProcTstampAll := 0;
     chan := fun _ _ => c |}.

(** An event whose coarse time stamp is [t] ticks on every group. *)
Definition event_at (t : Z) : WaveDemoEvent_t :=
  {| DataGroup_TDC := fun _ => t;
     EventPlus_FineTimeStamp := fun _ _ => F1 |}.

(** [n] boards of two enabled channels, reference channel 0. *)
Definition boards_cfg (n : Z) : WaveDemoConfig_t :=
  {| NumBoards := n; Nch := fun _ => 2; ChannelEnable := fun _ _ => 1;
     RefChannel := fun _ => 0; TOFstartBoard := 0;
     RefEvent := fun _ => None |}.

Definition running : WaveDemoRun_t := {| AcqRun := 1; IntegratedRates := 0 |}.
Definition running_integrated : WaveDemoRun_t :=
  {| AcqRun := 1; IntegratedRates := 1 |}.

(** Two boards, one queued event each, stamped [t0] and [t1] ticks. *)
Definition two_boards (t0 t1 : Z) : World :=
  {| WDbuff :=
       {| buffer := fun bd => Some (fun _ => event_at (if Nat.eqb bd 0 then t0 else t1));
          head := fun _ => 1; tail := fun _ => 0; tmp_pos := fun _ => 0 |};
     WDstats := stats_with zero_channel;
     WDcfg := boards_cfg 2;
     WDrun := running;
     MsgLog := [] |}.

(** Two boards with coincident events, in a configuration whose
    [BOARD_REF] names board 3: no active board is the TOF start board. *)
Definition stray_start_board : World :=
  set_WDcfg
    {| NumBoards := 2; Nch := fun _ => 2; ChannelEnable := fun _ _ => 1;
       RefChannel := fun _ => 0; TOFstartBoard := 3;
       RefEvent := fun _ => None |}
    (two_boards 0 0).

(** Two boards in the default configuration (start board 0, no reference
    event yet); the queue of board 0 is empty, board 1 holds one event. *)
Definition lonely_board : World :=
  {| WDbuff :=
       {| buffer := fun _ => Some (fun _ => event_at 0);
          head := fun bd => if Nat.eqb bd 1 then 1 else 0;
          tail := fun _ => 0; tmp_pos := fun _ => 0 |};
     WDstats := stats_with zero_channel;
     WDcfg := boards_cfg 2;
     WDrun := running;
     MsgLog := [] |}.

(** The collaborator that leaves the events as they are. *)
Definition no_processing (_ : nat -> option WaveDemoEvent_t) (_ : Z)
  (_ : nat) (e : WaveDemoEvent_t) : WaveDemoEvent_t := e.

(** A queue that has wrapped: two events, in slots 1999 and 0. *)
Definition wrapped_queue : WaveDemoBuffers_t :=
  {| buffer := fun _ => Some (fun _ => event_at 0);
     head := fun _ => 1; tail := fun _ => 1999; tmp_pos := fun _ => 1999 |}.

(** A queue after [WDBuff_reset] on every board. *)
Definition fresh_queue : WaveDemoBuffers_t :=
  {| buffer := fun _ => Some (fun _ => event_at 0);
     head := fun _ => 0; tail := fun _ => 0; tmp_pos := fun _ => 0 |}.

(** ** Vocabulary of the statements *)

(** Number of active boards, as a loop bound. *)
Definition active_boards (w : World) : nat := Z.to_nat (NumBoards (WDcfg w)).

(** Every active board has an allocated, non-empty queue: [WDBuff_peak]
    returns 0 on each of them. *)
Definition all_peeked (w : World) : Prop :=
  forall bd, (bd < active_boards w)%nat -> fst (WDBuff_peak (WDbuff w) bd) = 0.

(** The reference-channel time stamp of the oldest event of board [bd]. *)
Definition peeked_TDC (w : World) (bd : nat) : Z :=
  match snd (WDBuff_peak (WDbuff w) bd) with
  | Some e => ref_TDC (WDcfg w) bd e
  | None => 0
  end.

(** Time stamps are [uint64_t]. *)
Definition TDC_is_u64 (w : World) : Prop :=
  forall bd, (bd < active_boards w)%nat -> 0 <= peeked_TDC w bd < 2 ^ 64.

(** Number of boards below [n] whose [event_good] flag is set. *)
Definition count_matched (good : nat -> Z) (n : nat) : Z :=
  Z.of_nat (List.length (filter (fun bd => truthy (good bd)) (seq 0 n))).

(** Channel [ch] of board [bd] is visited by the statistics loops. *)
Definition channel_on (cfg : WaveDemoConfig_t) (bd ch : nat) : bool :=
  ((Z.of_nat ch <? Nch cfg bd) && truthy (ChannelEnable cfg bd ch))%bool.


(** Two configurations that differ at most in their [RefEvent] pointers. *)
Definition same_boards_cfg (cfg cfg' : WaveDemoConfig_t) : Prop :=
  NumBoards cfg' = NumBoards cfg /\ Nch cfg' = Nch cfg /\
  ChannelEnable cfg' = ChannelEnable cfg /\
  RefChannel cfg' = RefChannel cfg /\
  TOFstartBoard cfg' = TOFstartBoard cfg.

(** The reference event of [EventProcessing] is there: [TOFstartBoard] is
    an index of [handles] and the [RefEvent] pointer of that board is not
    NULL. *)
Definition reference_set (cfg : WaveDemoConfig_t) : Prop :=
  0 <= TOFstartBoard cfg < MAX_BD /\
  RefEvent cfg (Z.to_nat (TOFstartBoard cfg)) <> None.

(** The TOF start board is one of the active boards, so that the marking
    loop of a round points its [RefEvent] to the event peeked on it. *)
Definition start_board_active (cfg : WaveDemoConfig_t) : Prop :=
  0 <= TOFstartBoard cfg < NumBoards cfg /\ TOFstartBoard cfg < MAX_BD.

(** The round that starts from [l] and [w] marks every active board: it
    is a full match, the only kind of round that calls
    [EventProcessing]. *)
Definition full_match (l : SyncLocals) (w : World) : Prop :=
  exists l1 w1,
    mark_round l w = RoundDone l1 w1 /\
    count_sync_evt l1 = NumBoards (WDcfg w).

(** What a call of [ProcessesUnsynchronizedEvents] needs to find its
    reference event: the [RefEvent] pointer of the start board is set, as
    it is after any call that processed an event of that board; or the
    start board is board 0 and holds an event, so that the first board
    visited sets the pointer. *)
Definition reference_event_ready (w : World) : Prop :=
  0 <= TOFstartBoard (WDcfg w) < MAX_BD /\
  (RefEvent (WDcfg w) (Z.to_nat (TOFstartBoard (WDcfg w))) <> None \/
   (TOFstartBoard (WDcfg w) = 0 /\ 1 <= NumBoards (WDcfg w) /\
    WDBuff_empty (WDbuff w) 0 = 0)).

(** What [filter_channel] does to the cell it visits when
    [EventProcessing] returns. *)
Definition filter_cell (e : WaveDemoEvent_t) (ch : nat) (c : ChannelStats)
  : ChannelStats :=
  if feq (EventPlus_FineTimeStamp e (Nat.div ch 2) (Nat.modulo ch 2)) F0
  then c else set_EvFilt_cnt (u64 (EvFilt_cnt c + 1)) c.

(** What the last loop of a round does to the cell of an enabled channel
    of a board whose [event_good] flag is set; [n] is [NumBoards]. *)
Definition drain_cell (l : SyncLocals) (n : Z) (bd ch : nat)
  (c : ChannelStats) : ChannelStats :=
  let c1 :=
    if count_sync_evt l =? n then
      match events l bd with
      | Some e => filter_cell e ch c
      | None => c
      end
    else set_EvLost_cnt (u64 (EvLost_cnt c + 1)) c in
  set_EvProcessed_cnt (u64 (EvProcessed_cnt c1 + 1)) c1.




(** Two channel cells with the same read-side rates and read time stamp. *)
Definition same_read_rates (c c' : ChannelStats) : Prop :=
  EvRead_rate c' = EvRead_rate c /\ EvFilt_rate c' = EvFilt_rate c /\
  EvOutput_rate c' = EvOutput_rate c /\
  LatestReadTstamp c' = LatestReadTstamp c.

(** Two channel cells with the same input rate, lost rate and dead time. *)
Definition same_loss_rates (c c' : ChannelStats) : Prop :=
  EvInput_rate c' = EvInput_rate c /\ EvLost_rate c' = EvLost_rate c /\
  DeadTime c' = DeadTime c.

(** A channel that read 1000 events, saw 1000 input triggers and lost 1200
    of them (an inconsistent reading), all stamped at one second. *)
Definition inconsistent_channel : ChannelStats :=
  {| EvRead_cnt := 1000; EvRead_pcnt := 0; EvRead_dcnt := 0;
     EvRead_rate := F0;
     EvProcessed_cnt := 0; EvProcessed_pcnt := 0;
     EvInput_cnt := 1000; EvInput_pcnt := 0; EvInput_rate := F0;
     EvFilt_cnt := 0; EvFilt_pcnt := 0; EvFilt_rate := F0;
     EvLost_cnt := 1200; EvLost_pcnt := 0; EvLost_rate := F0;
     DeadTime := F0; MatchingRatio := F0; EvOutput_rate := F0;
     BusyTimeGap := 0; BusyTime := F0;
     LatestReadTstamp := 1000000000; PrevReadTstamp := 0;
     LatestProcTstamp := 0; PrevProcTstamp := 0;
     ICRUpdateTime := 1000000000; PrevICRUpdateTime := 0;
     LostTrgUpdateTime := 1000000000; PrevLostTrgUpdateTime := 0 |}.

(** A channel that read 1000 events, 500 of them accepted, in the first
    second of the run. *)
Definition steady_channel : ChannelStats :=
  {| EvRead_cnt := 1000; EvRead_pcnt := 0; EvRead_dcnt := 0;
     EvRead_rate := F0;
     EvProcessed_cnt := 0; EvProcessed_pcnt := 0;
     EvInput_cnt := 0; EvInput_pcnt := 0; EvInput_rate := F0;
     EvFilt_cnt := 500; EvFilt_pcnt := 0; EvFilt_rate := F0;
     EvLost_cnt := 0; EvLost_pcnt := 0; EvLost_rate := F0;
     DeadTime := F0; MatchingRatio := F0; EvOutput_rate := F0;
     BusyTimeGap := 0; BusyTime := F0;
     LatestReadTstamp := 1000000000; PrevReadTstamp := 0;
     LatestProcTstamp := 0; PrevProcTstamp := 0;
     ICRUpdateTime := 0; PrevICRUpdateTime := 0;
     LostTrgUpdateTime := 0; PrevLostTrgUpdateTime := 0 |}.



(** A queue whose slots 0, 1, 2, ... hold events stamped [ts]. *)
Definition queue_of (ts : list Z) : Z -> WaveDemoEvent_t :=
  fun i => event_at (nth (Z.to_nat i) ts 0).

(** Two boards with coincident events at ticks 0, 1000 and 3000; board 1
    has one more event, at tick 2000, that board 0 did not see. *)
Definition scripted_boards : World :=
  {| WDbuff :=
       {| buffer := fun bd =>
                      Some (if Nat.eqb bd 0 then queue_of [0; 1000; 3000]
                            else queue_of [0; 1000; 2000; 3000]);
          head := fun bd => if Nat.eqb bd 0 then 3 else 4;
          tail := fun _ => 0; tmp_pos := fun _ => 0 |};
     WDstats := stats_with zero_channel;
     WDcfg := boards_cfg 2;
     WDrun := running;
     MsgLog := [] |}.


(** Every active board has storage and cursors inside it. *)
Definition queues_well_formed (w : World) : Prop :=
  forall bd, (bd < active_boards w)%nat ->
    buffer (WDbuff w) bd <> None /\ cursors_in_range (WDbuff w) bd.


(** ** More of WDBuffers.c *)

Definition dmul : spec_float -> spec_float -> spec_float := SFmul 53 1024.

(** Conversion of a [double] to [float] (rounding to nearest even). *)
Definition float_of_double (x : spec_float) : float :=
  match x with
  | S754_finite s m e => binary_round 24 128 s m e
  | _ => x
  end.

(** [WDBuff_occupancy]: [(float)(100.0 * used / (EVT_BUF_SIZE - 1))], the
    product and the quotient being computed in [double]. *)
Definition WDBuff_occupancy (buff : WaveDemoBuffers_t) (bd : nat) : float :=
  let used := WDBuff_used_space buff bd in
  float_of_double
    (ddiv (dmul (f64_of_Z 100) (f64_of_Z used)) (f64_of_Z (EVT_BUF_SIZE - 1))).

(** The slot [r] steps after slot [p] in the circular array. *)
Definition slot_after (p r : Z) : Z := (p + r) mod EVT_BUF_SIZE.

(** A consumer that calls [WDBuff_get_next] until it answers -1, at most
    [fuel] times, and collects the events it was given. *)
Fixpoint scan_queue (fuel : nat) (buff : WaveDemoBuffers_t) (bd : nat)
  : list WaveDemoEvent_t * WaveDemoBuffers_t :=
  match fuel with
  | O => ([], buff)
  | S fuel' =>
      match WDBuff_get_next buff bd with
      | (_, Some e, buff') =>
          let '(es, buff'') := scan_queue fuel' buff' bd in (e :: es, buff'')
      | (_, None, buff') => ([], buff')
      end
  end.

(** [ResetEventBuffer] (WaveDemo.c): [WDBuff_reset] on every active board;
    it returns [ERR_NONE] whatever the resets answer. *)
Definition ResetEventBuffer (w : World) : World :=
  set_WDbuff
    (for_loop (NumBoards (WDcfg w))
       (fun bd buff => snd (WDBuff_reset buff bd)) (WDbuff w))
    w.


(** The board a queue operation works on. *)
Definition op_board (op : buffer_op) : nat :=
  match op with
  | OpReset bd | OpAdded bd _ | OpRemove bd _ => bd
  end.

Definition F100 : float := f32_of_Z 100.

(** The occupancy the code computes for a queue that holds [used] events. *)
Definition occupancy_of (used : Z) : float :=
  float_of_double
    (ddiv (dmul (f64_of_Z 100) (f64_of_Z used)) (f64_of_Z (EVT_BUF_SIZE - 1))).

(** A percentage that is 0 for the empty queue only and 100 for the full
    queue only. *)
Definition occupancy_is_percentage (used : Z) : bool :=
  (SFleb F0 (occupancy_of used) && SFleb (occupancy_of used) F100 &&
   Bool.eqb (SFeqb (occupancy_of used) F0) (used =? 0) &&
   Bool.eqb (SFeqb (occupancy_of used) F100) (used =? EVT_BUF_SIZE - 1))%bool.

(** ** Vocabulary for whole calls *)



(** Number of events board [bd] lost between [w] and [w']. *)
Definition drained (w w' : World) (bd : nat) : Z :=
  WDBuff_used_space (WDbuff w) bd - WDBuff_used_space (WDbuff w') bd.

(** ** Further setters *)

Definition set_LatestProcTstamp (v : Z) (c : ChannelStats) : ChannelStats :=
  {| EvRead_cnt := EvRead_cnt c; EvRead_pcnt := EvRead_pcnt c;
     EvRead_dcnt := EvRead_dcnt c; EvRead_rate := EvRead_rate c;
     EvProcessed_cnt := EvProcessed_cnt c;
     EvProcessed_pcnt := EvProcessed_pcnt c; EvInput_cnt := EvInput_cnt c;
     EvInput_pcnt := EvInput_pcnt c; EvInput_rate := EvInput_rate c;
     EvFilt_cnt := EvFilt_cnt c; EvFilt_pcnt := EvFilt_pcnt c;
     EvFilt_rate := EvFilt_rate c; EvLost_cnt := EvLost_cnt c;
     EvLost_pcnt := EvLost_pcnt c; EvLost_rate := EvLost_rate c;
     DeadTime := DeadTime c; MatchingRatio := MatchingRatio c;
     EvOutput_rate := EvOutput_rate c; BusyTimeGap := BusyTimeGap c;
     BusyTime := BusyTime c; LatestReadTstamp := LatestReadTstamp c;
     PrevReadTstamp := PrevReadTstamp c; LatestProcTstamp := v;
     PrevProcTstamp := PrevProcTstamp c; ICRUpdateTime := ICRUpdateTime c;
     PrevICRUpdateTime := PrevICRUpdateTime c;
     LostTrgUpdateTime := LostTrgUpdateTime c;
     PrevLostTrgUpdateTime := PrevLostTrgUpdateTime c |}.
Definition set_LatestProcTstampAll (v : Z) (s : WaveDemoStats_t)
  : WaveDemoStats_t :=
  {| RxByte_cnt := RxByte_cnt s; RxByte_pcnt := RxByte_pcnt s;
     RxByte_rate := RxByte_rate s; BlockRead_cnt := BlockRead_cnt s;
     TotEvRead_cnt := TotEvRead_cnt s; UnSyncEv_cnt := UnSyncEv_cnt s;
     StartTime := StartTime s; LastUpdateTime := LastUpdateTime s;
     AcqRealTime := AcqRealTime s; AcqStopTime := AcqStopTime s;
     RealTimeSource := RealTimeSource s; LatestProcTstampAll := v;
     PrevProcTstampAll := PrevProcTstampAll s; chan := chan s |}.
Definition set_AcqStopTime (v : float) (s : WaveDemoStats_t)
  : WaveDemoStats_t :=
  {| RxByte_cnt := RxByte_cnt s; RxByte_pcnt := RxByte_pcnt s;
     RxByte_rate := RxByte_rate s; BlockRead_cnt := BlockRead_cnt s;
     TotEvRead_cnt := TotEvRead_cnt s; UnSyncEv_cnt := UnSyncEv_cnt s;
     StartTime := StartTime s; LastUpdateTime := LastUpdateTime s;
     AcqRealTime := AcqRealTime s; AcqStopTime := v;
     RealTimeSource := RealTimeSource s;
     LatestProcTstampAll := LatestProcTstampAll s;
     PrevProcTstampAll := PrevProcTstampAll s; chan := chan s |}.
Definition set_StartTime (v : Z) (s : WaveDemoStats_t) : WaveDemoStats_t :=
  {| RxByte_cnt := RxByte_cnt s; RxByte_pcnt := RxByte_pcnt s;
     RxByte_rate := RxByte_rate s; BlockRead_cnt := BlockRead_cnt s;
     TotEvRead_cnt := TotEvRead_cnt s; UnSyncEv_cnt := UnSyncEv_cnt s;
     StartTime := v; LastUpdateTime := LastUpdateTime s;
     AcqRealTime := AcqRealTime s; AcqStopTime := AcqStopTime s;
     RealTimeSource := RealTimeSource s;
     LatestProcTstampAll := LatestProcTstampAll s;
     PrevProcTstampAll := PrevProcTstampAll s; chan := chan s |}.

(** ** More of WaveDemo.c *)

(** Conversion of a [uint32_t] to [int], as the compilers of the supported
    platforms do it (the value modulo 2^32, read in two's complement). *)
Definition int_of_uint32 (x : Z) : Z :=
  let y := x mod 2 ^ 32 in if y <? 2 ^ 31 then y else y - 2 ^ 32.

(** [MakeSpaceBuffers], lines 783-786: the two counters of one channel;
    the loop runs over every channel below [Nch], enabled or not. *)
Definition make_space_cell (evt_removed : Z) (c : ChannelStats)
  : ChannelStats :=
  let c := set_EvLost_cnt (u64 (EvLost_cnt c + evt_removed)) c in
  set_EvProcessed_cnt (u64 (EvProcessed_cnt c + evt_removed)) c.

(** The body of the board loop of [MakeSpaceBuffers]; [NumEvents bd] is the
    [uint32_t] member [WDcfg.handles[bd].NumEvents], which no function of
    this file writes.  [None] is the [return -1] of line 780; the failed
    [WDBuff_remove] has changed nothing then. *)
Definition make_space_board (NumEvents : nat -> Z) (bd : nat) (w : World)
  : option World :=
  let num_new_evt := int_of_uint32 (NumEvents bd) in
  if WDBuff_free_space (WDbuff w) bd <? num_new_evt then
    let '(evt_removed, buff) := WDBuff_remove (WDbuff w) bd num_new_evt in
    if evt_removed <? 0 then None
    else
      Some (set_WDstats
              (for_loop (Nch (WDcfg w) bd)
                 (fun ch => on_chan bd ch (make_space_cell evt_removed))
                 (WDstats w))
              (set_WDbuff buff w))
  else Some w.

Fixpoint make_space_loop (NumEvents : nat -> Z) (bds : list nat) (w : World)
  : Z * World :=
  match bds with
  | [] => (1, w)
  | bd :: rest =>
      match make_space_board NumEvents bd w with
      | None => (-1, w)
      | Some w' => make_space_loop NumEvents rest w'
      end
  end.

Definition MakeSpaceBuffers (NumEvents : nat -> Z) (w : World) : Z * World :=
  make_space_loop NumEvents (seq 0 (Z.to_nat (NumBoards (WDcfg w)))) w.

(** [UpdateTimes4Stats]: [time] is a [uint64_t] product; [AcqStopTime] is
    [(float)(LatestProcTstampAll / 1e6)], a quotient of doubles. *)
Definition UpdateTimes4Stats (bd ch : nat) (event : WaveDemoEvent_t)
  (s : WaveDemoStats_t) : WaveDemoStats_t :=
  let groupIndex := Nat.div ch 2 in
  let time := u64 (DataGroup_TDC event groupIndex * 5) in
  let s := if time >? LatestProcTstampAll s
           then set_LatestProcTstampAll time s else s in
  let s := set_AcqStopTime
             (float_of_double (ddiv (f64_of_Z (LatestProcTstampAll s)) D1e6))
             s in
  on_chan bd ch (set_LatestProcTstamp time) s.

(** The calls of [UpdateTimes4Stats] made while a block of events is
    decoded, in order. *)
Definition record_times (calls : list (nat * nat * WaveDemoEvent_t))
  (s : WaveDemoStats_t) : WaveDemoStats_t :=
  fold_left (fun acc '(bd, ch, e) => UpdateTimes4Stats bd ch e acc) calls s.

(** The time stamp in ns that [UpdateTimes4Stats] reads off an event. *)
Definition event_time (ch : nat) (event : WaveDemoEvent_t) : Z :=
  u64 (DataGroup_TDC event (Nat.div ch 2) * 5).

Section Unsynchronized.

(** [WaveformProcess] (WDWaveformProcess.c) is not part of the sources at
    hand.  It fills the [EventPlus] members of the event it is given for
    one channel; here it maps the event to its processed content, given
    the configuration at the call. *)
Variable WaveformProcess :
  WaveDemoConfig_t -> nat -> nat -> WaveDemoEvent_t -> WaveDemoEvent_t.

(** [ProcessesUnsynchronizedEvents], lines 728-748, for one enabled
    channel, on the event and the statistics.  [None] is the fault of
    [EventProcessing] at line 738; the counter is raised after the call
    has returned.  The plotting calls write plot variables only. *)
Definition unsync_channel (cfg : WaveDemoConfig_t) (bd ch : nat)
  (acc : WaveDemoEvent_t * WaveDemoStats_t)
  : option (WaveDemoEvent_t * WaveDemoStats_t) :=
  let '(event, s) := acc in
  let event := WaveformProcess cfg bd ch event in
  let toProcess :=
    if feq (EventPlus_FineTimeStamp event (Nat.div ch 2) (Nat.modulo ch 2)) F0
    then false else true in
  if toProcess then
    match EventProcessing cfg bd ch event with
    | Some _ =>
        Some (event,
              on_chan bd ch
                (fun c => set_EvFilt_cnt (u64 (EvFilt_cnt c + 1)) c) s)
    | None => None
    end
  else Some (event, s).

(** Lines 714-759: the body of the board loop.  A board whose queue is
    empty is skipped before its reference event pointer is written.
    [None] is the use of the uninitialised [event] pointer that
    [WDBuff_peak] leaves behind when the board has no storage, or a fault
    in the channel loop, which leaves the function before
    [WDBuff_remove]. *)
Definition unsync_board (bd : nat) (w : World) : option World :=
  if truthy (WDBuff_empty (WDbuff w) bd) then Some w
  else
    match snd (WDBuff_peak (WDbuff w) bd) with
    | None => None
    | Some event =>
        let cfg0 := WDcfg w in
        let cfg :=
          if Z.of_nat bd =? TOFstartBoard cfg0
          then set_RefEvent (upd (RefEvent cfg0) bd (Some event)) cfg0
          else set_RefEvent (upd (RefEvent cfg0) bd None) cfg0 in
        match
          for_loop_opt (Nch cfg bd)
            (fun ch acc =>
               if truthy (ChannelEnable cfg bd ch)
               then unsync_channel cfg bd ch acc else Some acc)
            (event, WDstats w)
        with
        | None => None
        | Some (_, s1) =>
            let buff := snd (WDBuff_remove (WDbuff w) bd 1) in
            let s2 :=
              for_enabled_channels cfg bd
                (fun ch =>
                   on_chan bd ch
                     (fun c =>
                        set_EvProcessed_cnt (u64 (EvProcessed_cnt c + 1)) c))
                s1 in
            Some (set_WDstats s2 (set_WDbuff buff (set_WDcfg cfg w)))
        end
    end.

(** Lines 713-760: one pass over the boards. *)
Fixpoint unsync_boards (bds : list nat) (w : World) : option World :=
  match bds with
  | [] => Some w
  | bd :: rest =>
      match unsync_board bd w with
      | None => None
      | Some w' => unsync_boards rest w'
      end
  end.

(** Lines 712-766: [k] passes. *)
Fixpoint unsync_passes (k : nat) (w : World) : option World :=
  match k with
  | O => Some w
  | Datatypes.S k' =>
      match unsync_boards (seq 0 (Z.to_nat (NumBoards (WDcfg w)))) w with
      | None => None
      | Some w' => unsync_passes k' w'
      end
  end.

(** Lines 703-710. *)
Definition max_num_events (NumEvents : nat -> Z) (n : Z) : Z :=
  for_loop n
    (fun bd m =>
       if int_of_uint32 (NumEvents bd) >? m
       then int_of_uint32 (NumEvents bd) else m)
    0.

Definition ProcessesUnsynchronizedEvents (NumEvents : nat -> Z) (w : World)
  : option (Z * World) :=
  let max_events := max_num_events NumEvents (NumBoards (WDcfg w)) in
  option_map (fun w' => (1, w')) (unsync_passes (Z.to_nat max_events) w).

End Unsynchronized.

(** The collaborator that leaves the event as it is. *)
Definition no_waveform_processing (_ : WaveDemoConfig_t) (_ _ : nat)
  (e : WaveDemoEvent_t) : WaveDemoEvent_t := e.


(** ** More of WDStats.c *)

(** [ResetStatistics]: [memset] to zero bytes, then the start time when the
    acquisition runs; [now] is what [get_time()] answers, a [long]
    converted to [uint64_t]. *)
Definition ResetStatistics (run : WaveDemoRun_t) (now : Z)
  : Z * WaveDemoStats_t :=
  let s := stats_with zero_channel in
  (0, if truthy (AcqRun run) then set_StartTime (u64 now) s else s).

(** One board whose queue holds 1995 events: room for four more. *)
Definition crowded_board : World :=
  {| WDbuff :=
       {| buffer := fun _ => Some (fun _ => event_at 0);
          head := fun _ => 1995; tail := fun _ => 0; tmp_pos := fun _ => 0 |};
     WDstats := stats_with zero_channel;
     WDcfg := boards_cfg 1;
     WDrun := running;
     MsgLog := [] |}.

(** ** Vocabulary for the statistics *)

(** The cumulative counters and device time stamps of a cell: what the
    acquisition writes and the statistics read. *)
Definition same_counters (c c' : ChannelStats) : Prop :=
  EvRead_cnt c' = EvRead_cnt c /\
  EvProcessed_cnt c' = EvProcessed_cnt c /\
  EvInput_cnt c' = EvInput_cnt c /\
  EvFilt_cnt c' = EvFilt_cnt c /\
  EvLost_cnt c' = EvLost_cnt c /\
  LatestReadTstamp c' = LatestReadTstamp c /\
  LatestProcTstamp c' = LatestProcTstamp c /\
  ICRUpdateTime c' = ICRUpdateTime c /\
  LostTrgUpdateTime c' = LostTrgUpdateTime c.

(** The same for the scalar members. *)
Definition same_totals (s s' : WaveDemoStats_t) : Prop :=
  RxByte_cnt s' = RxByte_cnt s /\
  TotEvRead_cnt s' = TotEvRead_cnt s /\
  UnSyncEv_cnt s' = UnSyncEv_cnt s /\
  StartTime s' = StartTime s /\
  AcqStopTime s' = AcqStopTime s /\
  LatestProcTstampAll s' = LatestProcTstampAll s.

(** [x] compares neither below 0 nor above 1. *)
Definition within_unit (x : float) : Prop :=
  flt x F0 = false /\ fgt x F1 = false.

(** The relations between the figures of one channel that the corrections
    of [UpdateStatistics] are there to enforce. *)
Definition rates_consistent (c : ChannelStats) : Prop :=
  fgt (EvFilt_rate c) (EvRead_rate c) = false /\
  flt (EvOutput_rate c) F0 = false /\
  (feq (EvInput_rate c) Fm1 = true \/
   flt (EvInput_rate c) (EvRead_rate c) = false) /\
  fgt (EvLost_rate c) (EvInput_rate c) = false /\
  within_unit (DeadTime c) /\ within_unit (BusyTime c).

(** The newest of [base] and the time stamps of the events of [calls]. *)
Definition newest_time (calls : list (nat * nat * WaveDemoEvent_t))
  (base : Z) : Z :=
  fold_left (fun m '(_, ch, e) => Z.max m (event_time ch e)) calls base.

(** The snapshot [UpdateStatistics] takes of a channel it visits. *)
Definition snapshot_taken (c : ChannelStats) : Prop :=
  EvRead_pcnt c = EvRead_cnt c /\
  EvFilt_pcnt c = EvFilt_cnt c /\
  EvProcessed_pcnt c = EvProcessed_cnt c /\
  PrevReadTstamp c = LatestReadTstamp c /\
  PrevProcTstamp c = LatestProcTstamp c /\
  BusyTimeGap c = 0.

(** The members the snapshot is compared with, in two cells. *)
Definition same_snapshot (c c' : ChannelStats) : Prop :=
  EvRead_cnt c' = EvRead_cnt c /\ EvRead_pcnt c' = EvRead_pcnt c /\
  EvProcessed_cnt c' = EvProcessed_cnt c /\
  EvProcessed_pcnt c' = EvProcessed_pcnt c /\
  LatestReadTstamp c' = LatestReadTstamp c /\
  PrevReadTstamp c' = PrevReadTstamp c.

(** One board of two enabled channels, every cell holding the inconsistent
    reading, the acquisition running. *)
Definition inconsistent_stats : WaveDemoStats_t :=
  stats_with inconsistent_channel.

(** ** Histograms (WDHisto.c) *)

Definition u32 (z : Z) : Z := z mod 2 ^ 32.

Definition dadd : spec_float -> spec_float -> spec_float := SFadd 53 1024.

(** [Histogram1D_t]: [H_data] is the allocated array of [Nbin] cells of
    [uint32_t]; the counters are [uint32_t], [rms] and [mean] are
    [double]. *)
Record Histogram1D_t := {
  H_data : Z -> Z;
  Nbin : Z;
  H_cnt : Z;
  Ovf_cnt : Z;
  Unf_cnt : Z;
  rms : spec_float;
  mean : spec_float
}.

(** [ResetHistogram1D]: [memset] of the [Nbin] cells, then the counters. *)
Definition ResetHistogram1D (Histo : Histogram1D_t) : Z * Histogram1D_t :=
  (0, {| H_data := fun i => if ((0 <=? i) && (i <? Nbin Histo))%bool
                            then 0 else H_data Histo i;
         Nbin := Nbin Histo; H_cnt := 0; Ovf_cnt := 0; Unf_cnt := 0;
         rms := f64_of_Z 0; mean := f64_of_Z 0 |}).

(** [Histo1D_AddCount].  [(int)(Histo->Nbin - 1)] is an unsigned
    difference converted to [int]; [Bin * Bin] is an [int] product, which
    stays below 2^31 for every histogram of at most 46341 bins. *)
Definition Histo1D_AddCount (Histo : Histogram1D_t) (Bin : Z)
  : Z * Histogram1D_t :=
  if Bin <? 0 then
    (-1, {| H_data := H_data Histo; Nbin := Nbin Histo; H_cnt := H_cnt Histo;
            Ovf_cnt := Ovf_cnt Histo; Unf_cnt := u32 (Unf_cnt Histo + 1);
            rms := rms Histo; mean := mean Histo |})
  else if Bin >=? int_of_uint32 (u32 (Nbin Histo - 1)) then
    (-1, {| H_data := H_data Histo; Nbin := Nbin Histo; H_cnt := H_cnt Histo;
            Ovf_cnt := u32 (Ovf_cnt Histo + 1); Unf_cnt := Unf_cnt Histo;
            rms := rms Histo; mean := mean Histo |})
  else
    (0, {| H_data := fun i => if i =? Bin then u32 (H_data Histo Bin + 1)
                              else H_data Histo i;
           Nbin := Nbin Histo; H_cnt := u32 (H_cnt Histo + 1);
           Ovf_cnt := Ovf_cnt Histo; Unf_cnt := Unf_cnt Histo;
           rms := dadd (rms Histo) (f64_of_Z (int_of_uint32 (Bin * Bin)));
           mean := dadd (mean Histo) (f64_of_Z Bin) |}).

(** A run of [Histo1D_AddCount] calls, one per element of [bins]. *)
Definition fill_histogram (bins : list Z) (Histo : Histogram1D_t)
  : Histogram1D_t :=
  fold_left (fun h b => snd (Histo1D_AddCount h b)) bins Histo.

(** The sum of the first [n] cells. *)
Fixpoint sum_cells (n : nat) (f : Z -> Z) : Z :=
  match n with
  | O => 0
  | Datatypes.S n' => sum_cells n' f + f (Z.of_nat n')
  end.

(** How many elements of [bins] satisfy [p]. *)
Definition count_bins (p : Z -> bool) (bins : list Z) : Z :=
  Z.of_nat (List.length (filter p bins)).

(** A histogram of [n] bins whose cells all hold garbage 7 before the
    reset. *)
Definition blank_histogram (n : Z) : Histogram1D_t :=
  snd (ResetHistogram1D
         {| H_data := fun _ => 7; Nbin := n; H_cnt := 3; Ovf_cnt := 2;
            Unf_cnt := 1; rms := f64_of_Z 5; mean := f64_of_Z 5 |}).

(** [Bin] is one of the cells [Histo1D_AddCount] fills in a histogram of
    [n] bins. *)
Definition fills_a_cell (n Bin : Z) : bool :=
  ((0 <=? Bin) && (Bin <? n - 1))%bool.

(** ** The reference channels ([SetRefCh], WaveDemo.c) *)

Definition set_RefChannel (v : nat -> Z) (cfg : WaveDemoConfig_t)
  : WaveDemoConfig_t :=
  {| NumBoards := NumBoards cfg; Nch := Nch cfg;
     ChannelEnable := ChannelEnable cfg; RefChannel := v;
     TOFstartBoard := TOFstartBoard cfg; RefEvent := RefEvent cfg |}.

(** The channel loop of [SetRefCh] for board [b], with its [break]. *)
Fixpoint ref_channel_loop (chs : list nat) (b : nat) (cfg : WaveDemoConfig_t)
  : WaveDemoConfig_t :=
  match chs with
  | [] => cfg
  | ch :: rest =>
      if truthy (ChannelEnable cfg b ch)
      then set_RefChannel (upd (RefChannel cfg) b (Z.of_nat ch)) cfg
      else ref_channel_loop rest b cfg
  end.

Definition SetRefCh (cfg : WaveDemoConfig_t) : WaveDemoConfig_t :=
  for_loop (NumBoards cfg)
    (fun b acc => ref_channel_loop (seq 0 (Z.to_nat (Nch acc b))) b acc)
    cfg.

(** Two boards of four channels; board 0 has channels 2 and 3 enabled,
    board 1 has none. *)
Definition sparse_cfg : WaveDemoConfig_t :=
  {| NumBoards := 2; Nch := fun _ => 4;
     ChannelEnable := fun b ch =>
       if (Nat.eqb b 0 && (Nat.eqb ch 2 || Nat.eqb ch 3))%bool then 1 else 0;
     RefChannel := fun _ => 0; TOFstartBoard := 0;
     RefEvent := fun _ => None |}.

(** ** The progress indicator (WDLogs.c) *)

(** [addProgressIndicator]: the test is [*progress | 0x8]. *)
Definition addProgressIndicator (progress : Z) : Z :=
  if truthy (Z.lor progress 8) then
    let val := Z.land progress 7 in
    Z.rem (val + 1) 4
  else progress.

(** [getProgressIndicator]: the character, and [*progress] afterwards. *)
Definition getProgressIndicator (progress : Z) : Ascii.ascii * Z :=
  let val := Z.land progress 7 in
  let progress := Z.lor progress 8 in
  if val =? 0 then ("-"%char, progress)
  else if val =? 1 then ("\"%char, progress)
  else if val =? 2 then ("|"%char, progress)
  else if val =? 3 then ("/"%char, progress)
  else ("X"%char, 7).

(** The four positions of the wheel, in the order they are shown. *)
Definition wheel (k : Z) : Ascii.ascii :=
  if k =? 0 then "-"%char
  else if k =? 1 then "\"%char
  else if k =? 2 then "|"%char
  else "/"%char.

(* ================================================================== *)
(** * Part II - properties                                             *)
(* ================================================================== *)

(** ** Ring buffer *)

Lemma rem_next_slot (h : Z) :
  0 <= h < EVT_BUF_SIZE ->
  Z.rem (h + 1) EVT_BUF_SIZE = if h + 1 =? EVT_BUF_SIZE then 0 else h + 1.
Proof.
  intros Hh. destruct (Z.eqb_spec (h + 1) EVT_BUF_SIZE) as [E | E].
  - rewrite E. apply Z.rem_same. discriminate.
  - apply Z.rem_small. lia.
Qed.

Lemma next_slot_in_range (h : Z) :
  0 <= h < EVT_BUF_SIZE -> 0 <= Z.rem (h + 1) EVT_BUF_SIZE < EVT_BUF_SIZE.
Proof.
  intros Hh. rewrite rem_next_slot by assumption.
  destruct (Z.eqb_spec (h + 1) EVT_BUF_SIZE); unfold EVT_BUF_SIZE in *; lia.
Qed.

Lemma upd_same {A : Type} (f : nat -> A) (i : nat) (v : A) :
  upd f i v i = v.
Proof. unfold upd. now rewrite Nat.eqb_refl. Qed.

Lemma upd_other {A : Type} (f : nat -> A) (i j : nat) (v : A) :
  j <> i -> upd f i v j = f j.
Proof. intros H. unfold upd. now apply Nat.eqb_neq in H as ->. Qed.

Lemma upd_range (f : nat -> Z) (i j : nat) (v lo hi : Z) :
  lo <= v < hi -> lo <= f j < hi -> lo <= upd f i v j < hi.
Proof. intros Hv Hf. unfold upd. now destruct (Nat.eqb j i). Qed.

Lemma added_loop_in_range (n : nat) :
  forall i buff bd bd0,
    cursors_in_range buff bd0 ->
    cursors_in_range (snd (added_loop n i buff bd)) bd0.
Proof.
  induction n as [| n IH]; intros i buff bd bd0 Hr; simpl; [assumption |].
  destruct (truthy (WDBuff_full buff bd)); [assumption |].
  apply IH. destruct Hr as [Hh Ht]. split; simpl; [| assumption].
  destruct (Nat.eq_dec bd0 bd) as [-> | Hne].
  - rewrite upd_same. now apply next_slot_in_range.
  - now rewrite upd_other.
Qed.

Lemma remove_loop_in_range (n : nat) :
  forall i buff bd bd0,
    cursors_in_range buff bd0 ->
    cursors_in_range (snd (remove_loop n i buff bd)) bd0.
Proof.
  induction n as [| n IH]; intros i buff bd bd0 Hr; simpl; [assumption |].
  destruct (truthy (WDBuff_empty buff bd)); [assumption |].
  apply IH. destruct Hr as [Hh Ht]. split; simpl; [assumption |].
  destruct (Nat.eq_dec bd0 bd) as [-> | Hne].
  - rewrite upd_same. now apply next_slot_in_range.
  - now rewrite upd_other.
Qed.

Lemma apply_op_in_range (op : buffer_op) (buff : WaveDemoBuffers_t)
  (bd0 : nat) :
  cursors_in_range buff bd0 -> cursors_in_range (apply_op buff op) bd0.
Proof.
  intros Hr. destruct op as [bd | bd num | bd num]; simpl.
  - unfold WDBuff_reset. destruct (is_null (buffer buff bd)); [assumption |].
    destruct Hr as [Hh Ht].
    split; simpl; apply upd_range; unfold EVT_BUF_SIZE in *; lia.
  - unfold WDBuff_added.
    destruct (is_null (buffer buff bd) || (num <? 0))%bool; [assumption |].
    now apply added_loop_in_range.
  - unfold WDBuff_remove.
    destruct (is_null (buffer buff bd) || (num <? 0))%bool; [assumption |].
    now apply remove_loop_in_range.
Qed.

Lemma run_ops_in_range (ops : list buffer_op) :
  forall buff bd0,
    cursors_in_range buff bd0 -> cursors_in_range (run_ops ops buff) bd0.
Proof.
  induction ops as [| op ops IH]; intros buff bd0 Hr; simpl; [assumption |].
  apply IH. now apply apply_op_in_range.
Qed.

Lemma used_space_bounds (buff : WaveDemoBuffers_t) (bd : nat) :
  cursors_in_range buff bd ->
  0 <= WDBuff_used_space buff bd <= EVT_BUF_SIZE - 1.
Proof.
  intros [Hh Ht]. unfold WDBuff_used_space.
  destruct (Z.geb_spec (head buff bd) (tail buff bd));
    unfold EVT_BUF_SIZE in *; lia.
Qed.

Lemma full_iff_used (buff : WaveDemoBuffers_t) (bd : nat) :
  cursors_in_range buff bd ->
  WDBuff_full buff bd = 1 <-> WDBuff_used_space buff bd = EVT_BUF_SIZE - 1.
Proof.
  intros [Hh Ht]. unfold WDBuff_full, WDBuff_used_space.
  rewrite rem_next_slot by assumption.
  destruct (Z.eqb_spec (head buff bd + 1) EVT_BUF_SIZE);
    destruct (Z.geb_spec (head buff bd) (tail buff bd));
    match goal with
    | |- context [?a =? ?b] => destruct (Z.eqb_spec a b)
    end;
    unfold EVT_BUF_SIZE in *; split; intros; try lia; try discriminate.
Qed.

(** C3.  Start from a board whose queue is in the reset state
    ([head = tail = 0]) and apply any sequence of [WDBuff_reset],
    [WDBuff_added] and [WDBuff_remove] calls, on any boards and with any
    counts.  After every prefix of the sequence the used space of the board
    lies in [0, EVT_BUF_SIZE - 1], [WDBuff_full] answers 0 or 1, and it
    answers 1 exactly when the used space is [EVT_BUF_SIZE - 1] (= 1999). *)
Theorem ring_capacity_invariant :
  forall (buff0 : WaveDemoBuffers_t) (bd : nat) (ops : list buffer_op)
         (k : nat),
    head buff0 bd = 0 -> tail buff0 bd = 0 ->
    let buff := run_ops (firstn k ops) buff0 in
    0 <= WDBuff_used_space buff bd <= EVT_BUF_SIZE - 1 /\
    (WDBuff_full buff bd = 1 \/ WDBuff_full buff bd = 0) /\
    (WDBuff_full buff bd = 1 <->
     WDBuff_used_space buff bd = EVT_BUF_SIZE - 1) /\
    EVT_BUF_SIZE = 2000.
Proof.
  intros buff0 bd ops k Hh Ht buff.
  assert (Hr : cursors_in_range buff bd).
  { apply run_ops_in_range. unfold cursors_in_range, EVT_BUF_SIZE.
    rewrite Hh, Ht. lia. }
  split; [now apply used_space_bounds |].
  split; [| split; [now apply full_iff_used | reflexivity]].
  unfold WDBuff_full. destruct (_ =? _); auto.
Qed.

(** C6, on a queue that has wrapped. The queue [wrapped_queue] holds two
    events, in slots 1999 and 0 ([tail = 1999], [head = 1]): it is not empty
    and slot 0 lies in the circular range from [tail] to [head].
    [WDBuff_set_position] nevertheless answers -1 for slot 0 (and for slot
    1999) and leaves the cursor where it was. *)
Theorem set_position_fails_on_wrapped_queue :
  WDBuff_empty wrapped_queue 0 = 0 /\
  in_circular_range wrapped_queue 0 0 = true /\
  in_circular_range wrapped_queue 0 1999 = true /\
  WDBuff_set_position wrapped_queue 0 0 = (-1, wrapped_queue) /\
  WDBuff_set_position wrapped_queue 0 1999 = (-1, wrapped_queue).
Proof. repeat split; reflexivity. Qed.

(** In a queue that has not wrapped the seek succeeds exactly on the
    logical slots, and it then moves the cursor and nothing else. *)
Lemma set_position_unwrapped (buff : WaveDemoBuffers_t) (bd : nat) (pos : Z) :
  buffer buff bd <> None ->
  cursors_in_range buff bd ->
  tail buff bd < head buff bd ->
  (fst (WDBuff_set_position buff bd pos) = 0 <->
   in_circular_range buff bd pos = true) /\
  (fst (WDBuff_set_position buff bd pos) = 0 \/
   WDBuff_set_position buff bd pos = (-1, buff)) /\
  (fst (WDBuff_set_position buff bd pos) = 0 ->
   snd (WDBuff_set_position buff bd pos) = set_tmp_pos buff bd pos).
Proof.
  intros Hb [Hh Ht] Hlt.
  unfold WDBuff_set_position, in_circular_range, WDBuff_empty, truthy.
  destruct (buffer buff bd); [simpl | congruence].
  destruct (Z.eqb_spec (head buff bd) (tail buff bd)); [lia |]. simpl.
  destruct (Z.ltb_spec pos 0), (Z.geb_spec pos EVT_BUF_SIZE),
    (Z.geb_spec pos (head buff bd)), (Z.ltb_spec pos (tail buff bd)),
    (Z.leb_spec 0 pos), (Z.leb_spec (tail buff bd) (head buff bd)),
    (Z.leb_spec (tail buff bd) pos), (Z.ltb_spec pos (head buff bd));
    simpl; try lia;
    (split; [split; intros; (reflexivity || discriminate || lia) |]);
    (split; [auto | intros; (reflexivity || discriminate)]).
Qed.

(** In a queue that has wrapped the seek fails for every position. *)
Lemma set_position_wrapped (buff : WaveDemoBuffers_t) (bd : nat) (pos : Z) :
  head buff bd < tail buff bd ->
  WDBuff_set_position buff bd pos = (-1, buff).
Proof.
  intros Hlt. unfold WDBuff_set_position.
  destruct (is_null (buffer buff bd) || truthy (WDBuff_empty buff bd))%bool;
    [reflexivity |].
  destruct ((pos <? 0) || (pos >=? EVT_BUF_SIZE))%bool; [reflexivity |].
  destruct (Z.geb_spec pos (head buff bd)), (Z.ltb_spec pos (tail buff bd));
    simpl; try reflexivity; lia.
Qed.

(** An empty queue, or one without storage, refuses every seek. *)
Lemma set_position_empty (buff : WaveDemoBuffers_t) (bd : nat) (pos : Z) :
  WDBuff_empty buff bd = 1 ->
  WDBuff_set_position buff bd pos = (-1, buff).
Proof.
  intros He. unfold WDBuff_set_position. rewrite He.
  now rewrite orb_true_r.
Qed.

(** ** Loops *)

Lemma for_loop_invariant {St : Type} (I : nat -> St -> Prop)
  (body : nat -> St -> St) (n : Z) (s : St) :
  I 0%nat s ->
  (forall k acc, (k < Z.to_nat n)%nat -> I k acc -> I (S k) (body k acc)) ->
  I (Z.to_nat n) (for_loop n body s).
Proof.
  unfold for_loop. generalize (Z.to_nat n) as m. intros m H0 Hstep.
  induction m as [| m IH].
  - exact H0.
  - rewrite seq_S, fold_left_app. simpl. apply Hstep; [lia |].
    apply IH. intros k acc Hk. apply Hstep. lia.
Qed.

Lemma for_loop_opt_invariant {St : Type} (I : nat -> St -> Prop)
  (body : nat -> St -> option St) (n : Z) (s : St) :
  I 0%nat s ->
  (forall k acc, (k < Z.to_nat n)%nat -> I k acc ->
                 exists acc', body k acc = Some acc' /\ I (S k) acc') ->
  exists s', for_loop_opt n body s = Some s' /\ I (Z.to_nat n) s'.
Proof.
  unfold for_loop_opt. generalize (Z.to_nat n) as m. intros m H0 Hstep.
  induction m as [| m IH].
  - exists s. split; [reflexivity | exact H0].
  - destruct IH as (s1 & Hrun & HI).
    { intros k acc Hk. apply Hstep. lia. }
    destruct (Hstep m s1 ltac:(lia) HI) as (s2 & Hb & HI2).
    exists s2. rewrite seq_S, fold_left_app, Hrun. simpl.
    split; assumption.
Qed.

(** What a faulting loop that returned has established. *)
Lemma for_loop_opt_sound {St : Type} (I : nat -> St -> Prop)
  (body : nat -> St -> option St) (n : Z) (s : St) :
  I 0%nat s ->
  (forall k acc acc', (k < Z.to_nat n)%nat -> I k acc ->
                      body k acc = Some acc' -> I (S k) acc') ->
  forall s', for_loop_opt n body s = Some s' -> I (Z.to_nat n) s'.
Proof.
  unfold for_loop_opt. generalize (Z.to_nat n) as m. intros m H0 Hstep.
  induction m as [| m IH]; intros s' Hrun.
  - simpl in Hrun. injection Hrun as <-. exact H0.
  - rewrite seq_S, fold_left_app in Hrun. simpl in Hrun.
    destruct (fold_left _ (seq 0 m) (Some s)) as [s1 |] eqn:E;
      [| discriminate].
    apply (Hstep m s1 s'); [lia | | exact Hrun].
    apply IH; [| reflexivity]. intros k acc acc' Hk. apply Hstep. lia.
Qed.

(** ** One synchronisation round *)

Lemma peek_ok_inv (buff : WaveDemoBuffers_t) (bd : nat) :
  fst (WDBuff_peak buff bd) = 0 ->
  exists slots,
    buffer buff bd = Some slots /\ WDBuff_empty buff bd = 0 /\
    snd (WDBuff_peak buff bd) = Some (slots (tail buff bd)).
Proof.
  unfold WDBuff_peak, WDBuff_empty, truthy.
  destruct (buffer buff bd) as [slots |]; [| discriminate].
  destruct (head buff bd =? tail buff bd); simpl; [discriminate |].
  intros _. exists slots. now repeat split.
Qed.

Lemma peek_boards_ok (buff : WaveDemoBuffers_t) (bds : list nat) :
  forall ev,
    (forall bd, In bd bds -> fst (WDBuff_peak buff bd) = 0) ->
    exists ev',
      peek_boards bds buff ev = Some ev' /\
      (forall bd, In bd bds -> ev' bd = snd (WDBuff_peak buff bd)) /\
      (forall bd, ~ In bd bds -> ev' bd = ev bd).
Proof.
  induction bds as [| b rest IH]; intros ev Hok; simpl.
  - exists ev. split; [reflexivity |]. split; [intros bd [] | reflexivity].
  - destruct (peek_ok_inv buff b (Hok b (or_introl eq_refl)))
      as (slots & Hbuf & Hne & Hsnd).
    rewrite Hne, Hsnd. simpl.
    destruct (IH (upd ev b (Some (slots (tail buff b)))))
      as (ev' & Hrun & Hin & Hout).
    { intros bd Hbd. apply Hok. now right. }
    exists ev'. split; [exact Hrun |]. split.
    + intros bd [<- | Hbd]; [| now apply Hin].
      destruct (in_dec Nat.eq_dec b rest) as [Hi | Hni]; [now apply Hin |].
      rewrite (Hout b Hni), upd_same. now rewrite Hsnd.
    + intros bd Hbd. rewrite Hout by tauto. apply upd_other. intros ->. tauto.
Qed.

Lemma min_loop_ok (cfg : WaveDemoConfig_t)
  (ev : nat -> option WaveDemoEvent_t) (bds : list nat) :
  forall tmin0,
    (forall bd, In bd bds -> ev bd <> None) ->
    exists tmin,
      min_loop bds cfg ev tmin0 = Some tmin /\
      tmin <= tmin0 /\
      (forall bd e, In bd bds -> ev bd = Some e -> tmin <= ref_TDC cfg bd e) /\
      (tmin = tmin0 \/
       exists bd e, In bd bds /\ ev bd = Some e /\ tmin = ref_TDC cfg bd e).
Proof.
  induction bds as [| b rest IH]; intros tmin0 Hev; simpl.
  - exists tmin0. split; [reflexivity |]. split; [lia |].
    split; [intros bd e [] | now left].
  - destruct (ev b) as [e |] eqn:Eb;
      [| exfalso; apply (Hev b); [now left | exact Eb]].
    set (t1 := if ref_TDC cfg b e <? tmin0 then ref_TDC cfg b e else tmin0).
    destruct (IH t1) as (tmin & Hrun & Hle & Hall & Hatt).
    { intros bd Hbd. apply Hev. now right. }
    assert (Ht1 : t1 <= tmin0 /\ t1 <= ref_TDC cfg b e /\
                  (t1 = tmin0 \/ t1 = ref_TDC cfg b e)).
    { unfold t1. destruct (Z.ltb_spec (ref_TDC cfg b e) tmin0); lia. }
    exists tmin. split; [exact Hrun |]. split; [lia |]. split.
    + intros bd e' [<- | Hbd] He'.
      * rewrite Eb in He'. injection He' as <-. lia.
      * now apply Hall.
    + destruct Hatt as [-> | (bd & e' & Hbd & He' & ->)].
      * destruct Ht1 as (_ & _ & [-> | ->]); [now left |].
        right. exists b, e. split; [now left | now split].
      * right. exists bd, e'. split; [now right | now split].
Qed.

(** With an event on every active board, [TDC_min] is the least of their
    reference time stamps, and some board attains it. *)
Lemma minimum_timestamp_ok (cfg : WaveDemoConfig_t)
  (ev : nat -> option WaveDemoEvent_t) (t0 : Z) :
  (forall bd, (bd < Z.to_nat (NumBoards cfg))%nat -> ev bd <> None) ->
  exists tmin,
    minimum_timestamp cfg ev t0 = Some tmin /\
    ((0 < Z.to_nat (NumBoards cfg))%nat ->
     (forall bd e, (bd < Z.to_nat (NumBoards cfg))%nat -> ev bd = Some e ->
                   tmin <= ref_TDC cfg bd e) /\
     (exists bd e, (bd < Z.to_nat (NumBoards cfg))%nat /\ ev bd = Some e /\
                   tmin = ref_TDC cfg bd e)).
Proof.
  intros Hev. unfold minimum_timestamp.
  set (n := Z.to_nat (NumBoards cfg)) in *.
  set (t1 := match ev 0%nat with Some e => ref_TDC cfg 0 e | None => t0 end).
  destruct (min_loop_ok cfg ev (seq 1 (n - 1)) t1)
    as (tmin & Hrun & Hle & Hall & Hatt).
  { intros bd Hbd. apply in_seq in Hbd. apply Hev. lia. }
  exists tmin. split; [exact Hrun |]. intros Hn.
  destruct (ev 0%nat) as [e0 |] eqn:E0;
    [| exfalso; apply (Hev 0%nat); [lia | exact E0]].
  split.
  - intros bd e Hbd He. destruct bd as [| bd'].
    + rewrite E0 in He. injection He as <-. exact Hle.
    + apply Hall; [| exact He]. apply in_seq. lia.
  - destruct Hatt as [-> | (bd & e & Hbd & He & ->)].
    + exists 0%nat, e0. split; [lia | now split].
    + exists bd, e. apply in_seq in Hbd. split; [lia | now split].
Qed.

Lemma count_matched_S (good : nat -> Z) (k : nat) :
  count_matched good (S k) =
  count_matched good k + (if truthy (good k) then 1 else 0).
Proof.
  unfold count_matched. rewrite seq_S, filter_app, length_app. simpl.
  destruct (truthy (good k)); simpl; lia.
Qed.

Lemma count_matched_ext (good good' : nat -> Z) (k : nat) :
  (forall bd, (bd < k)%nat -> good bd = good' bd) ->
  count_matched good k = count_matched good' k.
Proof.
  intros H. unfold count_matched. f_equal. f_equal.
  apply filter_ext_in. intros bd Hbd. apply in_seq in Hbd.
  rewrite H; [reflexivity | lia].
Qed.

Lemma count_matched_bounds (good : nat -> Z) (k : nat) :
  0 <= count_matched good k <= Z.of_nat k.
Proof.
  induction k as [| k IH]; [unfold count_matched; simpl; lia |].
  rewrite count_matched_S. destruct (truthy (good k)); lia.
Qed.

Lemma count_matched_all (good : nat -> Z) (k : nat) :
  count_matched good k = Z.of_nat k ->
  forall bd, (bd < k)%nat -> truthy (good bd) = true.
Proof.
  induction k as [| k IH]; intros Hc bd Hbd; [lia |].
  rewrite count_matched_S in Hc.
  pose proof (count_matched_bounds good k) as Hb.
  destruct (truthy (good k)) eqn:Ek; [| lia].
  destruct (Nat.eq_dec bd k) as [-> | Hne]; [exact Ek |].
  apply IH; lia.
Qed.


Lemma TDCdiff_ns_cfg (cfg cfg' : WaveDemoConfig_t)
  (ev : nat -> option WaveDemoEvent_t) (tmin : Z) (bd : nat) :
  same_boards_cfg cfg cfg' ->
  TDCdiff_ns cfg' ev tmin bd = TDCdiff_ns cfg ev tmin bd.
Proof.
  intros (_ & _ & _ & Hr & _). unfold TDCdiff_ns, ref_TDC. now rewrite Hr.
Qed.

(** The marking loop: board [bd] below [NumBoards] gets its flag exactly
    when its [TDCdiff_ns] is at most [SYNC_WIN]; [count_sync_evt] counts
    the flags. *)
Lemma mark_loop_ok (cfg : WaveDemoConfig_t)
  (ev : nat -> option WaveDemoEvent_t) (tmin : Z) :
  exists good count cfg',
    for_loop (NumBoards cfg) (mark_board ev tmin) (fun _ => 0, 0, cfg)
    = (good, count, cfg') /\
    same_boards_cfg cfg cfg' /\
    (forall bd,
        good bd =
        if ((bd <? Z.to_nat (NumBoards cfg))%nat &&
            (TDCdiff_ns cfg ev tmin bd <=? SYNC_WIN))%bool
        then 1 else 0) /\
    count = count_matched good (Z.to_nat (NumBoards cfg)).
Proof.
  pose (I := fun (k : nat) (acc : (nat -> Z) * Z * WaveDemoConfig_t) =>
    let '(good, count, cfg') := acc in
    same_boards_cfg cfg cfg' /\
    (forall bd,
        good bd =
        if ((bd <? k)%nat && (TDCdiff_ns cfg ev tmin bd <=? SYNC_WIN))%bool
        then 1 else 0) /\
    count = count_matched good k).
  assert (H : I (Z.to_nat (NumBoards cfg))
                (for_loop (NumBoards cfg) (mark_board ev tmin)
                          (fun _ => 0, 0, cfg))).
  { apply for_loop_invariant.
    - simpl. split; [now repeat split |]. split; [reflexivity | reflexivity].
    - intros k [[good count] cfg'] Hk (Hcfg & Hgood & Hcount).
      unfold I, mark_board.
      rewrite (TDCdiff_ns_cfg cfg cfg' ev tmin k Hcfg).
      assert (Hgk : good k = 0).
      { rewrite Hgood, Nat.ltb_irrefl. reflexivity. }
      assert (Hcfg' : forall v, same_boards_cfg cfg (set_RefEvent v cfg')).
      { intros v. exact Hcfg. }
      destruct (TDCdiff_ns cfg ev tmin k <=? SYNC_WIN) eqn:Ed.
      + assert (Hnew : forall bd,
                   upd good k 1 bd =
                   if ((bd <? S k)%nat &&
                       (TDCdiff_ns cfg ev tmin bd <=? SYNC_WIN))%bool
                   then 1 else 0).
        { intros bd. destruct (Nat.eq_dec bd k) as [-> | Hne].
          - rewrite upd_same, Ed.
            now replace (k <? S k)%nat with true
              by (symmetry; apply Nat.ltb_lt; lia).
          - rewrite upd_other by exact Hne. rewrite Hgood.
            replace (bd <? S k)%nat with (bd <? k)%nat; [reflexivity |].
            destruct (Nat.ltb_spec bd k), (Nat.ltb_spec bd (S k));
              try reflexivity; lia. }
        assert (Hcnt : count + 1 = count_matched (upd good k 1) (S k)).
        { rewrite count_matched_S, upd_same. simpl.
          rewrite (count_matched_ext (upd good k 1) good k); [lia |].
          intros bd Hbd. apply upd_other. lia. }
        destruct (Z.of_nat k =? TOFstartBoard cfg');
          (split; [apply Hcfg' | split; [exact Hnew | exact Hcnt]]).
      + assert (Hnew : forall bd,
                   good bd =
                   if ((bd <? S k)%nat &&
                       (TDCdiff_ns cfg ev tmin bd <=? SYNC_WIN))%bool
                   then 1 else 0).
        { intros bd. destruct (Nat.eq_dec bd k) as [-> | Hne].
          - rewrite Hgk, Ed. now rewrite andb_false_r.
          - rewrite Hgood.
            replace (bd <? S k)%nat with (bd <? k)%nat; [reflexivity |].
            destruct (Nat.ltb_spec bd k), (Nat.ltb_spec bd (S k));
              try reflexivity; lia. }
        assert (Hcnt : count = count_matched good (S k)).
        { rewrite count_matched_S, Hgk. simpl. lia. }
        destruct (Z.of_nat k =? TOFstartBoard cfg');
          (split; [apply Hcfg' | split; [exact Hnew | exact Hcnt]]). }
  destruct (for_loop (NumBoards cfg) (mark_board ev tmin) (fun _ => 0, 0, cfg))
    as [[good count] cfg'].
  exists good, count, cfg'. split; [reflexivity | exact H].
Qed.

Lemma on_chan_cell (b ch : nat) (g : ChannelStats -> ChannelStats)
  (s : WaveDemoStats_t) (b' ch' : nat) :
  chan (on_chan b ch g s) b' ch' =
  if (Nat.eqb b' b && Nat.eqb ch' ch)%bool
  then g (chan s b' ch') else chan s b' ch'.
Proof.
  unfold on_chan, upd2. simpl.
  destruct (Nat.eqb_spec b' b), (Nat.eqb_spec ch' ch); subst; reflexivity.
Qed.

Lemma ltb_to_nat (k : nat) (n : Z) :
  (k <? Z.to_nat n)%nat = (Z.of_nat k <? n).
Proof.
  destruct (Nat.ltb_spec k (Z.to_nat n)), (Z.ltb_spec (Z.of_nat k) n);
    try reflexivity; lia.
Qed.

Lemma ltb_succ (a k : nat) :
  (a <? S k)%nat = ((a <? k)%nat || Nat.eqb a k)%bool.
Proof.
  destruct (Nat.ltb_spec a (S k)), (Nat.ltb_spec a k), (Nat.eqb_spec a k);
    try reflexivity; lia.
Qed.

(** A loop over the enabled channels of board [bd] whose body rewrites the
    visited cell by [g] rewrites exactly the enabled cells below [Nch]. *)
Lemma for_enabled_channels_cell (cfg : WaveDemoConfig_t) (bd : nat)
  (f : nat -> WaveDemoStats_t -> WaveDemoStats_t)
  (g : nat -> ChannelStats -> ChannelStats) (s : WaveDemoStats_t) :
  (forall ch s' b' ch',
      chan (f ch s') b' ch' =
      if (Nat.eqb b' bd && Nat.eqb ch' ch)%bool
      then g ch (chan s' b' ch') else chan s' b' ch') ->
  forall b' ch',
    chan (for_enabled_channels cfg bd f s) b' ch' =
    if (Nat.eqb b' bd && channel_on cfg bd ch')%bool
    then g ch' (chan s b' ch') else chan s b' ch'.
Proof.
  intros Hf. unfold for_enabled_channels, channel_on.
  pose (I := fun (k : nat) (acc : WaveDemoStats_t) =>
    forall b' ch',
      chan acc b' ch' =
      if (Nat.eqb b' bd &&
          ((ch' <? k)%nat && truthy (ChannelEnable cfg bd ch')))%bool
      then g ch' (chan s b' ch') else chan s b' ch').
  assert (H : I (Z.to_nat (Nch cfg bd))
                (for_loop (Nch cfg bd)
                   (fun ch acc => if truthy (ChannelEnable cfg bd ch)
                                  then f ch acc else acc) s)).
  { apply for_loop_invariant.
    - intros b' ch'. simpl. now rewrite andb_false_r.
    - intros k acc Hk HI b' ch'. rewrite ltb_succ.
      destruct (truthy (ChannelEnable cfg bd k)) eqn:Ek.
      + rewrite Hf, !HI.
        destruct (Nat.eqb_spec b' bd) as [-> | Hb]; simpl; [| reflexivity].
        destruct (Nat.eqb_spec ch' k) as [-> | Hc]; simpl.
        * rewrite Nat.ltb_irrefl, Ek. reflexivity.
        * now rewrite orb_false_r.
      + rewrite HI.
        destruct (Nat.eqb_spec b' bd) as [-> | Hb]; simpl; [| reflexivity].
        destruct (Nat.eqb_spec ch' k) as [-> | Hc]; simpl.
        * rewrite Nat.ltb_irrefl, Ek. reflexivity.
        * now rewrite orb_false_r. }
  intros b' ch'. rewrite (H b' ch'), ltb_to_nat. reflexivity.
Qed.

(** Such a loop leaves alone whatever its body leaves alone. *)
Lemma for_enabled_channels_frame {A : Type} (P : WaveDemoStats_t -> A)
  (cfg : WaveDemoConfig_t) (bd : nat)
  (f : nat -> WaveDemoStats_t -> WaveDemoStats_t) (s : WaveDemoStats_t) :
  (forall ch s', P (f ch s') = P s') ->
  P (for_enabled_channels cfg bd f s) = P s.
Proof.
  intros Hf. unfold for_enabled_channels.
  apply (for_loop_invariant (fun _ acc => P acc = P s)); [reflexivity |].
  intros k acc _ HI.
  destruct (truthy (ChannelEnable cfg bd k)); [now rewrite Hf | exact HI].
Qed.

Lemma EventProcessing_returns (cfg : WaveDemoConfig_t) (bd ch : nat)
  (e : WaveDemoEvent_t) :
  reference_set cfg -> EventProcessing cfg bd ch e = Some 0.
Proof.
  intros ((H0 & H1) & Hr). unfold EventProcessing. cbv zeta.
  replace (0 <=? TOFstartBoard cfg) with true
    by (symmetry; apply Z.leb_le; lia).
  replace (TOFstartBoard cfg <? MAX_BD) with true
    by (symmetry; apply Z.ltb_lt; lia).
  cbn [andb].
  destruct (RefEvent cfg (Z.to_nat (TOFstartBoard cfg)));
    [reflexivity | congruence].
Qed.

(** [s' = set_chan (chan s') s]: the two records differ at most in their
    per-channel cells. *)
Lemma same_globals_refl (s : WaveDemoStats_t) : s = set_chan (chan s) s.
Proof. now destruct s. Qed.

Lemma same_globals_trans (s0 s1 s2 : WaveDemoStats_t) :
  s1 = set_chan (chan s1) s0 -> s2 = set_chan (chan s2) s1 ->
  s2 = set_chan (chan s2) s0.
Proof. intros H1 H2. rewrite H2, H1. reflexivity. Qed.

(** What [filter_channel] has done when it returned: the visited cell is
    rewritten by [filter_cell]. *)
Lemma filter_channel_sound (cfg : WaveDemoConfig_t)
  (ev : option WaveDemoEvent_t) (bd ch : nat) (s s' : WaveDemoStats_t) :
  filter_channel cfg ev bd ch s = Some s' ->
  s' = set_chan (chan s') s /\
  forall b' ch',
    chan s' b' ch' =
    if (Nat.eqb b' bd && Nat.eqb ch' ch)%bool
    then match ev with
         | Some e => filter_cell e ch (chan s b' ch')
         | None => chan s b' ch'
         end
    else chan s b' ch'.
Proof.
  unfold filter_channel, filter_cell.
  destruct ev as [e |]; [| discriminate]. cbv zeta.
  destruct (feq _ F0).
  - intros [= <-]. split; [apply same_globals_refl |].
    intros b' ch'. now destruct (Nat.eqb b' bd && Nat.eqb ch' ch)%bool.
  - destruct (EventProcessing cfg bd ch e); [| discriminate].
    intros [= <-]. split; [reflexivity |]. intros b' ch'.
    exact (on_chan_cell bd ch
             (fun c => set_EvFilt_cnt (u64 (EvFilt_cnt c + 1)) c) s b' ch').
Qed.

(** With the event and the reference event in place [filter_channel]
    returns. *)
Lemma filter_channel_returns (cfg : WaveDemoConfig_t) (e : WaveDemoEvent_t)
  (bd ch : nat) (s : WaveDemoStats_t) :
  reference_set cfg ->
  exists s', filter_channel cfg (Some e) bd ch s = Some s'.
Proof.
  intros Href. unfold filter_channel. cbv zeta.
  rewrite (EventProcessing_returns cfg bd ch e Href).
  destruct (feq _ F0); eexists; reflexivity.
Qed.

(** A faulting loop over the enabled channels of board [bd] whose body
    rewrites the visited cell by [g] has, when it returned, rewritten
    exactly the enabled cells below [Nch]. *)
Lemma for_enabled_channels_opt_sound (cfg : WaveDemoConfig_t) (bd : nat)
  (f : nat -> WaveDemoStats_t -> option WaveDemoStats_t)
  (g : nat -> ChannelStats -> ChannelStats) (s : WaveDemoStats_t) :
  (forall ch s' s'',
      f ch s' = Some s'' ->
      s'' = set_chan (chan s'') s' /\
      forall b' ch',
        chan s'' b' ch' =
        if (Nat.eqb b' bd && Nat.eqb ch' ch)%bool
        then g ch (chan s' b' ch') else chan s' b' ch') ->
  forall r,
    for_enabled_channels_opt cfg bd f s = Some r ->
    r = set_chan (chan r) s /\
    forall b' ch',
      chan r b' ch' =
      if (Nat.eqb b' bd && channel_on cfg bd ch')%bool
      then g ch' (chan s b' ch') else chan s b' ch'.
Proof.
  intros Hf r Hrun. unfold for_enabled_channels_opt, channel_on in *.
  pose (I := fun (k : nat) (acc : WaveDemoStats_t) =>
    acc = set_chan (chan acc) s /\
    forall b' ch',
      chan acc b' ch' =
      if (Nat.eqb b' bd &&
          ((ch' <? k)%nat && truthy (ChannelEnable cfg bd ch')))%bool
      then g ch' (chan s b' ch') else chan s b' ch').
  assert (H : I (Z.to_nat (Nch cfg bd)) r).
  { revert r Hrun. apply for_loop_opt_sound.
    - split; [apply same_globals_refl |].
      intros b' ch'. simpl. now rewrite andb_false_r.
    - intros k acc acc' Hk (Hs & HI) Hbody.
      destruct (truthy (ChannelEnable cfg bd k)) eqn:Ek.
      + destruct (Hf k acc acc' Hbody) as (Hs'' & Hc'').
        split; [eapply same_globals_trans; eassumption |].
        intros b' ch'. rewrite Hc'', !HI, ltb_succ.
        destruct (Nat.eqb_spec b' bd) as [-> | Hb]; simpl; [| reflexivity].
        destruct (Nat.eqb_spec ch' k) as [-> | Hc]; simpl.
        * rewrite Nat.ltb_irrefl, Ek. reflexivity.
        * now rewrite orb_false_r.
      + injection Hbody as <-. split; [exact Hs |].
        intros b' ch'. rewrite HI, ltb_succ.
        destruct (Nat.eqb_spec b' bd) as [-> | Hb]; simpl; [| reflexivity].
        destruct (Nat.eqb_spec ch' k) as [-> | Hc]; simpl.
        * rewrite Nat.ltb_irrefl, Ek. reflexivity.
        * now rewrite orb_false_r. }
  destruct H as (Hs & Hc). split; [exact Hs |].
  intros b' ch'. rewrite (Hc b' ch'), ltb_to_nat. reflexivity.
Qed.

(** Such a loop returns when its body returns on every channel. *)
Lemma for_enabled_channels_opt_returns (cfg : WaveDemoConfig_t) (bd : nat)
  (f : nat -> WaveDemoStats_t -> option WaveDemoStats_t)
  (s : WaveDemoStats_t) :
  (forall ch s', exists s'', f ch s' = Some s'') ->
  exists r, for_enabled_channels_opt cfg bd f s = Some r.
Proof.
  intros Hf. unfold for_enabled_channels_opt.
  destruct (for_loop_opt_invariant (fun _ _ => True)
              (fun ch acc => if truthy (ChannelEnable cfg bd ch)
                             then f ch acc else Some acc)
              (Nch cfg bd) s) as (r & Hrun & _).
  - exact I.
  - intros k acc _ _. destruct (truthy (ChannelEnable cfg bd k)).
    + destruct (Hf k acc) as (s'' & ->). now exists s''.
    + now exists acc.
  - now exists r.
Qed.

Lemma remove_one (buff : WaveDemoBuffers_t) (bd : nat) :
  WDBuff_remove buff bd 1 =
  if (is_null (buffer buff bd) || truthy (WDBuff_empty buff bd))%bool
  then ((if is_null (buffer buff bd) then -1 else 0), buff)
  else (1, set_tail buff bd (Z.rem (tail buff bd + 1) EVT_BUF_SIZE)).
Proof.
  unfold WDBuff_remove. destruct (is_null (buffer buff bd)); [reflexivity |].
  simpl. now destruct (truthy (WDBuff_empty buff bd)).
Qed.

Lemma remove_one_frame (buff : WaveDemoBuffers_t) (bd : nat) :
  buffer (snd (WDBuff_remove buff bd 1)) = buffer buff /\
  head (snd (WDBuff_remove buff bd 1)) = head buff /\
  forall b,
    tail (snd (WDBuff_remove buff bd 1)) b =
    if (Nat.eqb b bd &&
        negb (is_null (buffer buff bd) || truthy (WDBuff_empty buff bd)))%bool
    then Z.rem (tail buff b + 1) EVT_BUF_SIZE
    else tail buff b.
Proof.
  rewrite remove_one.
  destruct (is_null (buffer buff bd) || truthy (WDBuff_empty buff bd))%bool;
    simpl.
  - repeat (split; [reflexivity |]). intros b. now rewrite andb_false_r.
  - repeat (split; [reflexivity |]). intros b. rewrite andb_true_r.
    unfold upd. now destruct (Nat.eqb_spec b bd) as [-> |].
Qed.

(** What the body of the last loop has done for one board when it
    returned: the board has lost its oldest event and its enabled cells
    are rewritten by [drain_cell] exactly when its [event_good] flag is
    set, and nothing else has changed. *)
Lemma drain_board_sound (l : SyncLocals) (bd : nat) (w w' : World) :
  drain_board l bd w = Some w' ->
  WDcfg w' = WDcfg w /\ WDrun w' = WDrun w /\ MsgLog w' = MsgLog w /\
  UnSyncEv_cnt (WDstats w') = UnSyncEv_cnt (WDstats w) /\
  buffer (WDbuff w') = buffer (WDbuff w) /\
  head (WDbuff w') = head (WDbuff w) /\
  (forall b,
      tail (WDbuff w') b =
      if (Nat.eqb b bd &&
          (truthy (event_good l bd) &&
           negb (is_null (buffer (WDbuff w) bd) ||
                 truthy (WDBuff_empty (WDbuff w) bd))))%bool
      then Z.rem (tail (WDbuff w) b + 1) EVT_BUF_SIZE
      else tail (WDbuff w) b) /\
  (forall b ch,
      chan (WDstats w') b ch =
      if (Nat.eqb b bd &&
          (truthy (event_good l bd) && channel_on (WDcfg w) bd ch))%bool
      then drain_cell l (NumBoards (WDcfg w)) bd ch (chan (WDstats w) b ch)
      else chan (WDstats w) b ch).
Proof.
  unfold drain_board.
  destruct (truthy (event_good l bd)) eqn:Eg.
  2:{ intros [= <-]. repeat (split; [reflexivity |]).
      split; intros; now rewrite andb_false_r. }
  cbv zeta. intros Hrun.
  destruct (remove_one_frame (WDbuff w) bd) as (Rbuf & Rhead & Rtail).
  assert (Hs1 : exists s1,
            w' = set_WDstats
                   (for_enabled_channels (WDcfg w) bd
                      (fun ch =>
                         on_chan bd ch
                           (fun c =>
                              set_EvProcessed_cnt
                                (u64 (EvProcessed_cnt c + 1)) c))
                      s1)
                   (set_WDbuff (snd (WDBuff_remove (WDbuff w) bd 1)) w) /\
            UnSyncEv_cnt s1 = UnSyncEv_cnt (WDstats w) /\
            forall b ch,
              chan s1 b ch
              = if (Nat.eqb b bd && channel_on (WDcfg w) bd ch)%bool
                then (if count_sync_evt l =? NumBoards (WDcfg w)
                      then match events l bd with
                           | Some e => filter_cell e ch (chan (WDstats w) b ch)
                           | None => chan (WDstats w) b ch
                           end
                      else set_EvLost_cnt
                             (u64 (EvLost_cnt (chan (WDstats w) b ch) + 1))
                             (chan (WDstats w) b ch))
                else chan (WDstats w) b ch).
  { destruct (count_sync_evt l =? NumBoards (WDcfg w)).
    - destruct (for_enabled_channels_opt (WDcfg w) bd
                  (filter_channel (WDcfg w) (events l bd) bd) (WDstats w))
        as [s1 |] eqn:E1; [| discriminate].
      injection Hrun as <-.
      destruct (for_enabled_channels_opt_sound (WDcfg w) bd
                  (filter_channel (WDcfg w) (events l bd) bd)
                  (fun ch c => match events l bd with
                               | Some e => filter_cell e ch c
                               | None => c
                               end)
                  (WDstats w)) with (r := s1) as (Hg & Hc).
      { intros ch s' s''. apply filter_channel_sound. }
      { exact E1. }
      exists s1. split; [reflexivity |].
      split; [rewrite Hg; reflexivity | exact Hc].
    - injection Hrun as <-. eexists. split; [reflexivity |]. split.
      + now apply (for_enabled_channels_frame UnSyncEv_cnt).
      + intros b ch.
        apply (for_enabled_channels_cell (WDcfg w) bd _
                 (fun _ c => set_EvLost_cnt (u64 (EvLost_cnt c + 1)) c)).
        intros; rewrite on_chan_cell; reflexivity. }
  destruct Hs1 as (s1 & -> & Hu & Hc1).
  cbn [WDcfg WDrun MsgLog WDstats WDbuff set_WDstats set_WDbuff].
  repeat (split; [reflexivity |]).
  split; [rewrite (for_enabled_channels_frame UnSyncEv_cnt) by reflexivity;
          exact Hu |].
  split; [exact Rbuf |]. split; [exact Rhead |]. split; [exact Rtail |].
  intros b ch.
  rewrite (for_enabled_channels_cell (WDcfg w) bd _
             (fun _ c => set_EvProcessed_cnt (u64 (EvProcessed_cnt c + 1)) c))
    by (intros; rewrite on_chan_cell; reflexivity).
  rewrite Hc1. cbn [andb]. unfold drain_cell.
  now destruct (Nat.eqb b bd && channel_on (WDcfg w) bd ch)%bool.
Qed.

(** The body of the last loop returns; in a full match, when the
    reference event and the event of a marked board are in place. *)
Lemma drain_board_returns (l : SyncLocals) (bd : nat) (w : World) :
  (truthy (event_good l bd) = true ->
   count_sync_evt l = NumBoards (WDcfg w) ->
   reference_set (WDcfg w) /\ events l bd <> None) ->
  exists w', drain_board l bd w = Some w'.
Proof.
  intros Hpre. unfold drain_board.
  destruct (truthy (event_good l bd)); [| now exists w]. cbv zeta.
  destruct (Z.eqb_spec (count_sync_evt l) (NumBoards (WDcfg w))) as [Ec | Ec].
  - destruct (Hpre eq_refl Ec) as (Href & Hev).
    destruct (events l bd) as [e |]; [| congruence].
    destruct (for_enabled_channels_opt_returns (WDcfg w) bd
                (filter_channel (WDcfg w) (Some e) bd) (WDstats w))
      as (r & ->).
    { intros ch s'. now apply filter_channel_returns. }
    eexists. reflexivity.
  - eexists. reflexivity.
Qed.

(** What the last loop of a round, over boards [0 .. n-1], has done when
    it returned: a board has lost its oldest event and has its enabled
    cells rewritten by [drain_cell] exactly when its [event_good] flag is
    set, and nothing else has changed. *)
Lemma drain_loop_sound (l : SyncLocals) (n : Z) (w w' : World) :
  for_loop_opt n (drain_board l) w = Some w' ->
  WDcfg w' = WDcfg w /\ WDrun w' = WDrun w /\ MsgLog w' = MsgLog w /\
  UnSyncEv_cnt (WDstats w') = UnSyncEv_cnt (WDstats w) /\
  buffer (WDbuff w') = buffer (WDbuff w) /\
  head (WDbuff w') = head (WDbuff w) /\
  (forall b,
      tail (WDbuff w') b =
      if ((b <? Z.to_nat n)%nat &&
          (truthy (event_good l b) &&
           negb (is_null (buffer (WDbuff w) b) ||
                 truthy (WDBuff_empty (WDbuff w) b))))%bool
      then Z.rem (tail (WDbuff w) b + 1) EVT_BUF_SIZE
      else tail (WDbuff w) b) /\
  (forall b ch,
      chan (WDstats w') b ch =
      if ((b <? Z.to_nat n)%nat &&
          (truthy (event_good l b) && channel_on (WDcfg w) b ch))%bool
      then drain_cell l (NumBoards (WDcfg w)) b ch (chan (WDstats w) b ch)
      else chan (WDstats w) b ch).
Proof.
  pose (I := fun (k : nat) (w' : World) =>
    WDcfg w' = WDcfg w /\ WDrun w' = WDrun w /\ MsgLog w' = MsgLog w /\
    UnSyncEv_cnt (WDstats w') = UnSyncEv_cnt (WDstats w) /\
    buffer (WDbuff w') = buffer (WDbuff w) /\
    head (WDbuff w') = head (WDbuff w) /\
    (forall b,
        tail (WDbuff w') b =
        if ((b <? k)%nat &&
            (truthy (event_good l b) &&
             negb (is_null (buffer (WDbuff w) b) ||
                   truthy (WDBuff_empty (WDbuff w) b))))%bool
        then Z.rem (tail (WDbuff w) b + 1) EVT_BUF_SIZE
        else tail (WDbuff w) b) /\
    (forall b ch,
        chan (WDstats w') b ch =
        if ((b <? k)%nat &&
            (truthy (event_good l b) && channel_on (WDcfg w) b ch))%bool
        then drain_cell l (NumBoards (WDcfg w)) b ch (chan (WDstats w) b ch)
        else chan (WDstats w) b ch)).
  revert w'. change (forall w', for_loop_opt n (drain_board l) w = Some w' ->
                                I (Z.to_nat n) w').
  apply for_loop_opt_sound.
  - unfold I. repeat (split; [reflexivity |]). split; reflexivity.
  - intros k acc acc' Hk
      (Hcfg & Hrn & Hlog & Huns & Hbuf & Hhead & Htail & Hchan) Hstep.
    destruct (drain_board_sound l k acc acc' Hstep)
      as (Fcfg & Frun & Flog & Funs & Fbuf & Fhead & Ftail & Fchan).
    assert (Hempty : WDBuff_empty (WDbuff acc) k = WDBuff_empty (WDbuff w) k).
    { unfold WDBuff_empty. rewrite Hhead, Htail, Nat.ltb_irrefl. reflexivity. }
    unfold I.
    split; [congruence |]. split; [congruence |]. split; [congruence |].
    split; [congruence |]. split; [congruence |]. split; [congruence |].
    split.
    + intros b. rewrite Ftail, Htail, Hbuf, Hempty, ltb_succ.
      destruct (Nat.eqb_spec b k) as [-> | Hne]; simpl.
      * rewrite Nat.ltb_irrefl. reflexivity.
      * now rewrite orb_false_r.
    + intros b ch. rewrite Fchan, Hchan, Hcfg, ltb_succ.
      destruct (Nat.eqb_spec b k) as [-> | Hne]; simpl.
      * rewrite Nat.ltb_irrefl. reflexivity.
      * now rewrite orb_false_r.
Qed.

(** The last loop of a round returns; in a full match, when the reference
    event and the events of the marked boards are in place. *)
Lemma drain_loop_returns (l : SyncLocals) (n : Z) (w : World) :
  (count_sync_evt l = NumBoards (WDcfg w) ->
   reference_set (WDcfg w) /\
   forall b, truthy (event_good l b) = true -> events l b <> None) ->
  exists w', for_loop_opt n (drain_board l) w = Some w'.
Proof.
  intros Hpre.
  destruct (for_loop_opt_invariant (fun _ acc => WDcfg acc = WDcfg w)
              (drain_board l) n w) as (w' & Hrun & _).
  - reflexivity.
  - intros k acc Hk Hcfg.
    destruct (drain_board_returns l k acc) as (acc' & Hstep).
    { intros Eg Ec. rewrite Hcfg in *. destruct (Hpre Ec) as (Href & Hev).
      split; [exact Href | now apply Hev]. }
    exists acc'. split; [exact Hstep |].
    destruct (drain_board_sound l k acc acc' Hstep) as (-> & _). exact Hcfg.
  - now exists w'.
Qed.

Lemma peeked_TDC_event (w : World) (bd : nat) (e : WaveDemoEvent_t) :
  snd (WDBuff_peak (WDbuff w) bd) = Some e ->
  peeked_TDC w bd = ref_TDC (WDcfg w) bd e.
Proof. intros H. unfold peeked_TDC. now rewrite H. Qed.

Lemma account_round_spec
  (MWP : (nat -> option WaveDemoEvent_t) -> Z -> nat ->
         WaveDemoEvent_t -> WaveDemoEvent_t)
  (l : SyncLocals) (w : World) :
  exists l2 w2,
    account_round MWP l w = (l2, w2) /\
    event_good l2 = event_good l /\
    count_sync_evt l2 = count_sync_evt l /\
    TDC_min l2 = TDC_min l /\
    (forall bd, events l bd <> None -> events l2 bd <> None) /\
    WDcfg w2 = WDcfg w /\ WDbuff w2 = WDbuff w /\
    chan (WDstats w2) = chan (WDstats w) /\
    UnSyncEv_cnt (WDstats w2) =
      (if count_sync_evt l =? NumBoards (WDcfg w)
       then UnSyncEv_cnt (WDstats w)
       else u64 (UnSyncEv_cnt (WDstats w) +
                 u64 (u64 (NumBoards (WDcfg w)) - u64 (count_sync_evt l)))) /\
    MsgLog w2 =
      (if count_sync_evt l =? NumBoards (WDcfg w) then MsgLog w
       else if UnSyncEv_cnt (WDstats w2) =? 0
            then MsgLog w ++ [WARN_UNSYNC] else MsgLog w).
Proof.
  unfold account_round.
  destruct (count_sync_evt l =? NumBoards (WDcfg w)).
  - eexists _, _. split; [reflexivity |].
    repeat (split; [reflexivity |]). split; [| now repeat split].
    intros bd. cbn [events]. now destruct (events l bd).
  - eexists _, _. split; [reflexivity |].
    destruct (u64 _ =? 0) eqn:E; cbn; rewrite E; now repeat split.
Qed.

(** The reference event pointers after the marking loop: the active
    boards have theirs rewritten, the start board to its peeked event and
    the others to NULL; the other handles keep theirs. *)
Lemma mark_loop_reference (cfg : WaveDemoConfig_t)
  (ev : nat -> option WaveDemoEvent_t) (tmin : Z) :
  forall bd,
    RefEvent
      (snd (for_loop (NumBoards cfg) (mark_board ev tmin) (fun _ => 0, 0, cfg)))
      bd
    = if (bd <? Z.to_nat (NumBoards cfg))%nat
      then (if Z.of_nat bd =? TOFstartBoard cfg then ev bd else None)
      else RefEvent cfg bd.
Proof.
  pose (I := fun (k : nat) (acc : (nat -> Z) * Z * WaveDemoConfig_t) =>
    TOFstartBoard (snd acc) = TOFstartBoard cfg /\
    forall bd,
      RefEvent (snd acc) bd
      = if (bd <? k)%nat
        then (if Z.of_nat bd =? TOFstartBoard cfg then ev bd else None)
        else RefEvent cfg bd).
  assert (H : I (Z.to_nat (NumBoards cfg))
                (for_loop (NumBoards cfg) (mark_board ev tmin)
                          (fun _ => 0, 0, cfg))).
  { apply for_loop_invariant.
    - split; [reflexivity |]. intros bd. reflexivity.
    - intros k [[good count] cfg'] Hk (HT & HR). cbn [snd] in HT, HR.
      unfold I, mark_board. rewrite HT.
      destruct (TDCdiff_ns cfg' ev tmin k <=? SYNC_WIN);
        destruct (Z.of_nat k =? TOFstartBoard cfg) eqn:Ek;
        cbn [snd TOFstartBoard RefEvent set_RefEvent];
        (split; [exact HT |]); intros bd; rewrite ltb_succ;
        (destruct (Nat.eqb_spec bd k) as [-> | Hne];
         [rewrite upd_same, Nat.ltb_irrefl, Ek; reflexivity
         | rewrite upd_other by exact Hne; rewrite HR, orb_false_r;
           reflexivity]). }
  intros bd. apply H.
Qed.

(** The first half of a round in which every active board could be
    peeked: it returns; [TDC_min] is the least reference time stamp of the
    peeked events; a board is marked exactly when it is active and within
    the window; the reference event pointers of the active boards are
    rewritten; nothing else changes. *)
Lemma mark_round_spec (l : SyncLocals) (w : World) :
  all_peeked w ->
  exists l1 w1,
    mark_round l w = RoundDone l1 w1 /\
    (forall bd, (bd < active_boards w)%nat ->
       events l1 bd = snd (WDBuff_peak (WDbuff w) bd) /\
       events l1 bd <> None) /\
    ((0 < active_boards w)%nat ->
     (forall bd, (bd < active_boards w)%nat ->
                 TDC_min l1 <= peeked_TDC w bd) /\
     (exists bd, (bd < active_boards w)%nat /\
                 TDC_min l1 = peeked_TDC w bd)) /\
    (forall bd,
        event_good l1 bd =
        if ((bd <? active_boards w)%nat &&
            (u64 (u64 (peeked_TDC w bd - TDC_min l1) * 5) <=? SYNC_WIN))%bool
        then 1 else 0) /\
    count_sync_evt l1 = count_matched (event_good l1) (active_boards w) /\
    WDbuff w1 = WDbuff w /\ WDstats w1 = WDstats w /\
    WDrun w1 = WDrun w /\ MsgLog w1 = MsgLog w /\
    same_boards_cfg (WDcfg w) (WDcfg w1) /\
    (forall bd,
        RefEvent (WDcfg w1) bd =
        if (bd <? active_boards w)%nat
        then (if Z.of_nat bd =? TOFstartBoard (WDcfg w)
              then events l1 bd else None)
        else RefEvent (WDcfg w) bd).
Proof.
  intros Hpk. unfold all_peeked, active_boards in *.
  set (cfg := WDcfg w) in *. set (N := Z.to_nat (NumBoards cfg)) in *.
  destruct (peek_boards_ok (WDbuff w) (seq 0 N) (events l))
    as (ev & Hpeek & Hev & _).
  { intros bd Hbd. apply in_seq in Hbd. apply Hpk. lia. }
  assert (Hsome : forall bd, (bd < N)%nat ->
            exists e, ev bd = Some e /\ peeked_TDC w bd = ref_TDC cfg bd e).
  { intros bd Hbd.
    destruct (peek_ok_inv _ _ (Hpk bd Hbd)) as (slots & Hb & He & Hs).
    exists (slots (tail (WDbuff w) bd)).
    rewrite Hev by (apply in_seq; lia).
    split; [exact Hs | now apply peeked_TDC_event]. }
  destruct (minimum_timestamp_ok cfg ev (TDC_min l)) as (tmin & Hmin & Hminp).
  { intros bd Hbd. destruct (Hsome bd Hbd) as (e & -> & _). discriminate. }
  destruct (mark_loop_ok cfg ev tmin)
    as (good & count & cfg' & Hmark & Hsame & Hgood & Hcount).
  pose proof (mark_loop_reference cfg ev tmin) as Href.
  rewrite Hmark in Href. cbn [snd] in Href.
  assert (Hdiff : forall bd, (bd < N)%nat ->
            TDCdiff_ns cfg ev tmin bd =
            u64 (u64 (peeked_TDC w bd - tmin) * 5)).
  { intros bd Hbd. destruct (Hsome bd Hbd) as (e & He & Hp).
    unfold TDCdiff_ns. now rewrite He, Hp. }
  exists {| events := ev; TDC_min := tmin;
            event_good := good; count_sync_evt := count |},
         (set_WDcfg cfg' w).
  split.
  { unfold mark_round. cbv zeta. fold cfg. fold N.
    rewrite Hpeek, Hmin, Hmark. reflexivity. }
  cbn [events TDC_min event_good count_sync_evt
       WDbuff WDstats WDrun MsgLog WDcfg set_WDcfg].
  split.
  { intros bd Hbd. destruct (Hsome bd Hbd) as (e & He & _).
    split; [apply Hev; apply in_seq; lia | congruence]. }
  split.
  { intros HN. destruct (Hminp HN) as (Hall & bd & e & Hbd & He & Ht). split.
    - intros bd' Hbd'. destruct (Hsome bd' Hbd') as (e' & He' & ->).
      now apply Hall.
    - exists bd. split; [exact Hbd |].
      destruct (Hsome bd Hbd) as (e' & He' & ->). congruence. }
  split.
  { intros bd. rewrite Hgood. fold N.
    destruct (Nat.ltb_spec bd N); [| reflexivity]. now rewrite Hdiff. }
  split; [exact Hcount |].
  repeat (split; [reflexivity |]).
  split; [exact Hsame | exact Href].
Qed.

(** The marks of a completed round are those of its first half. *)
Lemma sync_round_marks
  (MWP : (nat -> option WaveDemoEvent_t) -> Z -> nat ->
         WaveDemoEvent_t -> WaveDemoEvent_t)
  (l : SyncLocals) (w : World) (l' : SyncLocals) (w' : World) :
  sync_round MWP l w = RoundDone l' w' ->
  exists l1 w1,
    mark_round l w = RoundDone l1 w1 /\
    event_good l' = event_good l1 /\
    count_sync_evt l' = count_sync_evt l1 /\
    TDC_min l' = TDC_min l1.
Proof.
  unfold sync_round.
  destruct (mark_round l w) as [| | l1 w1]; try discriminate.
  destruct (account_round_spec MWP l1 w1)
    as (l2 & w2 & Hacc & Ag & Ac & At & _).
  rewrite Hacc.
  destruct (for_loop_opt _ _ _); [| discriminate].
  intros [= <- <-]. exists l1, w1. now repeat split.
Qed.

(** The whole effect of a completed round in which every active board
    could be peeked. *)
Lemma sync_round_effect
  (MWP : (nat -> option WaveDemoEvent_t) -> Z -> nat ->
         WaveDemoEvent_t -> WaveDemoEvent_t)
  (l : SyncLocals) (w : World) (l' : SyncLocals) (w' : World) :
  all_peeked w ->
  sync_round MWP l w = RoundDone l' w' ->
  ((0 < active_boards w)%nat ->
   (forall bd, (bd < active_boards w)%nat ->
               TDC_min l' <= peeked_TDC w bd) /\
   (exists bd, (bd < active_boards w)%nat /\
               TDC_min l' = peeked_TDC w bd)) /\
  (forall bd,
      event_good l' bd =
      if ((bd <? active_boards w)%nat &&
          (u64 (u64 (peeked_TDC w bd - TDC_min l') * 5) <=? SYNC_WIN))%bool
      then 1 else 0) /\
  count_sync_evt l' = count_matched (event_good l') (active_boards w) /\
  UnSyncEv_cnt (WDstats w') =
    (if count_sync_evt l' =? NumBoards (WDcfg w)
     then UnSyncEv_cnt (WDstats w)
     else u64 (UnSyncEv_cnt (WDstats w) +
               u64 (u64 (NumBoards (WDcfg w)) - u64 (count_sync_evt l')))) /\
  MsgLog w' =
    (if count_sync_evt l' =? NumBoards (WDcfg w) then MsgLog w
     else if UnSyncEv_cnt (WDstats w') =? 0
          then MsgLog w ++ [WARN_UNSYNC] else MsgLog w) /\
  buffer (WDbuff w') = buffer (WDbuff w) /\
  head (WDbuff w') = head (WDbuff w) /\
  (forall b,
      tail (WDbuff w') b =
      if truthy (event_good l' b)
      then Z.rem (tail (WDbuff w) b + 1) EVT_BUF_SIZE
      else tail (WDbuff w) b) /\
  (forall b ch,
      chan (WDstats w') b ch =
      if (truthy (event_good l' b) && channel_on (WDcfg w) b ch)%bool
      then drain_cell l' (NumBoards (WDcfg w)) b ch (chan (WDstats w) b ch)
      else chan (WDstats w) b ch) /\
  same_boards_cfg (WDcfg w) (WDcfg w').
Proof.
  intros Hpk Hrun.
  destruct (mark_round_spec l w Hpk)
    as (l1 & w1 & Hmark & Hev & Hminq & Hgood & Hcount & Mbuf & Mstats & Mrun
        & Mlog & Hsame & Mref).
  pose proof Hsame as (HsN & Hnch & Hen & _ & HsT).
  destruct (account_round_spec MWP l1 w1)
    as (l2 & w2 & Hacc & Ag & Ac & At & Aev & Acfg & Abuf & Achan & Auns
        & Alog).
  rewrite HsN, Mstats in Auns. rewrite HsN, Mlog in Alog.
  unfold sync_round in Hrun. rewrite Hmark in Hrun. cbv beta iota in Hrun.
  rewrite Hacc in Hrun. cbv beta iota in Hrun.
  destruct (for_loop_opt (NumBoards (WDcfg w)) (drain_board l2) w2)
    as [w2' |] eqn:Hdrain; [| discriminate].
  injection Hrun as <- <-.
  destruct (drain_loop_sound l2 (NumBoards (WDcfg w)) w2 w2' Hdrain)
    as (Dcfg & Drun & Dlog & Duns & Dbuf & Dhead & Dtail & Dchan).
  assert (Hrem : forall b, truthy (event_good l1 b) = true ->
            (b <? active_boards w)%nat = true /\
            negb (is_null (buffer (WDbuff w) b) ||
                  truthy (WDBuff_empty (WDbuff w) b)) = true).
  { intros b Hb. rewrite Hgood in Hb.
    destruct (Nat.ltb_spec b (active_boards w)) as [Hlt |]; [| discriminate].
    split; [reflexivity |].
    destruct (peek_ok_inv _ _ (Hpk b Hlt)) as (slots & -> & -> & _).
    reflexivity. }
  rewrite Acfg, HsN in Dchan.
  rewrite Ag, Ac, At.
  split; [exact Hminq |]. split; [exact Hgood |].
  split; [exact Hcount |].
  split; [rewrite Duns; exact Auns |].
  split; [rewrite Dlog, Duns; exact Alog |].
  split; [rewrite Dbuf, Abuf, Mbuf; reflexivity |].
  split; [rewrite Dhead, Abuf, Mbuf; reflexivity |].
  split; [| split].
  - intros b. rewrite Dtail, Ag, Abuf, Mbuf. fold (active_boards w).
    destruct (truthy (event_good l1 b)) eqn:Eg.
    + destruct (Hrem b Eg) as (-> & ->). reflexivity.
    + now rewrite andb_false_r.
  - intros b ch. rewrite Dchan, Ag, Achan, Mstats. fold (active_boards w).
    unfold channel_on. rewrite Hnch, Hen.
    destruct (truthy (event_good l1 b)) eqn:Eg.
    + destruct (Hrem b Eg) as (-> & _). reflexivity.
    + now rewrite andb_false_r.
  - rewrite Dcfg, Acfg. exact Hsame.
Qed.

(** A round in which every active board could be peeked completes; for a
    full match, when the start board is an active board. *)
Lemma sync_round_completes
  (MWP : (nat -> option WaveDemoEvent_t) -> Z -> nat ->
         WaveDemoEvent_t -> WaveDemoEvent_t)
  (l : SyncLocals) (w : World) :
  all_peeked w ->
  (full_match l w -> start_board_active (WDcfg w)) ->
  exists l' w', sync_round MWP l w = RoundDone l' w'.
Proof.
  intros Hpk Href.
  destruct (mark_round_spec l w Hpk)
    as (l1 & w1 & Hmark & Hev & _ & Hgood & _ & _ & _ & _ & _ & Hsame & Mref).
  pose proof Hsame as (HsN & _ & _ & _ & HsT).
  destruct (account_round_spec MWP l1 w1)
    as (l2 & w2 & Hacc & Ag & Ac & _ & Aev & Acfg & _).
  destruct (drain_loop_returns l2 (NumBoards (WDcfg w)) w2)
    as (w' & Hdrain).
  { rewrite Ac, Acfg, HsN. intros Ec.
    destruct (Href (ex_intro _ l1 (ex_intro _ w1 (conj Hmark Ec))))
      as ((T0 & TN) & TM).
    assert (Hlt : (Z.to_nat (TOFstartBoard (WDcfg w)) < active_boards w)%nat)
      by (unfold active_boards; lia).
    split.
    - split; [rewrite HsT; lia |]. rewrite HsT, Mref.
      pose proof Hlt as Hlt'. apply Nat.ltb_lt in Hlt'. rewrite Hlt'.
      rewrite Z2Nat.id by lia. rewrite Z.eqb_refl. apply (Hev _ Hlt).
    - intros b Hb. rewrite Ag, Hgood in Hb. apply Aev.
      destruct (Nat.ltb_spec b (active_boards w)) as [Hb' |];
        [| discriminate].
      apply (Hev b Hb'). }
  exists l2, w'. unfold sync_round. rewrite Hmark. cbv beta iota.
  rewrite Hacc. cbv beta iota. rewrite Hdrain. reflexivity.
Qed.

(** Both together. *)
Lemma sync_round_spec
  (MWP : (nat -> option WaveDemoEvent_t) -> Z -> nat ->
         WaveDemoEvent_t -> WaveDemoEvent_t)
  (l : SyncLocals) (w : World) :
  all_peeked w ->
  (full_match l w -> start_board_active (WDcfg w)) ->
  exists l' w',
    sync_round MWP l w = RoundDone l' w' /\
    ((0 < active_boards w)%nat ->
     (forall bd, (bd < active_boards w)%nat ->
                 TDC_min l' <= peeked_TDC w bd) /\
     (exists bd, (bd < active_boards w)%nat /\
                 TDC_min l' = peeked_TDC w bd)) /\
    (forall bd,
        event_good l' bd =
        if ((bd <? active_boards w)%nat &&
            (u64 (u64 (peeked_TDC w bd - TDC_min l') * 5) <=? SYNC_WIN))%bool
        then 1 else 0) /\
    count_sync_evt l' = count_matched (event_good l') (active_boards w) /\
    UnSyncEv_cnt (WDstats w') =
      (if count_sync_evt l' =? NumBoards (WDcfg w)
       then UnSyncEv_cnt (WDstats w)
       else u64 (UnSyncEv_cnt (WDstats w) +
                 u64 (u64 (NumBoards (WDcfg w)) - u64 (count_sync_evt l')))) /\
    MsgLog w' =
      (if count_sync_evt l' =? NumBoards (WDcfg w) then MsgLog w
       else if UnSyncEv_cnt (WDstats w') =? 0
            then MsgLog w ++ [WARN_UNSYNC] else MsgLog w) /\
    buffer (WDbuff w') = buffer (WDbuff w) /\
    head (WDbuff w') = head (WDbuff w) /\
    (forall b,
        tail (WDbuff w') b =
        if truthy (event_good l' b)
        then Z.rem (tail (WDbuff w) b + 1) EVT_BUF_SIZE
        else tail (WDbuff w) b) /\
    (forall b ch,
        chan (WDstats w') b ch =
        if (truthy (event_good l' b) && channel_on (WDcfg w) b ch)%bool
        then drain_cell l' (NumBoards (WDcfg w)) b ch (chan (WDstats w) b ch)
        else chan (WDstats w) b ch) /\
    same_boards_cfg (WDcfg w) (WDcfg w').
Proof.
  intros Hpk Href.
  destruct (sync_round_completes MWP l w Hpk Href) as (l' & w' & Hrun).
  exists l', w'. split; [exact Hrun |].
  exact (sync_round_effect MWP l w l' w' Hpk Hrun).
Qed.




Lemma u64_sub_u64 (a b : Z) : u64 (u64 a - u64 b) = u64 (a - b).
Proof. unfold u64. now rewrite <- Zminus_mod. Qed.

Lemma u64_add_u64_r (a b : Z) : u64 (a + u64 b) = u64 (a + b).
Proof. unfold u64. now rewrite Zplus_mod_idemp_r. Qed.

Lemma u64_small (a : Z) : 0 <= a < 2 ^ 64 -> u64 a = a.
Proof. intros H. unfold u64. now apply Z.mod_small. Qed.

Lemma used_space_after_remove (buff buff' : WaveDemoBuffers_t) (bd : nat) :
  cursors_in_range buff bd ->
  WDBuff_empty buff bd = 0 ->
  head buff' bd = head buff bd ->
  tail buff' bd = Z.rem (tail buff bd + 1) EVT_BUF_SIZE ->
  WDBuff_used_space buff' bd = WDBuff_used_space buff bd - 1.
Proof.
  intros [Hh Ht] He Hh' Ht'. unfold WDBuff_used_space, WDBuff_empty in *.
  rewrite Hh', Ht', rem_next_slot by assumption.
  destruct (Z.eqb_spec (head buff bd) (tail buff bd)); [discriminate |].
  destruct (Z.eqb_spec (tail buff bd + 1) EVT_BUF_SIZE);
    destruct (Z.geb_spec (head buff bd) (tail buff bd));
    match goal with
    | |- context [?a >=? ?b] => destruct (Z.geb_spec a b)
    end; unfold EVT_BUF_SIZE in *; lia.
Qed.

Ltac prove_peeked := intros ? ?; reflexivity.

(** ** The start board *)



(** The fault of [EventProcessing] in a round.  On [stray_start_board]
    both boards are peeked and marked, no active board is the start board,
    so every reference event pointer is NULL when the first channel is
    processed: the round faults before any event is removed, and so does
    the call. *)
Example full_match_without_start_board_faults :
  all_peeked stray_start_board /\
  full_match initial_locals stray_start_board /\
  ~ start_board_active (WDcfg stray_start_board) /\
  sync_round no_processing initial_locals stray_start_board = RoundFault /\
  ProcessesSynchronizedEvents no_processing stray_start_board = None.
Proof.
  split; [prove_peeked |]. split.
  { eexists _, _. split; reflexivity. }
  split; [unfold start_board_active; cbn; lia |].
  split; reflexivity.
Qed.

Section RoundProperties.

Variable MultiWaveformProcess :
  (nat -> option WaveDemoEvent_t) -> Z -> nat ->
  WaveDemoEvent_t -> WaveDemoEvent_t.


End RoundProperties.



Section RoundAccounting.

Variable MultiWaveformProcess :
  (nat -> option WaveDemoEvent_t) -> Z -> nat ->
  WaveDemoEvent_t -> WaveDemoEvent_t.


(** A partial match completes in every configuration: the premise on the
    start board holds of every round that is not a full match. *)
Lemma partial_match_needs_no_start_board (l : SyncLocals) (w : World) :
  all_peeked w ->
  ~ full_match l w ->
  exists l' w',
    sync_round MultiWaveformProcess l w = RoundDone l' w' /\
    count_sync_evt l' <> NumBoards (WDcfg w).
Proof.
  intros Hpk Hpart.
  destruct (sync_round_spec MultiWaveformProcess l w Hpk)
    as (l' & w' & Hrun & _).
  { intros Hfull. contradiction. }
  exists l', w'. split; [exact Hrun |].
  destruct (sync_round_marks _ _ _ _ _ Hrun) as (l1 & w1 & Hmark & _ & Hc & _).
  intros Heq. apply Hpart. exists l1, w1. split; [exact Hmark | congruence].
Qed.

(** The warning of lines 648-651 is written only in a partial-match round
    that leaves [UnSyncEv_cnt] at zero, that is, when the 64-bit counter
    wraps around. *)
Lemma warning_only_when_counter_is_zero (l : SyncLocals) (w : World) :
  all_peeked w ->
  (full_match l w -> start_board_active (WDcfg w)) ->
  exists l' w',
    sync_round MultiWaveformProcess l w = RoundDone l' w' /\
    (MsgLog w' = MsgLog w \/
     MsgLog w' = MsgLog w ++ [WARN_UNSYNC] /\
     UnSyncEv_cnt (WDstats w') = 0 /\
     count_sync_evt l' <> NumBoards (WDcfg w)).
Proof.
  intros Hpk Href.
  destruct (sync_round_spec MultiWaveformProcess l w Hpk Href)
    as (l' & w' & Hrun & _ & _ & _ & _ & Hlog & _).
  exists l', w'. split; [exact Hrun |]. rewrite Hlog.
  destruct (Z.eqb_spec (count_sync_evt l') (NumBoards (WDcfg w)));
    [now left |].
  destruct (Z.eqb_spec (UnSyncEv_cnt (WDstats w')) 0); [| now left].
  right. now repeat split.
Qed.

(** In particular the first partial-match round of a run, which finds
    the counter at zero, is silent. *)
Lemma first_partial_round_is_silent (l : SyncLocals) (w : World) :
  all_peeked w ->
  (full_match l w -> start_board_active (WDcfg w)) ->
  0 <= NumBoards (WDcfg w) < 2 ^ 64 ->
  UnSyncEv_cnt (WDstats w) = 0 ->
  exists l' w',
    sync_round MultiWaveformProcess l w = RoundDone l' w' /\
    (count_sync_evt l' < NumBoards (WDcfg w) ->
     0 < UnSyncEv_cnt (WDstats w') /\ MsgLog w' = MsgLog w).
Proof.
  intros Hpk Href HN H0.
  destruct (sync_round_spec MultiWaveformProcess l w Hpk Href)
    as (l' & w' & Hrun & _ & _ & Hcount & Huns & Hlog & _).
  exists l', w'. split; [exact Hrun |]. intros Hlt.
  pose proof (count_matched_bounds (event_good l') (active_boards w)) as Hb.
  rewrite <- Hcount in Hb.
  assert (Hne : (count_sync_evt l' =? NumBoards (WDcfg w)) = false)
    by (apply Z.eqb_neq; lia).
  rewrite Hne in Huns, Hlog.
  rewrite H0, u64_sub_u64, u64_add_u64_r in Huns. simpl in Huns.
  rewrite u64_small in Huns by lia.
  split; [lia |]. rewrite Hlog.
  destruct (Z.eqb_spec (UnSyncEv_cnt (WDstats w')) 0); [lia | reflexivity].
Qed.

End RoundAccounting.



(** C5, on the first partial-match round. A run whose [UnSyncEv_cnt] is
    still 0 meets its first partial-match round (two boards 21 ticks apart,
    one of them marked). The counter goes from 0 to 1 and nothing is written
    to [MsgLog]: the test [UnSyncEv_cnt == 0] is made after the counter was
    raised. *)
Theorem first_unsynchronized_round_writes_no_warning :
  all_peeked (two_boards 0 21) /\
  UnSyncEv_cnt (WDstats (two_boards 0 21)) = 0 /\
  MsgLog (two_boards 0 21) = [] /\
  exists l' w',
    sync_round no_processing initial_locals (two_boards 0 21)
    = RoundDone l' w' /\
    count_sync_evt l' = 1 /\ NumBoards (WDcfg (two_boards 0 21)) = 2 /\
    UnSyncEv_cnt (WDstats w') = 1 /\
    MsgLog w' = [].
Proof.
  split; [prove_peeked |]. split; [reflexivity |]. split; [reflexivity |].
  eexists _, _. split; [reflexivity |]. repeat split.
Qed.

Section RoundMatching.

Variable MultiWaveformProcess :
  (nat -> option WaveDemoEvent_t) -> Z -> nat ->
  WaveDemoEvent_t -> WaveDemoEvent_t.

(** C8.  The marking of a round in which every active board was peeked
    (lines 599-635, [mark_round]; a round that completes carries these
    marks).
    - [TDC_min] is the round minimum: it is at most the reference time
      stamp of every peeked event and it is the time stamp of one of
      them.
    - A board is marked matched ([event_good = 1], else 0) if and only if
      its offset from [TDC_min], multiplied by 5 ns per tick in
      [uint64_t], is at most [SYNC_WIN] = 100; whenever the product fits
      64 bits this is the plain inequality [5 * (TDC - TDC_min) <= 100].
    - Boundary: when board [lo] carries the least time stamp and board
      [hi] is exactly 100 ns later, both are marked; when [hi] is more
      than 100 ns later, [lo] is marked and [hi] is not. *)
Theorem matched_iff_within_sync_window (l : SyncLocals) (w : World) :
  all_peeked w ->
  TDC_is_u64 w ->
  exists l1 w1,
    mark_round l w = RoundDone l1 w1 /\
    SYNC_WIN = 100 /\
    (forall l' w',
        sync_round MultiWaveformProcess l w = RoundDone l' w' ->
        event_good l' = event_good l1 /\ TDC_min l' = TDC_min l1) /\
    (forall bd, (bd < active_boards w)%nat ->
                TDC_min l1 <= peeked_TDC w bd) /\
    ((0 < active_boards w)%nat ->
     exists bd, (bd < active_boards w)%nat /\
                peeked_TDC w bd = TDC_min l1) /\
    (forall bd, (bd < active_boards w)%nat ->
      (event_good l1 bd = 1 \/ event_good l1 bd = 0) /\
      (event_good l1 bd = 1 <->
       u64 ((peeked_TDC w bd - TDC_min l1) * 5) <= SYNC_WIN) /\
      ((peeked_TDC w bd - TDC_min l1) * 5 < 2 ^ 64 ->
       (event_good l1 bd = 1 <->
        (peeked_TDC w bd - TDC_min l1) * 5 <= SYNC_WIN))) /\
    (forall lo hi,
        (lo < active_boards w)%nat -> (hi < active_boards w)%nat ->
        (forall bd, (bd < active_boards w)%nat ->
                    peeked_TDC w lo <= peeked_TDC w bd) ->
        ((peeked_TDC w hi - peeked_TDC w lo) * 5 = SYNC_WIN ->
         event_good l1 lo = 1 /\ event_good l1 hi = 1) /\
        (SYNC_WIN < (peeked_TDC w hi - peeked_TDC w lo) * 5 < 2 ^ 64 ->
         event_good l1 lo = 1 /\ event_good l1 hi = 0)).
Proof.
  intros Hpk Hu.
  destruct (mark_round_spec l w Hpk)
    as (l1 & w1 & Hmark & _ & Hmin & Hgood & _).
  exists l1, w1. split; [exact Hmark |]. split; [reflexivity |].
  assert (Hper : forall bd, (bd < active_boards w)%nat ->
            TDC_min l1 <= peeked_TDC w bd /\
            (event_good l1 bd = 1 \/ event_good l1 bd = 0) /\
            (event_good l1 bd = 1 <->
             u64 ((peeked_TDC w bd - TDC_min l1) * 5) <= SYNC_WIN) /\
            ((peeked_TDC w bd - TDC_min l1) * 5 < 2 ^ 64 ->
             (event_good l1 bd = 1 <->
              (peeked_TDC w bd - TDC_min l1) * 5 <= SYNC_WIN))).
  { intros bd Hbd.
    destruct Hmin as (Hle & bd0 & Hbd0 & Hatt); [lia |].
    pose proof (Hle bd Hbd) as Hlo.
    pose proof (Hu bd Hbd) as Hr. pose proof (Hu bd0 Hbd0) as Hr0.
    assert (Hd : u64 (peeked_TDC w bd - TDC_min l1)
                 = peeked_TDC w bd - TDC_min l1) by (apply u64_small; lia).
    assert (Hg : event_good l1 bd =
                 if u64 ((peeked_TDC w bd - TDC_min l1) * 5) <=? SYNC_WIN
                 then 1 else 0).
    { rewrite Hgood, Hd.
      now replace (bd <? active_boards w)%nat with true
        by (symmetry; apply Nat.ltb_lt; exact Hbd). }
    split; [exact Hlo |]. rewrite Hg.
    destruct (Z.leb_spec (u64 ((peeked_TDC w bd - TDC_min l1) * 5)) SYNC_WIN)
      as [Hw | Hw].
    - split; [now left |]. split; [tauto |].
      intros Hfit. rewrite u64_small in Hw by lia. tauto.
    - split; [now right |]. split; [split; [discriminate | lia] |].
      intros Hfit. rewrite u64_small in Hw by lia.
      split; [discriminate | lia]. }
  split.
  { intros l' w' Hrun.
    destruct (sync_round_marks _ _ _ _ _ Hrun)
      as (l0 & w0 & Hmark0 & Hg0 & _ & Ht0).
    rewrite Hmark in Hmark0. injection Hmark0 as <- <-. now split. }
  split; [intros bd Hbd; apply (Hper bd Hbd) |].
  split.
  { intros HN. destruct (Hmin HN) as (_ & bd & Hbd & Hatt).
    exists bd. split; [exact Hbd | now symmetry]. }
  split; [intros bd Hbd; apply (Hper bd Hbd) |].
  intros lo hi Hlo Hhi Hleast.
  destruct Hmin as (Hle & bd0 & Hbd0 & Hatt); [lia |].
  assert (Hmin_lo : TDC_min l1 = peeked_TDC w lo).
  { pose proof (Hleast bd0 Hbd0). pose proof (Hle lo Hlo). lia. }
  destruct (Hper lo Hlo) as (_ & _ & _ & Flo).
  destruct (Hper hi Hhi) as (_ & Bhi & _ & Fhi).
  rewrite Hmin_lo in Flo, Fhi. unfold SYNC_WIN in *.
  assert (Glo : event_good l1 lo = 1) by (apply Flo; lia).
  split.
  - intros Heq. split; [exact Glo |]. apply Fhi; lia.
  - intros Hgt. split; [exact Glo |].
    destruct Bhi as [B1 | B0]; [| exact B0].
    apply Fhi in B1; lia.
Qed.


End RoundMatching.

(** C8, instance: two boards exactly 20 ticks = 100 ns apart are both
    marked. *)
Lemma matched_iff_within_sync_window_witness :
  all_peeked (two_boards 0 20) /\
  TDC_is_u64 (two_boards 0 20) /\
  exists l1 w1,
    mark_round initial_locals (two_boards 0 20) = RoundDone l1 w1 /\
    TDC_min l1 = 0 /\
    (peeked_TDC (two_boards 0 20) 1 - peeked_TDC (two_boards 0 20) 0) * 5
    = SYNC_WIN /\
    event_good l1 0%nat = 1 /\ event_good l1 1%nat = 1.
Proof.
  assert (Hu : TDC_is_u64 (two_boards 0 20)).
  { intros bd _. unfold peeked_TDC. simpl.
    destruct (Nat.eqb bd 0); simpl; lia. }
  split; [prove_peeked |]. split; [exact Hu |].
  destruct (matched_iff_within_sync_window no_processing initial_locals
              (two_boards 0 20) ltac:(prove_peeked) Hu)
    as (l1 & w1 & Hmark & _ & _ & Hle & Hatt & _ & Hbound).
  exists l1, w1. split; [exact Hmark |].
  assert (H0 : (0 < active_boards (two_boards 0 20))%nat) by (cbn; lia).
  assert (H1 : (1 < active_boards (two_boards 0 20))%nat) by (cbn; lia).
  assert (Hleast : forall bd, (bd < active_boards (two_boards 0 20))%nat ->
            peeked_TDC (two_boards 0 20) 0
            <= peeked_TDC (two_boards 0 20) bd).
  { intros bd _. unfold peeked_TDC. simpl. destruct (Nat.eqb bd 0); simpl; lia. }
  split.
  { destruct (Hatt H0) as (bd & Hbd & E). pose proof (Hle 0%nat H0) as Hl.
    pose proof (Hleast bd Hbd) as Hm.
    assert (Hz : peeked_TDC (two_boards 0 20) 0 = 0) by reflexivity. lia. }
  split; [reflexivity |].
  apply (Hbound 0%nat 1%nat H0 H1 Hleast). reflexivity.
Defined.

(** The boundary of the window on two boards: 20 ticks (100 ns) apart both
    boards are marked, 21 ticks (105 ns) apart the later one is not. *)
Example sync_window_boundary :
  (exists l' w',
      sync_round no_processing initial_locals (two_boards 0 20)
      = RoundDone l' w' /\
      event_good l' 0%nat = 1 /\ event_good l' 1%nat = 1 /\
      count_sync_evt l' = 2) /\
  (exists l' w',
      sync_round no_processing initial_locals (two_boards 0 21)
      = RoundDone l' w' /\
      event_good l' 0%nat = 1 /\ event_good l' 1%nat = 0 /\
      count_sync_evt l' = 1).
Proof.
  split; eexists _, _; (split; [reflexivity |]); repeat split.
Qed.



(** ** Statistics *)

Ltac split_ifs :=
  repeat match goal with
         | |- context [if ?b then _ else _] => destruct b
         end.

Ltac stage_frame := cbv zeta; split_ifs; repeat split; reflexivity.


Lemma input_rate_read_frame (run : WaveDemoRun_t) (acq : float)
  (c : ChannelStats) : same_read_rates c (input_rate run acq c).
Proof. unfold same_read_rates, input_rate. stage_frame. Qed.

Lemma lost_rate_read_frame (run : WaveDemoRun_t) (c : ChannelStats) :
  same_read_rates c (lost_rate run c).
Proof. unfold same_read_rates, lost_rate. stage_frame. Qed.

Lemma lost_rate_input_frame (run : WaveDemoRun_t) (c : ChannelStats) :
  EvInput_rate (lost_rate run c) = EvInput_rate c.
Proof. unfold lost_rate. cbv zeta. split_ifs; reflexivity. Qed.

Lemma clamp_lost_rate_read_frame (c : ChannelStats) :
  same_read_rates c (clamp_lost_rate c).
Proof. unfold same_read_rates, clamp_lost_rate. stage_frame. Qed.

Lemma dead_time_read_frame (c : ChannelStats) :
  same_read_rates c (dead_time c).
Proof. unfold same_read_rates, dead_time. stage_frame. Qed.

Lemma busy_time_read_frame (c : ChannelStats) :
  same_read_rates c (busy_time c).
Proof. unfold same_read_rates, busy_time. stage_frame. Qed.

Lemma matching_ratio_read_frame (c : ChannelStats) :
  same_read_rates c (matching_ratio c).
Proof. unfold same_read_rates, matching_ratio. stage_frame. Qed.

Lemma save_counters_read_frame (c : ChannelStats) :
  same_read_rates c (save_counters c) /\
  PrevReadTstamp (save_counters c) = LatestReadTstamp c.
Proof. unfold same_read_rates, save_counters. cbv zeta. now repeat split. Qed.

Lemma busy_time_loss_frame (c : ChannelStats) :
  same_loss_rates c (busy_time c).
Proof. unfold same_loss_rates, busy_time. stage_frame. Qed.

Lemma matching_ratio_loss_frame (c : ChannelStats) :
  same_loss_rates c (matching_ratio c).
Proof. unfold same_loss_rates, matching_ratio. stage_frame. Qed.

Lemma save_counters_loss_frame (c : ChannelStats) :
  same_loss_rates c (save_counters c).
Proof. unfold same_loss_rates, save_counters. cbv zeta. now repeat split. Qed.

Lemma same_read_rates_trans (a b c : ChannelStats) :
  same_read_rates a b -> same_read_rates b c -> same_read_rates a c.
Proof.
  unfold same_read_rates. intros (H1 & H2 & H3 & H4) (K1 & K2 & K3 & K4).
  repeat split; congruence.
Qed.

Lemma same_loss_rates_trans (a b c : ChannelStats) :
  same_loss_rates a b -> same_loss_rates b c -> same_loss_rates a c.
Proof.
  unfold same_loss_rates. intros (H1 & H2 & H3) (K1 & K2 & K3).
  repeat split; congruence.
Qed.

(** After [read_rates] no later stage touches the read-side rates; the
    previous read time stamp ends equal to the latest one. *)
Lemma update_channel_read_rates (run : WaveDemoRun_t) (acq : float)
  (c : ChannelStats) :
  same_read_rates (read_rates run c) (update_channel run acq c) /\
  PrevReadTstamp (update_channel run acq c)
  = LatestReadTstamp (read_rates run c).
Proof.
  unfold update_channel, computed_rates.
  set (c0 := read_rates run c).
  set (c1 := input_rate run acq c0). set (c2 := lost_rate run c1).
  set (c3 := clamp_lost_rate c2). set (c4 := dead_time c3).
  set (c5 := busy_time c4). set (c6 := matching_ratio c5).
  assert (H6 : same_read_rates c0 c6).
  { eapply same_read_rates_trans; [apply input_rate_read_frame |]. fold c1.
    eapply same_read_rates_trans; [apply lost_rate_read_frame |]. fold c2.
    eapply same_read_rates_trans; [apply clamp_lost_rate_read_frame |].
    fold c3.
    eapply same_read_rates_trans; [apply dead_time_read_frame |]. fold c4.
    eapply same_read_rates_trans; [apply busy_time_read_frame |]. fold c5.
    apply matching_ratio_read_frame. }
  destruct (save_counters_read_frame c6) as (H7 & Hp). split.
  - eapply same_read_rates_trans; eassumption.
  - rewrite Hp. now destruct H6 as (_ & _ & _ & ->).
Qed.

(** After [dead_time] no later stage touches the input rate, the lost rate
    or the dead time. *)
Lemma update_channel_loss_rates (run : WaveDemoRun_t) (acq : float)
  (c : ChannelStats) :
  same_loss_rates
    (dead_time (clamp_lost_rate (computed_rates run acq c)))
    (update_channel run acq c).
Proof.
  unfold update_channel.
  set (c4 := dead_time (clamp_lost_rate (computed_rates run acq c))).
  eapply same_loss_rates_trans; [apply busy_time_loss_frame |].
  eapply same_loss_rates_trans; [apply matching_ratio_loss_frame |].
  apply save_counters_loss_frame.
Qed.

(** Lines 88-100 when neither branch is taken: the three rates stay at the
    zero they were given at lines 88-90. *)
Lemma read_rates_stalled (run : WaveDemoRun_t) (c : ChannelStats) :
  IntegratedRates run = 0 ->
  LatestReadTstamp c <= PrevReadTstamp c ->
  EvRead_rate (read_rates run c) = F0 /\
  EvFilt_rate (read_rates run c) = F0 /\
  EvOutput_rate (read_rates run c) = F0 /\
  LatestReadTstamp (read_rates run c) = LatestReadTstamp c.
Proof.
  intros Hi Hle. unfold read_rates. cbv zeta. rewrite Hi.
  cbn [truthy Z.eqb negb andb
       LatestReadTstamp PrevReadTstamp set_EvRead_rate set_EvFilt_rate
       set_EvOutput_rate].
  replace (LatestReadTstamp c >? PrevReadTstamp c) with false
    by (symmetry; rewrite Z.gtb_ltb; apply Z.ltb_ge; exact Hle).
  cbn [EvFilt_rate EvRead_rate EvOutput_rate set_EvOutput_rate].
  now repeat split.
Qed.

(** The channel loop under an invariant [Q] of the statistics struct. *)
Lemma for_enabled_channels_cell_inv (Q : WaveDemoStats_t -> Prop)
  (cfg : WaveDemoConfig_t) (bd : nat)
  (f : nat -> WaveDemoStats_t -> WaveDemoStats_t)
  (g : nat -> ChannelStats -> ChannelStats) (s : WaveDemoStats_t) :
  Q s ->
  (forall ch s', Q s' -> Q (f ch s')) ->
  (forall ch s' b' ch', Q s' ->
      chan (f ch s') b' ch' =
      if (Nat.eqb b' bd && Nat.eqb ch' ch)%bool
      then g ch (chan s' b' ch') else chan s' b' ch') ->
  Q (for_enabled_channels cfg bd f s) /\
  forall b' ch',
    chan (for_enabled_channels cfg bd f s) b' ch' =
    if (Nat.eqb b' bd && channel_on cfg bd ch')%bool
    then g ch' (chan s b' ch') else chan s b' ch'.
Proof.
  intros HQ HQf Hf. unfold for_enabled_channels, channel_on.
  pose (I := fun (k : nat) (acc : WaveDemoStats_t) =>
    Q acc /\
    forall b' ch',
      chan acc b' ch' =
      if (Nat.eqb b' bd &&
          ((ch' <? k)%nat && truthy (ChannelEnable cfg bd ch')))%bool
      then g ch' (chan s b' ch') else chan s b' ch').
  assert (H : I (Z.to_nat (Nch cfg bd))
                (for_loop (Nch cfg bd)
                   (fun ch acc => if truthy (ChannelEnable cfg bd ch)
                                  then f ch acc else acc) s)).
  { apply for_loop_invariant.
    - split; [exact HQ |]. intros b' ch'. simpl. now rewrite andb_false_r.
    - intros k acc Hk (HQa & HI).
      destruct (truthy (ChannelEnable cfg bd k)) eqn:Ek.
      + split; [now apply HQf |]. intros b' ch'.
        rewrite ltb_succ, Hf, !HI by exact HQa.
        destruct (Nat.eqb_spec b' bd) as [-> | Hb]; simpl; [| reflexivity].
        destruct (Nat.eqb_spec ch' k) as [-> | Hc]; simpl.
        * rewrite Nat.ltb_irrefl, Ek. reflexivity.
        * now rewrite orb_false_r.
      + split; [exact HQa |]. intros b' ch'. rewrite ltb_succ, HI.
        destruct (Nat.eqb_spec b' bd) as [-> | Hb]; simpl; [| reflexivity].
        destruct (Nat.eqb_spec ch' k) as [-> | Hc]; simpl.
        * rewrite Nat.ltb_irrefl, Ek. reflexivity.
        * now rewrite orb_false_r. }
  destruct H as (HQr & HI). split; [exact HQr |].
  intros b' ch'. rewrite (HI b' ch'), ltb_to_nat. reflexivity.
Qed.

Lemma update_globals_chan (run : WaveDemoRun_t) (t : Z)
  (s : WaveDemoStats_t) : chan (update_globals run t s) = chan s.
Proof. unfold update_globals. cbv zeta. split_ifs; reflexivity. Qed.

(** [UpdateStatistics] rewrites the cell of every enabled channel of every
    active board by [update_channel], and no other cell. *)
Lemma UpdateStatistics_cell (cfg : WaveDemoConfig_t) (run : WaveDemoRun_t)
  (t : Z) (s : WaveDemoStats_t) (b ch : nat) :
  chan (snd (UpdateStatistics cfg run t s)) b ch =
  if ((b <? Z.to_nat (NumBoards cfg))%nat && channel_on cfg b ch)%bool
  then update_channel run (AcqRealTime (update_globals run t s)) (chan s b ch)
  else chan s b ch.
Proof.
  unfold UpdateStatistics. cbv zeta. cbn [snd].
  set (s0 := update_globals run t s). set (acq := AcqRealTime s0).
  rewrite <- (update_globals_chan run t s). fold s0.
  pose (I := fun (k : nat) (acc : WaveDemoStats_t) =>
    AcqRealTime acc = acq /\
    forall b' ch',
      chan acc b' ch' =
      if ((b' <? k)%nat && channel_on cfg b' ch')%bool
      then update_channel run acq (chan s0 b' ch') else chan s0 b' ch').
  match goal with
  | |- chan (set_PrevProcTstampAll _ ?r) b ch = _ =>
      assert (H : I (Z.to_nat (NumBoards cfg)) r)
  end.
  { apply for_loop_invariant.
    - split; [reflexivity |]. intros b' ch'. reflexivity.
    - intros k acc Hk (Hacq & HI).
      destruct (for_enabled_channels_cell_inv
                  (fun s' => AcqRealTime s' = acq) cfg k
                  (fun ch0 acc' =>
                     on_chan k ch0 (update_channel run (AcqRealTime acc')) acc')
                  (fun _ => update_channel run acq) acc Hacq)
        as (HQ & Hc).
      { intros ch0 s' Hs'. exact Hs'. }
      { intros ch0 s' b' ch' Hs'. rewrite on_chan_cell, Hs'. reflexivity. }
      split; [exact HQ |]. intros b' ch'. rewrite Hc, !HI, ltb_succ.
      destruct (Nat.eqb_spec b' k) as [-> | Hb]; simpl.
      + rewrite Nat.ltb_irrefl. reflexivity.
      + now rewrite orb_false_r. }
  destruct H as (_ & HI). exact (HI b ch).
Qed.




Section StatisticsProperties.

Variables (cfg : WaveDemoConfig_t) (run : WaveDemoRun_t).
Variables (CurrentTime : Z) (s : WaveDemoStats_t) (b ch : nat).

(** The channel is one the statistics loop visits. *)
Hypothesis Hboard : (b < Z.to_nat (NumBoards cfg))%nat.
Hypothesis Hchannel : channel_on cfg b ch = true.

Let acq := AcqRealTime (update_globals run CurrentTime s).
Let line157 := computed_rates run acq (chan s b ch).
Let after := chan (snd (UpdateStatistics cfg run CurrentTime s)) b ch.

Lemma after_is_update_channel :
  after = update_channel run acq (chan s b ch).
Proof.
  unfold after. rewrite UpdateStatistics_cell.
  apply Nat.ltb_lt in Hboard. now rewrite Hboard, Hchannel.
Qed.

(** C4, in the form the code satisfies. When the rates computed for a
    visited channel are an input rate of 1000 and a lost rate of 1200, the
    clamp of lines 157-158 lowers the lost rate to 1000, and the dead time
    stored by this update is 1 (all triggers lost), which is neither
    negative nor zero. *)
Theorem dead_time_of_clamped_lost_rate :
  EvInput_rate line157 = f32_of_Z 1000 ->
  EvLost_rate line157 = f32_of_Z 1200 ->
  EvLost_rate (clamp_lost_rate line157) = f32_of_Z 1000 /\
  EvLost_rate after = f32_of_Z 1000 /\
  EvInput_rate after = f32_of_Z 1000 /\
  DeadTime after = F1 /\
  DeadTime after <> F0 /\
  flt (DeadTime after) F0 = false.
Proof.
  intros Hin Hlost.
  assert (Hclamp : EvLost_rate (clamp_lost_rate line157) = f32_of_Z 1000
                   /\ EvInput_rate (clamp_lost_rate line157)
                      = f32_of_Z 1000).
  { unfold clamp_lost_rate. rewrite Hin, Hlost.
    change (fgt (f32_of_Z 1200) (f32_of_Z 1000)) with true.
    cbn [EvLost_rate EvInput_rate set_EvLost_rate]. now rewrite Hin. }
  destruct Hclamp as (Hl & Hi).
  assert (Hdead : EvInput_rate (dead_time (clamp_lost_rate line157))
                  = EvInput_rate (clamp_lost_rate line157) /\
                  EvLost_rate (dead_time (clamp_lost_rate line157))
                  = EvLost_rate (clamp_lost_rate line157) /\
                  DeadTime (dead_time (clamp_lost_rate line157)) = F1).
  { revert Hl Hi. destruct (clamp_lost_rate line157).
    cbn [EvLost_rate EvInput_rate]. intros -> ->.
    repeat split; reflexivity. }
  destruct Hdead as (Di & Dl & Dd).
  destruct (update_channel_loss_rates run acq (chan s b ch))
    as (Ui & Ul & Ud).
  fold line157 in Ui, Ul, Ud.
  rewrite after_is_update_channel, Ul, Ui, Ud, Dl, Di, Dd, Hl, Hi.
  repeat split. discriminate.
Qed.




End StatisticsProperties.

(** Lines 88-106 leave [LatestReadTstamp] alone. *)
Lemma read_rates_tstamp (run : WaveDemoRun_t) (c : ChannelStats) :
  LatestReadTstamp (read_rates run c) = LatestReadTstamp c.
Proof. unfold read_rates. cbv zeta. split_ifs; reflexivity. Qed.

(** A visited channel whose read time stamp has not advanced gets zero
    read, filtered and output rates in instantaneous mode. *)
Lemma stalled_channel_update (cfg : WaveDemoConfig_t) (run : WaveDemoRun_t)
  (t : Z) (s : WaveDemoStats_t) (b ch : nat) :
  (b < Z.to_nat (NumBoards cfg))%nat ->
  channel_on cfg b ch = true ->
  IntegratedRates run = 0 ->
  LatestReadTstamp (chan s b ch) <= PrevReadTstamp (chan s b ch) ->
  EvRead_rate (chan (snd (UpdateStatistics cfg run t s)) b ch) = F0 /\
  EvFilt_rate (chan (snd (UpdateStatistics cfg run t s)) b ch) = F0 /\
  EvOutput_rate (chan (snd (UpdateStatistics cfg run t s)) b ch) = F0.
Proof.
  intros Hb Hc Hi Hle. rewrite (after_is_update_channel _ _ _ _ _ _ Hb Hc).
  destruct (update_channel_read_rates run
              (AcqRealTime (update_globals run t s)) (chan s b ch))
    as ((-> & -> & -> & _) & _).
  destruct (read_rates_stalled run (chan s b ch) Hi Hle) as (H1 & H2 & H3 & _).
  now repeat split.
Qed.

(** Every update leaves a visited channel with its previous read time
    stamp equal to its latest one. *)
Lemma update_catches_up_read_tstamp (cfg : WaveDemoConfig_t)
  (run : WaveDemoRun_t) (t : Z) (s : WaveDemoStats_t) (b ch : nat) :
  (b < Z.to_nat (NumBoards cfg))%nat ->
  channel_on cfg b ch = true ->
  PrevReadTstamp (chan (snd (UpdateStatistics cfg run t s)) b ch)
  = LatestReadTstamp (chan (snd (UpdateStatistics cfg run t s)) b ch) /\
  LatestReadTstamp (chan (snd (UpdateStatistics cfg run t s)) b ch)
  = LatestReadTstamp (chan s b ch).
Proof.
  intros Hb Hc. rewrite (after_is_update_channel _ _ _ _ _ _ Hb Hc).
  destruct (update_channel_read_rates run
              (AcqRealTime (update_globals run t s)) (chan s b ch))
    as ((_ & _ & _ & ->) & ->).
  split; [reflexivity | apply read_rates_tstamp].
Qed.

(** C7, in the form the code satisfies. In instantaneous mode, a visited
    channel whose read time stamp has not advanced since the previous
    snapshot ([LatestReadTstamp <= PrevReadTstamp]) leaves
    [UpdateStatistics] with read, filtered and output rates equal to 0,
    whatever they were before. Consequently a second call on the state left
    by a first call (cumulative counters and time stamps unchanged) stores
    zero rates, whatever rates the first call stored. *)
Theorem stalled_channel_rates_are_reset
  (cfg : WaveDemoConfig_t) (run : WaveDemoRun_t) (t1 t2 : Z)
  (s : WaveDemoStats_t) (b ch : nat) :
  (b < Z.to_nat (NumBoards cfg))%nat ->
  channel_on cfg b ch = true ->
  IntegratedRates run = 0 ->
  (LatestReadTstamp (chan s b ch) <= PrevReadTstamp (chan s b ch) ->
   EvRead_rate (chan (snd (UpdateStatistics cfg run t1 s)) b ch) = F0 /\
   EvFilt_rate (chan (snd (UpdateStatistics cfg run t1 s)) b ch) = F0 /\
   EvOutput_rate (chan (snd (UpdateStatistics cfg run t1 s)) b ch) = F0) /\
  (let s1 := snd (UpdateStatistics cfg run t1 s) in
   let s2 := snd (UpdateStatistics cfg run t2 s1) in
   LatestReadTstamp (chan s1 b ch) <= PrevReadTstamp (chan s1 b ch) /\
   EvRead_rate (chan s2 b ch) = F0 /\
   EvFilt_rate (chan s2 b ch) = F0 /\
   EvOutput_rate (chan s2 b ch) = F0).
Proof.
  intros Hb Hc Hi. split.
  - now apply stalled_channel_update.
  - cbv zeta.
    destruct (update_catches_up_read_tstamp cfg run t1 s b ch Hb Hc)
      as (Hp & _).
    assert (Hle : LatestReadTstamp (chan (snd (UpdateStatistics cfg run t1 s)) b ch)
                  <= PrevReadTstamp (chan (snd (UpdateStatistics cfg run t1 s)) b ch))
      by (rewrite Hp; lia).
    split; [exact Hle |]. now apply stalled_channel_update.
Qed.

(** C7, instance: the channel [steady_channel], updated at 1000 ms and at
    2000 ms. *)
Lemma stalled_channel_rates_are_reset_witness :
  (0 < Z.to_nat (NumBoards (boards_cfg 1)))%nat /\
  channel_on (boards_cfg 1) 0 0 = true /\
  IntegratedRates running = 0 /\
  (LatestReadTstamp (chan (stats_with steady_channel) 0%nat 0%nat)
   <= PrevReadTstamp (chan (stats_with steady_channel) 0%nat 0%nat) ->
   EvRead_rate (chan (snd (UpdateStatistics (boards_cfg 1) running 1000
                             (stats_with steady_channel))) 0%nat 0%nat) = F0 /\
   EvFilt_rate (chan (snd (UpdateStatistics (boards_cfg 1) running 1000
                             (stats_with steady_channel))) 0%nat 0%nat) = F0 /\
   EvOutput_rate (chan (snd (UpdateStatistics (boards_cfg 1) running 1000
                               (stats_with steady_channel))) 0%nat 0%nat) = F0) /\
  (let s1 := snd (UpdateStatistics (boards_cfg 1) running 1000
                    (stats_with steady_channel)) in
   let s2 := snd (UpdateStatistics (boards_cfg 1) running 2000 s1) in
   LatestReadTstamp (chan s1 0%nat 0%nat) <= PrevReadTstamp (chan s1 0%nat 0%nat) /\
   EvRead_rate (chan s2 0%nat 0%nat) = F0 /\
   EvFilt_rate (chan s2 0%nat 0%nat) = F0 /\
   EvOutput_rate (chan s2 0%nat 0%nat) = F0).
Proof.
  split; [vm_compute; lia |]. split; [reflexivity |]. split; [reflexivity |].
  apply (stalled_channel_rates_are_reset (boards_cfg 1) running 1000 2000
           (stats_with steady_channel) 0 0).
  - vm_compute. lia.
  - reflexivity.
  - reflexivity.
Defined.

(** C7, the specification sentence refuted on an example.  The channel
    [steady_channel] in instantaneous mode: a first update stores a read
    rate of 1000 and a filtered rate of 500 events per second.  For the
    second update the counters are unchanged and the read time stamp has
    not advanced; it stores 0 for both rates, not the values of the
    previous update. *)
Lemma stalled_rates_do_not_keep_previous_value :
  let s0 := stats_with steady_channel in
  let s1 := snd (UpdateStatistics (boards_cfg 1) running 1000 s0) in
  let s2 := snd (UpdateStatistics (boards_cfg 1) running 2000 s1) in
  IntegratedRates running = 0 /\
  channel_on (boards_cfg 1) 0 0 = true /\
  LatestReadTstamp (chan s1 0%nat 0%nat) <= PrevReadTstamp (chan s1 0%nat 0%nat) /\
  EvRead_cnt (chan s1 0%nat 0%nat) = EvRead_cnt (chan s0 0%nat 0%nat) /\
  EvFilt_cnt (chan s1 0%nat 0%nat) = EvFilt_cnt (chan s0 0%nat 0%nat) /\
  EvRead_rate (chan s1 0%nat 0%nat) = f32_of_Z 1000 /\
  EvFilt_rate (chan s1 0%nat 0%nat) = f32_of_Z 500 /\
  EvRead_rate (chan s2 0%nat 0%nat) = F0 /\
  EvFilt_rate (chan s2 0%nat 0%nat) = F0 /\
  EvRead_rate (chan s2 0%nat 0%nat) <> EvRead_rate (chan s1 0%nat 0%nat) /\
  EvFilt_rate (chan s2 0%nat 0%nat) <> EvFilt_rate (chan s1 0%nat 0%nat).
Proof.
  vm_compute. repeat split; try discriminate.
Qed.

(** C4, instance: [inconsistent_channel] in integrated mode. *)
Lemma dead_time_of_clamped_lost_rate_witness :
  (0 < Z.to_nat (NumBoards (boards_cfg 1)))%nat /\
  channel_on (boards_cfg 1) 0 0 = true /\
  EvInput_rate
    (computed_rates running_integrated
       (AcqRealTime (update_globals running_integrated 1000
                       (stats_with inconsistent_channel)))
       (chan (stats_with inconsistent_channel) 0%nat 0%nat))
  = f32_of_Z 1000 /\
  EvLost_rate
    (computed_rates running_integrated
       (AcqRealTime (update_globals running_integrated 1000
                       (stats_with inconsistent_channel)))
       (chan (stats_with inconsistent_channel) 0%nat 0%nat))
  = f32_of_Z 1200 /\
  EvLost_rate
    (chan (snd (UpdateStatistics (boards_cfg 1) running_integrated 1000
                  (stats_with inconsistent_channel))) 0%nat 0%nat)
  = f32_of_Z 1000 /\
  DeadTime
    (chan (snd (UpdateStatistics (boards_cfg 1) running_integrated 1000
                  (stats_with inconsistent_channel))) 0%nat 0%nat)
  = F1.
Proof.
  assert (Hb : (0 < Z.to_nat (NumBoards (boards_cfg 1)))%nat)
    by (vm_compute; lia).
  split; [exact Hb |]. split; [reflexivity |].
  split; [reflexivity |]. split; [reflexivity |].
  destruct (dead_time_of_clamped_lost_rate (boards_cfg 1) running_integrated
              1000 (stats_with inconsistent_channel) 0 0 Hb eq_refl
              eq_refl eq_refl) as (_ & Hl & _ & Hd & _).
  split; [exact Hl | exact Hd].
Defined.

(** C4, the specification sentence refuted on an example.  The channel
    [inconsistent_channel] in integrated mode: the computed input rate is
    1000 and the computed lost rate is 1200; the update stores a lost rate
    of 1000 and a dead time of 1, not 0. *)
Lemma clamped_dead_time_is_not_zero :
  let s0 := stats_with inconsistent_channel in
  let line157 :=
    computed_rates running_integrated
      (AcqRealTime (update_globals running_integrated 1000 s0))
      (chan s0 0%nat 0%nat) in
  let after :=
    chan (snd (UpdateStatistics (boards_cfg 1) running_integrated 1000 s0))
         0%nat 0%nat in
  channel_on (boards_cfg 1) 0 0 = true /\
  EvInput_rate line157 = f32_of_Z 1000 /\
  EvLost_rate line157 = f32_of_Z 1200 /\
  EvLost_rate after = f32_of_Z 1000 /\
  DeadTime after = F1 /\
  DeadTime after <> F0 /\
  feq (DeadTime after) F0 = false.
Proof.
  vm_compute. repeat split; try discriminate.
Qed.



(** C3, instance: a fresh queue that receives 2500 commits (it saturates at
    1999), loses one event, and is filled again. *)
Lemma ring_capacity_invariant_witness :
  head fresh_queue 0%nat = 0 /\ tail fresh_queue 0%nat = 0 /\
  let buff :=
    run_ops (firstn 3 [OpAdded 0 2500; OpRemove 0 1; OpAdded 0 7; OpReset 1])
            fresh_queue in
  0 <= WDBuff_used_space buff 0 <= EVT_BUF_SIZE - 1 /\
  (WDBuff_full buff 0 = 1 \/ WDBuff_full buff 0 = 0) /\
  (WDBuff_full buff 0 = 1 <->
   WDBuff_used_space buff 0 = EVT_BUF_SIZE - 1) /\
  EVT_BUF_SIZE = 2000.
Proof.
  split; [reflexivity |]. split; [reflexivity |].
  apply (ring_capacity_invariant fresh_queue 0
           [OpAdded 0 2500; OpRemove 0 1; OpAdded 0 7; OpReset 1] 3);
    reflexivity.
Defined.

(** The saturated queue of that instance: 2500 commits on a fresh queue leave
    1999 events and a full queue; the 2000th commit is refused. *)
Example fresh_queue_saturates :
  WDBuff_added fresh_queue 0 2500
  = (1999, snd (WDBuff_added fresh_queue 0 2500)) /\
  WDBuff_used_space (snd (WDBuff_added fresh_queue 0 2500)) 0 = 1999 /\
  WDBuff_full (snd (WDBuff_added fresh_queue 0 2500)) 0 = 1 /\
  WDBuff_free_space (snd (WDBuff_added fresh_queue 0 2500)) 0 = 0.
Proof. vm_compute. repeat split. Qed.

(** ** A scripted run of [ProcessesSynchronizedEvents]

    On [scripted_boards] the shorter queue holds three events, so the first
    call runs three rounds: two full matches, then a partial match in which
    board 1 is alone at the minimum (tick 2000 against 3000).  The event of
    board 1 is dropped and counted as lost, board 0 keeps its event, and no
    warning is written.  A second call matches the two events left. *)
Example scripted_run :
  match ProcessesSynchronizedEvents no_processing scripted_boards with
  | Some (r1, w1) =>
      r1 = 1 /\
      WDBuff_used_space (WDbuff w1) 0 = 1 /\
      WDBuff_used_space (WDbuff w1) 1 = 1 /\
      EvFilt_cnt (chan (WDstats w1) 0%nat 0%nat) = 2 /\
      EvFilt_cnt (chan (WDstats w1) 1%nat 0%nat) = 2 /\
      EvLost_cnt (chan (WDstats w1) 0%nat 0%nat) = 0 /\
      EvLost_cnt (chan (WDstats w1) 1%nat 0%nat) = 1 /\
      EvProcessed_cnt (chan (WDstats w1) 0%nat 0%nat) = 2 /\
      EvProcessed_cnt (chan (WDstats w1) 1%nat 0%nat) = 3 /\
      UnSyncEv_cnt (WDstats w1) = 1 /\
      MsgLog w1 = [] /\
      match ProcessesSynchronizedEvents no_processing w1 with
      | Some (r2, w2) =>
          r2 = 1 /\
          WDBuff_empty (WDbuff w2) 0 = 1 /\
          WDBuff_empty (WDbuff w2) 1 = 1 /\
          EvFilt_cnt (chan (WDstats w2) 0%nat 0%nat) = 3 /\
          EvFilt_cnt (chan (WDstats w2) 1%nat 0%nat) = 3 /\
          EvLost_cnt (chan (WDstats w2) 1%nat 0%nat) = 1 /\
          UnSyncEv_cnt (WDstats w2) = 1
      | None => False
      end
  | None => False
  end.
Proof. vm_compute. repeat split. Qed.

(** ** The round loop runs to completion *)


Lemma min_buff_len_le (w : World) (bd : nat) :
  (bd < active_boards w)%nat ->
  min_buff_len w <= WDBuff_used_space (WDbuff w) bd.
Proof.
  intros Hbd. unfold min_buff_len.
  pose (I := fun (k : nat) (m : Z) =>
    forall b, (b <= k)%nat -> m <= WDBuff_used_space (WDbuff w) b).
  assert (H : I (Z.to_nat (NumBoards (WDcfg w) - 1))
                (for_loop (NumBoards (WDcfg w) - 1)
                   (fun i m =>
                      if WDBuff_used_space (WDbuff w) (S i) <? m
                      then WDBuff_used_space (WDbuff w) (S i) else m)
                   (WDBuff_used_space (WDbuff w) 0%nat))).
  { apply for_loop_invariant.
    - intros b Hb. replace b with 0%nat by lia. lia.
    - intros k m _ HI b Hb.
      destruct (Z.ltb_spec (WDBuff_used_space (WDbuff w) (S k)) m).
      + destruct (Nat.eq_dec b (S k)) as [-> | Hne]; [lia |].
        assert (m <= WDBuff_used_space (WDbuff w) b) by (apply HI; lia). lia.
      + destruct (Nat.eq_dec b (S k)) as [-> | Hne]; [lia |].
        apply HI. lia. }
  apply H. unfold active_boards in Hbd. lia.
Qed.

Section RoundLoop.

Variable MultiWaveformProcess :
  (nat -> option WaveDemoEvent_t) -> Z -> nat ->
  WaveDemoEvent_t -> WaveDemoEvent_t.




End RoundLoop.

(* ================================================================== *)
(** * Part III - further properties of the code                        *)
(* ================================================================== *)

(** ** Ring buffer: space accounting *)

Lemma used_free_sum (buff : WaveDemoBuffers_t) (bd : nat) :
  cursors_in_range buff bd ->
  WDBuff_used_space buff bd + WDBuff_free_space buff bd = EVT_BUF_SIZE - 1 /\
  0 <= WDBuff_free_space buff bd <= EVT_BUF_SIZE - 1.
Proof.
  intros Hr. pose proof (used_space_bounds buff bd Hr) as Hu.
  pose proof (full_iff_used buff bd Hr) as Hf. destruct Hr as [Hh Ht].
  assert (E : WDBuff_used_space buff bd + WDBuff_free_space buff bd
              = EVT_BUF_SIZE - 1).
  { unfold WDBuff_free_space, truthy.
    destruct (Z.eqb_spec (WDBuff_full buff bd) 0) as [E0 | E1]; cbn [negb].
    - unfold WDBuff_used_space in *.
      destruct (Z.geb_spec (head buff bd) (tail buff bd));
        unfold EVT_BUF_SIZE in *; lia.
    - assert (WDBuff_full buff bd = 1).
      { unfold WDBuff_full in *. destruct (_ =? _); congruence. }
      apply Hf in H. lia. }
  split; [exact E | lia].
Qed.

(** X1.  On a queue whose cursors are array indices, the used and the free
    space always add up to [EVT_BUF_SIZE - 1]: one slot is never used. *)
Theorem used_plus_free_space (buff : WaveDemoBuffers_t) (bd : nat) :
  cursors_in_range buff bd ->
  WDBuff_used_space buff bd + WDBuff_free_space buff bd = EVT_BUF_SIZE - 1 /\
  0 <= WDBuff_free_space buff bd <= EVT_BUF_SIZE - 1.
Proof. exact (used_free_sum buff bd). Qed.

Lemma used_plus_free_space_witness :
  cursors_in_range wrapped_queue 0 /\
  WDBuff_used_space wrapped_queue 0 + WDBuff_free_space wrapped_queue 0
  = EVT_BUF_SIZE - 1 /\
  0 <= WDBuff_free_space wrapped_queue 0 <= EVT_BUF_SIZE - 1.
Proof.
  assert (Hr : cursors_in_range wrapped_queue 0)
    by (unfold cursors_in_range; simpl; unfold EVT_BUF_SIZE; lia).
  split; [exact Hr |]. apply (used_plus_free_space wrapped_queue 0 Hr).
Defined.

Lemma slot_after_zero (p : Z) : 0 <= p < EVT_BUF_SIZE -> slot_after p 0 = p.
Proof. intros H. unfold slot_after. rewrite Z.add_0_r. now apply Z.mod_small. Qed.

Lemma slot_after_next (p m : Z) :
  0 <= p < EVT_BUF_SIZE -> 0 <= m ->
  slot_after (Z.rem (p + 1) EVT_BUF_SIZE) m = slot_after p (m + 1).
Proof.
  intros Hp Hm. unfold slot_after.
  rewrite Z.rem_mod_nonneg by (unfold EVT_BUF_SIZE; lia).
  rewrite Zplus_mod_idemp_l. f_equal. lia.
Qed.

Lemma slot_after_in_range (p r : Z) : 0 <= slot_after p r < EVT_BUF_SIZE.
Proof. unfold slot_after. apply Z.mod_pos_bound. reflexivity. Qed.

Lemma full_is_flag (buff : WaveDemoBuffers_t) (bd : nat) :
  truthy (WDBuff_full buff bd) = (WDBuff_full buff bd =? 1).
Proof.
  unfold WDBuff_full, truthy.
  now destruct (Z.rem (head buff bd + 1) EVT_BUF_SIZE =? tail buff bd).
Qed.

Lemma empty_iff_unused (buff : WaveDemoBuffers_t) (bd : nat) :
  cursors_in_range buff bd ->
  truthy (WDBuff_empty buff bd) = (WDBuff_used_space buff bd =? 0).
Proof.
  intros [Hh Ht]. unfold WDBuff_empty.
  destruct (Z.eqb_spec (head buff bd) (tail buff bd)) as [E | E].
  - change (truthy 1) with true. symmetry. apply Z.eqb_eq.
    unfold WDBuff_used_space.
    destruct (Z.geb_spec (head buff bd) (tail buff bd)); lia.
  - change (truthy 0) with false. symmetry. apply Z.eqb_neq.
    unfold WDBuff_used_space.
    destruct (Z.geb_spec (head buff bd) (tail buff bd));
      unfold EVT_BUF_SIZE in *; lia.
Qed.

Lemma used_space_after_add (buff buff' : WaveDemoBuffers_t) (bd : nat) :
  cursors_in_range buff bd ->
  WDBuff_full buff bd <> 1 ->
  head buff' bd = Z.rem (head buff bd + 1) EVT_BUF_SIZE ->
  tail buff' bd = tail buff bd ->
  WDBuff_used_space buff' bd = WDBuff_used_space buff bd + 1.
Proof.
  intros [Hh Ht] Hnf Hh' Ht'. unfold WDBuff_used_space, WDBuff_full in *.
  rewrite Hh', Ht'. rewrite rem_next_slot in * by assumption.
  destruct (Z.eqb_spec (head buff bd + 1) EVT_BUF_SIZE).
  - destruct (Z.eqb_spec 0 (tail buff bd)); [congruence |].
    destruct (Z.geb_spec (head buff bd) (tail buff bd));
      destruct (Z.geb_spec 0 (tail buff bd));
      unfold EVT_BUF_SIZE in *; lia.
  - destruct (Z.eqb_spec (head buff bd + 1) (tail buff bd)); [congruence |].
    destruct (Z.geb_spec (head buff bd) (tail buff bd));
      destruct (Z.geb_spec (head buff bd + 1) (tail buff bd));
      unfold EVT_BUF_SIZE in *; lia.
Qed.

Lemma added_loop_spec (bd : nat) (n : nat) :
  forall i buff,
    cursors_in_range buff bd ->
    let m := Z.min (Z.of_nat n)
                   (EVT_BUF_SIZE - 1 - WDBuff_used_space buff bd) in
    fst (added_loop n i buff bd) = i + m /\
    head (snd (added_loop n i buff bd)) bd = slot_after (head buff bd) m /\
    WDBuff_used_space (snd (added_loop n i buff bd)) bd
    = WDBuff_used_space buff bd + m /\
    tail (snd (added_loop n i buff bd)) = tail buff /\
    tmp_pos (snd (added_loop n i buff bd)) = tmp_pos buff /\
    buffer (snd (added_loop n i buff bd)) = buffer buff /\
    forall b, b <> bd ->
              head (snd (added_loop n i buff bd)) b = head buff b.
Proof.
  induction n as [| n IH]; intros i buff Hr m;
    pose proof (used_space_bounds buff bd Hr) as Hu;
    pose proof (full_iff_used buff bd Hr) as Hf.
  - cbn [added_loop fst snd]. assert (m = 0) by (unfold m; lia).
    rewrite H, slot_after_zero by apply Hr.
    repeat split; lia.
  - simpl. rewrite full_is_flag.
    destruct (Z.eqb_spec (WDBuff_full buff bd) 1) as [E | E].
    + apply Hf in E. assert (m = 0) by (unfold m; lia).
      cbn [negb fst snd]. rewrite H, slot_after_zero by apply Hr.
      repeat split; lia.
    + set (buff1 := set_head buff bd (Z.rem (head buff bd + 1) EVT_BUF_SIZE)).
      assert (Hr1 : cursors_in_range buff1 bd).
      { destruct Hr as [Hh Ht]. split; simpl; [| exact Ht].
        rewrite upd_same. now apply next_slot_in_range. }
      assert (Hu1 : WDBuff_used_space buff1 bd = WDBuff_used_space buff bd + 1).
      { apply used_space_after_add; [exact Hr | exact E | | reflexivity].
        unfold buff1. cbn [head set_head]. apply upd_same. }
      assert (Hne : WDBuff_used_space buff bd <> EVT_BUF_SIZE - 1) by tauto.
      destruct (IH (i + 1) buff1 Hr1)
        as (I1 & I2 & I3 & I4 & I5 & I6 & I7).
      rewrite Hu1 in I1, I2, I3.
      set (m1 := Z.min (Z.of_nat n)
                   (EVT_BUF_SIZE - 1 - (WDBuff_used_space buff bd + 1))) in *.
      assert (Hm : m = m1 + 1) by (unfold m, m1; lia).
      assert (Hm1 : 0 <= m1) by (unfold m1; lia).
      rewrite I1, I2, I3, I4, I5, I6, Hm.
      split; [lia |]. split.
      { unfold buff1. simpl. rewrite upd_same.
        apply slot_after_next; [apply Hr | exact Hm1]. }
      split; [lia |]. repeat (split; [reflexivity |]).
      intros b Hb. rewrite I7 by exact Hb. unfold buff1. simpl.
      now apply upd_other.
Qed.

Lemma WDBuff_added_spec
  (buff : WaveDemoBuffers_t) (bd : nat) (num : Z) :
  buffer buff bd <> None ->
  0 <= num ->
  cursors_in_range buff bd ->
  let r := Z.min num (WDBuff_free_space buff bd) in
  let buff' := snd (WDBuff_added buff bd num) in
  fst (WDBuff_added buff bd num) = r /\
  head buff' bd = slot_after (head buff bd) r /\
  WDBuff_used_space buff' bd = WDBuff_used_space buff bd + r /\
  cursors_in_range buff' bd /\
  tail buff' = tail buff /\ tmp_pos buff' = tmp_pos buff /\
  buffer buff' = buffer buff /\
  forall b, b <> bd -> head buff' b = head buff b.
Proof.
  intros Hb Hn Hr r buff'.
  destruct (used_free_sum buff bd Hr) as (Hs & _).
  assert (Hfree : WDBuff_free_space buff bd
                  = EVT_BUF_SIZE - 1 - WDBuff_used_space buff bd) by lia.
  unfold buff', r, WDBuff_added.
  destruct (buffer buff bd); [| congruence]. simpl.
  replace (num <? 0) with false by (symmetry; apply Z.ltb_ge; lia).
  destruct (added_loop_spec bd (Z.to_nat num) 0 buff Hr)
    as (A1 & A2 & A3 & A4 & A5 & A6 & A7).
  rewrite Z2Nat.id in A1, A2, A3 by lia. rewrite <- Hfree in A1, A2, A3.
  split; [rewrite A1; lia |]. split; [exact A2 |]. split; [exact A3 |].
  split.
  { split; [rewrite A2; apply slot_after_in_range |].
    rewrite A4. apply Hr. }
  now repeat split.
Qed.

(** X2.  [WDBuff_added] on a board with storage, with a count [num >= 0]:
    it commits as many events as fit, [min num free_space], and returns that
    number; [head] moves that many slots round the array, the used space
    grows by as much, and [tail], the scan cursor, the storage and the
    other boards are left alone. *)
Theorem added_commits_what_fits
  (buff : WaveDemoBuffers_t) (bd : nat) (num : Z) :
  buffer buff bd <> None ->
  0 <= num ->
  cursors_in_range buff bd ->
  let r := Z.min num (WDBuff_free_space buff bd) in
  let buff' := snd (WDBuff_added buff bd num) in
  fst (WDBuff_added buff bd num) = r /\
  head buff' bd = slot_after (head buff bd) r /\
  WDBuff_used_space buff' bd = WDBuff_used_space buff bd + r /\
  cursors_in_range buff' bd /\
  tail buff' = tail buff /\ tmp_pos buff' = tmp_pos buff /\
  buffer buff' = buffer buff /\
  forall b, b <> bd -> head buff' b = head buff b.
Proof. exact (WDBuff_added_spec buff bd num). Qed.

Lemma added_commits_what_fits_witness :
  buffer fresh_queue 0%nat <> None /\ 0 <= 2500 /\
  cursors_in_range fresh_queue 0 /\
  fst (WDBuff_added fresh_queue 0 2500)
  = Z.min 2500 (WDBuff_free_space fresh_queue 0) /\
  WDBuff_used_space (snd (WDBuff_added fresh_queue 0 2500)) 0
  = WDBuff_used_space fresh_queue 0
    + Z.min 2500 (WDBuff_free_space fresh_queue 0).
Proof.
  assert (Hb : buffer fresh_queue 0%nat <> None) by discriminate.
  assert (Hr : cursors_in_range fresh_queue 0)
    by (unfold cursors_in_range; simpl; unfold EVT_BUF_SIZE; lia).
  split; [exact Hb |]. split; [lia |]. split; [exact Hr |].
  destruct (added_commits_what_fits fresh_queue 0 2500 Hb ltac:(lia) Hr)
    as (H1 & _ & H3 & _).
  split; [exact H1 | exact H3].
Defined.

Lemma remove_loop_spec (bd : nat) (n : nat) :
  forall i buff,
    cursors_in_range buff bd ->
    let m := Z.min (Z.of_nat n) (WDBuff_used_space buff bd) in
    fst (remove_loop n i buff bd) = i + m /\
    tail (snd (remove_loop n i buff bd)) bd = slot_after (tail buff bd) m /\
    WDBuff_used_space (snd (remove_loop n i buff bd)) bd
    = WDBuff_used_space buff bd - m /\
    head (snd (remove_loop n i buff bd)) = head buff /\
    tmp_pos (snd (remove_loop n i buff bd)) = tmp_pos buff /\
    buffer (snd (remove_loop n i buff bd)) = buffer buff /\
    forall b, b <> bd ->
              tail (snd (remove_loop n i buff bd)) b = tail buff b.
Proof.
  induction n as [| n IH]; intros i buff Hr m;
    pose proof (used_space_bounds buff bd Hr) as Hu.
  - cbn [remove_loop fst snd]. assert (m = 0) by (unfold m; lia).
    rewrite H, slot_after_zero by apply Hr.
    repeat split; lia.
  - cbn [remove_loop]. rewrite empty_iff_unused by exact Hr.
    destruct (Z.eqb_spec (WDBuff_used_space buff bd) 0) as [E | E].
    + assert (m = 0) by (unfold m; lia).
      cbn [fst snd]. rewrite H, slot_after_zero by apply Hr.
      repeat split; lia.
    + set (buff1 := set_tail buff bd (Z.rem (tail buff bd + 1) EVT_BUF_SIZE)).
      assert (Hr1 : cursors_in_range buff1 bd).
      { destruct Hr as [Hh Ht]. split; [exact Hh |].
        unfold buff1. cbn [tail set_tail].
        rewrite upd_same. now apply next_slot_in_range. }
      assert (Hu1 : WDBuff_used_space buff1 bd = WDBuff_used_space buff bd - 1).
      { apply used_space_after_remove; [exact Hr | | reflexivity |].
        - unfold WDBuff_empty.
          destruct (Z.eqb_spec (head buff bd) (tail buff bd)) as [E1 | E1];
            [| reflexivity].
          exfalso. apply E. unfold WDBuff_used_space. rewrite E1.
          destruct (Z.geb_spec (tail buff bd) (tail buff bd)); lia.
        - unfold buff1. cbn [tail set_tail]. apply upd_same. }
      destruct (IH (i + 1) buff1 Hr1)
        as (I1 & I2 & I3 & I4 & I5 & I6 & I7).
      rewrite Hu1 in I1, I2, I3.
      set (m1 := Z.min (Z.of_nat n) (WDBuff_used_space buff bd - 1)) in *.
      assert (Hm : m = m1 + 1) by (unfold m, m1; lia).
      assert (Hm1 : 0 <= m1) by (unfold m1; lia).
      rewrite I1, I2, I3, I4, I5, I6, Hm.
      split; [lia |]. split.
      { unfold buff1. cbn [tail set_tail]. rewrite upd_same.
        apply slot_after_next; [apply Hr | exact Hm1]. }
      split; [lia |]. repeat (split; [reflexivity |]).
      intros b Hb. rewrite I7 by exact Hb. unfold buff1. cbn [tail set_tail].
      now apply upd_other.
Qed.

Lemma WDBuff_remove_spec
  (buff : WaveDemoBuffers_t) (bd : nat) (num : Z) :
  buffer buff bd <> None ->
  0 <= num ->
  cursors_in_range buff bd ->
  let r := Z.min num (WDBuff_used_space buff bd) in
  let buff' := snd (WDBuff_remove buff bd num) in
  fst (WDBuff_remove buff bd num) = r /\
  tail buff' bd = slot_after (tail buff bd) r /\
  WDBuff_used_space buff' bd = WDBuff_used_space buff bd - r /\
  cursors_in_range buff' bd /\
  head buff' = head buff /\ tmp_pos buff' = tmp_pos buff /\
  buffer buff' = buffer buff /\
  forall b, b <> bd -> tail buff' b = tail buff b.
Proof.
  intros Hb Hn Hr r buff'.
  unfold buff', r, WDBuff_remove.
  destruct (buffer buff bd); [| congruence]. cbn [is_null orb].
  replace (num <? 0) with false by (symmetry; apply Z.ltb_ge; lia).
  destruct (remove_loop_spec bd (Z.to_nat num) 0 buff Hr)
    as (A1 & A2 & A3 & A4 & A5 & A6 & A7).
  rewrite Z2Nat.id in A1, A2, A3 by lia.
  split; [rewrite A1; lia |]. split; [exact A2 |]. split; [exact A3 |].
  split.
  { split; [rewrite A4; apply Hr |].
    rewrite A2. apply slot_after_in_range. }
  now repeat split.
Qed.

(** X3.  [WDBuff_remove] on a board with storage, with a count [num >= 0]:
    it discards as many events as are queued, [min num used_space], from the
    old end and returns that number; [tail] moves that many slots round the
    array, the used space shrinks by as much, and [head], the scan cursor,
    the storage and the other boards are left alone. *)
Theorem remove_discards_what_is_queued
  (buff : WaveDemoBuffers_t) (bd : nat) (num : Z) :
  buffer buff bd <> None ->
  0 <= num ->
  cursors_in_range buff bd ->
  let r := Z.min num (WDBuff_used_space buff bd) in
  let buff' := snd (WDBuff_remove buff bd num) in
  fst (WDBuff_remove buff bd num) = r /\
  tail buff' bd = slot_after (tail buff bd) r /\
  WDBuff_used_space buff' bd = WDBuff_used_space buff bd - r /\
  cursors_in_range buff' bd /\
  head buff' = head buff /\ tmp_pos buff' = tmp_pos buff /\
  buffer buff' = buffer buff /\
  forall b, b <> bd -> tail buff' b = tail buff b.
Proof. exact (WDBuff_remove_spec buff bd num). Qed.

Lemma remove_discards_what_is_queued_witness :
  buffer wrapped_queue 0%nat <> None /\ 0 <= 5 /\
  cursors_in_range wrapped_queue 0 /\
  fst (WDBuff_remove wrapped_queue 0 5)
  = Z.min 5 (WDBuff_used_space wrapped_queue 0) /\
  tail (snd (WDBuff_remove wrapped_queue 0 5)) 0%nat
  = slot_after (tail wrapped_queue 0%nat)
      (Z.min 5 (WDBuff_used_space wrapped_queue 0)).
Proof.
  assert (Hb : buffer wrapped_queue 0%nat <> None) by discriminate.
  assert (Hr : cursors_in_range wrapped_queue 0)
    by (unfold cursors_in_range; simpl; unfold EVT_BUF_SIZE; lia).
  split; [exact Hb |]. split; [lia |]. split; [exact Hr |].
  destruct (remove_discards_what_is_queued wrapped_queue 0 5 Hb ltac:(lia) Hr)
    as (H1 & H2 & _).
  split; [exact H1 | exact H2].
Defined.

Lemma added_loop_frame (bd : nat) (n : nat) :
  forall i buff,
    tail (snd (added_loop n i buff bd)) = tail buff /\
    tmp_pos (snd (added_loop n i buff bd)) = tmp_pos buff /\
    buffer (snd (added_loop n i buff bd)) = buffer buff /\
    forall b, b <> bd -> head (snd (added_loop n i buff bd)) b = head buff b.
Proof.
  induction n as [| n IH]; intros i buff; cbn [added_loop].
  - now repeat split.
  - destruct (truthy (WDBuff_full buff bd)); [now repeat split |].
    destruct (IH (i + 1)
                (set_head buff bd (Z.rem (head buff bd + 1) EVT_BUF_SIZE)))
      as (I1 & I2 & I3 & I4).
    rewrite I1, I2, I3. repeat (split; [reflexivity |]).
    intros b Hb. rewrite I4 by exact Hb. cbn [head set_head].
    now apply upd_other.
Qed.

Lemma remove_loop_frame (bd : nat) (n : nat) :
  forall i buff,
    head (snd (remove_loop n i buff bd)) = head buff /\
    tmp_pos (snd (remove_loop n i buff bd)) = tmp_pos buff /\
    buffer (snd (remove_loop n i buff bd)) = buffer buff /\
    forall b, b <> bd -> tail (snd (remove_loop n i buff bd)) b = tail buff b.
Proof.
  induction n as [| n IH]; intros i buff; cbn [remove_loop].
  - now repeat split.
  - destruct (truthy (WDBuff_empty buff bd)); [now repeat split |].
    destruct (IH (i + 1)
                (set_tail buff bd (Z.rem (tail buff bd + 1) EVT_BUF_SIZE)))
      as (I1 & I2 & I3 & I4).
    rewrite I1, I2, I3. repeat (split; [reflexivity |]).
    intros b Hb. rewrite I4 by exact Hb. cbn [tail set_tail].
    now apply upd_other.
Qed.

Lemma apply_op_isolated (op : buffer_op) (buff : WaveDemoBuffers_t)
  (bd0 : nat) :
  buffer buff bd0 = None \/ op_board op <> bd0 ->
  head (apply_op buff op) bd0 = head buff bd0 /\
  tail (apply_op buff op) bd0 = tail buff bd0 /\
  tmp_pos (apply_op buff op) bd0 = tmp_pos buff bd0 /\
  buffer (apply_op buff op) = buffer buff.
Proof.
  intros H. destruct op as [bd | bd num | bd num]; cbn [apply_op op_board] in *.
  - unfold WDBuff_reset.
    destruct (buffer buff bd) eqn:Eb; cbn [is_null snd]; [| now repeat split].
    assert (Hne : bd0 <> bd).
    { destruct H as [H | H]; [| congruence]. intros ->. congruence. }
    cbn [head tail tmp_pos buffer set_head set_tail set_tmp_pos].
    rewrite !upd_other by exact Hne. now repeat split.
  - unfold WDBuff_added.
    destruct (buffer buff bd) eqn:Eb; cbn [is_null orb];
      [| now repeat split].
    destruct (num <? 0); [now repeat split |].
    assert (Hne : bd0 <> bd).
    { destruct H as [H | H]; [| congruence]. intros ->. congruence. }
    destruct (added_loop_frame bd (Z.to_nat num) 0 buff) as (I1 & I2 & I3 & I4).
    rewrite I1, I2, I3, I4 by exact Hne. now repeat split.
  - unfold WDBuff_remove.
    destruct (buffer buff bd) eqn:Eb; cbn [is_null orb];
      [| now repeat split].
    destruct (num <? 0); [now repeat split |].
    assert (Hne : bd0 <> bd).
    { destruct H as [H | H]; [| congruence]. intros ->. congruence. }
    destruct (remove_loop_frame bd (Z.to_nat num) 0 buff) as (I1 & I2 & I3 & I4).
    rewrite I1, I2, I3, I4 by exact Hne. now repeat split.
Qed.

(** X4.  The queues of the boards are independent, and a board without
    storage has no queue: whatever sequence of [WDBuff_reset],
    [WDBuff_added] and [WDBuff_remove] calls is made, with any counts, the
    three cursors of a board are changed only by the calls made for that
    very board, and not even by those when its storage pointer is NULL; the
    storage pointers themselves are never changed. *)
Theorem queue_operations_are_isolated
  (ops : list buffer_op) (buff : WaveDemoBuffers_t) (bd0 : nat) :
  buffer buff bd0 = None \/ Forall (fun op => op_board op <> bd0) ops ->
  head (run_ops ops buff) bd0 = head buff bd0 /\
  tail (run_ops ops buff) bd0 = tail buff bd0 /\
  tmp_pos (run_ops ops buff) bd0 = tmp_pos buff bd0 /\
  buffer (run_ops ops buff) = buffer buff.
Proof.
  revert buff. induction ops as [| op ops IH]; intros buff H.
  - now repeat split.
  - cbn [run_ops fold_left]. fold (run_ops ops (apply_op buff op)).
    assert (H1 : buffer buff bd0 = None \/ op_board op <> bd0).
    { destruct H as [H | H]; [now left | right]. now inversion H. }
    destruct (apply_op_isolated op buff bd0 H1) as (A1 & A2 & A3 & A4).
    destruct (IH (apply_op buff op)) as (B1 & B2 & B3 & B4).
    { destruct H as [H | H]; [left; now rewrite A4 | right].
      now inversion H. }
    rewrite B1, B2, B3, B4, A1, A2, A3, A4. now repeat split.
Qed.

Lemma queue_operations_are_isolated_witness :
  head (run_ops [OpAdded 1 7; OpRemove 1 3; OpReset 2] wrapped_queue) 0%nat
  = head wrapped_queue 0%nat /\
  tail (run_ops [OpAdded 1 7; OpRemove 1 3; OpReset 2] wrapped_queue) 0%nat
  = tail wrapped_queue 0%nat.
Proof.
  destruct (queue_operations_are_isolated
              [OpAdded 1 7; OpRemove 1 3; OpReset 2] wrapped_queue 0)
    as (H1 & H2 & _).
  - right. repeat constructor; discriminate.
  - split; [exact H1 | exact H2].
Defined.

Lemma slot_after_add (p a b : Z) :
  slot_after (slot_after p a) b = slot_after p (a + b).
Proof.
  unfold slot_after. rewrite Zplus_mod_idemp_l. f_equal. lia.
Qed.

Lemma head_is_used_after_tail (buff : WaveDemoBuffers_t) (bd : nat) :
  cursors_in_range buff bd ->
  head buff bd = slot_after (tail buff bd) (WDBuff_used_space buff bd).
Proof.
  intros [Hh Ht]. unfold slot_after, WDBuff_used_space.
  destruct (Z.geb_spec (head buff bd) (tail buff bd)).
  - replace (tail buff bd + (head buff bd - tail buff bd))
      with (head buff bd) by lia.
    symmetry. now apply Z.mod_small.
  - replace (tail buff bd + (EVT_BUF_SIZE - tail buff bd + head buff bd))
      with (head buff bd + 1 * EVT_BUF_SIZE) by lia.
    rewrite Z_mod_plus_full. symmetry. now apply Z.mod_small.
Qed.

(** X5.  The queue is first in, first out.  Take a queue that holds [u]
    events and has room for [k] more.  The slot that
    [WDBuff_get_write_pointer] hands out once [j < k] further events have
    been committed - the slot of the event that arrives in position
    [j + 1] - is the slot whose event [WDBuff_peak] returns once all [k]
    events are committed and the [u + j] events before it have been
    removed. *)
Theorem queue_is_first_in_first_out
  (buff : WaveDemoBuffers_t) (bd : nat) (slots : Z -> WaveDemoEvent_t)
  (j k : Z) :
  buffer buff bd = Some slots ->
  cursors_in_range buff bd ->
  0 <= j < k ->
  k <= WDBuff_free_space buff bd ->
  let u := WDBuff_used_space buff bd in
  let q := slot_after (head buff bd) j in
  WDBuff_get_write_pointer (snd (WDBuff_added buff bd j)) bd = (0, Some q) /\
  WDBuff_peak (snd (WDBuff_remove (snd (WDBuff_added buff bd k)) bd (u + j))) bd
  = (0, Some (slots q)).
Proof.
  intros Hb Hr Hj Hk u q.
  assert (Hb' : buffer buff bd <> None) by congruence.
  destruct (used_free_sum buff bd Hr) as (Hs & Hfree).
  pose proof (used_space_bounds buff bd Hr) as Hu. fold u in Hs, Hu.
  split.
  - destruct (WDBuff_added_spec buff bd j Hb' ltac:(lia) Hr)
      as (_ & A2 & A3 & A4 & _ & _ & A7 & _).
    rewrite Z.min_l in A2, A3 by lia.
    unfold WDBuff_get_write_pointer. rewrite A7, Hb. cbn [is_null orb].
    rewrite full_is_flag.
    destruct (Z.eqb_spec (WDBuff_full (snd (WDBuff_added buff bd j)) bd) 1)
      as [E | E].
    + apply full_iff_used in E; [| exact A4]. fold u in A3. lia.
    + now rewrite A2.
  - destruct (WDBuff_added_spec buff bd k Hb' ltac:(lia) Hr)
      as (_ & A2 & A3 & A4 & A5 & _ & A7 & _).
    rewrite Z.min_l in A2, A3 by lia. fold u in A3.
    set (buff1 := snd (WDBuff_added buff bd k)) in *.
    assert (Hb1 : buffer buff1 bd <> None) by (rewrite A7; exact Hb').
    destruct (WDBuff_remove_spec buff1 bd (u + j) Hb1
                ltac:(lia) A4)
      as (_ & R2 & R3 & R4 & _ & _ & R7 & _).
    rewrite A3 in R2, R3. rewrite Z.min_l in R2, R3 by lia.
    set (buff2 := snd (WDBuff_remove buff1 bd (u + j))) in *.
    unfold WDBuff_peak. rewrite R7, A7, Hb.
    rewrite empty_iff_unused by exact R4.
    replace (WDBuff_used_space buff2 bd =? 0) with false
      by (symmetry; apply Z.eqb_neq; lia).
    rewrite R2. rewrite A5. unfold q.
    rewrite (head_is_used_after_tail buff bd Hr). fold u.
    now rewrite slot_after_add.
Qed.

Lemma queue_is_first_in_first_out_witness :
  WDBuff_peak
    (snd (WDBuff_remove (snd (WDBuff_added wrapped_queue 0 3)) 0 (2 + 1))) 0
  = (0, Some (event_at 0)) /\
  WDBuff_get_write_pointer (snd (WDBuff_added wrapped_queue 0 1)) 0
  = (0, Some 2).
Proof.
  assert (Hr : cursors_in_range wrapped_queue 0)
    by (unfold cursors_in_range; simpl; unfold EVT_BUF_SIZE; lia).
  destruct (queue_is_first_in_first_out wrapped_queue 0 (fun _ => event_at 0)
              1 3 eq_refl Hr ltac:(lia) ltac:(vm_compute; discriminate))
    as (H1 & H2).
  split; [exact H2 | exact H1].
Defined.

(** ** Scanning with [WDBuff_get_next] *)

Lemma scan_distance_step (h t : Z) :
  0 <= h < EVT_BUF_SIZE -> 0 <= t < EVT_BUF_SIZE -> t <> h ->
  (h - Z.rem (t + 1) EVT_BUF_SIZE) mod EVT_BUF_SIZE
  = (h - t) mod EVT_BUF_SIZE - 1 /\
  0 < (h - t) mod EVT_BUF_SIZE.
Proof.
  intros Hh Ht Hne. rewrite rem_next_slot by exact Ht.
  assert (C : EVT_BUF_SIZE = 2000) by reflexivity.
  destruct (Z.eqb_spec (t + 1) EVT_BUF_SIZE) as [E | E].
  - rewrite Z.sub_0_r, (Z.mod_small h) by lia.
    assert (Hm : (h - t) mod EVT_BUF_SIZE = h + 1).
    { symmetry. apply (Z.mod_unique_pos _ _ (-1)); lia. }
    lia.
  - destruct (Z_lt_le_dec t h) as [L | L].
    + rewrite !Z.mod_small by lia. lia.
    + assert (H1 : (h - t) mod EVT_BUF_SIZE = h - t + EVT_BUF_SIZE).
      { symmetry. apply (Z.mod_unique_pos _ _ (-1)); lia. }
      assert (H2 : (h - (t + 1)) mod EVT_BUF_SIZE = h - t - 1 + EVT_BUF_SIZE).
      { symmetry. apply (Z.mod_unique_pos _ _ (-1)); lia. }
      lia.
Qed.

Lemma scan_queue_spec (bd : nat) (slots : Z -> WaveDemoEvent_t) (n : nat) :
  forall buff,
    buffer buff bd = Some slots ->
    cursors_in_range buff bd ->
    0 <= tmp_pos buff bd < EVT_BUF_SIZE ->
    head buff bd <> tail buff bd ->
    let d := (head buff bd - tmp_pos buff bd) mod EVT_BUF_SIZE in
    d < Z.of_nat n ->
    fst (scan_queue n buff bd)
    = map (fun i => slots (slot_after (tmp_pos buff bd) (Z.of_nat i)))
          (seq 0 (Z.to_nat d)) /\
    tmp_pos (snd (scan_queue n buff bd)) bd = head buff bd /\
    head (snd (scan_queue n buff bd)) = head buff /\
    tail (snd (scan_queue n buff bd)) = tail buff /\
    buffer (snd (scan_queue n buff bd)) = buffer buff.
Proof.
  induction n as [| n IH]; intros buff Hb Hr Hp Hne d Hd.
  - exfalso. pose proof (Z.mod_pos_bound (head buff bd - tmp_pos buff bd)
                           EVT_BUF_SIZE eq_refl). fold d in H. lia.
  - cbn [scan_queue]. unfold WDBuff_get_next. rewrite Hb.
    unfold WDBuff_empty, truthy.
    destruct (Z.eqb_spec (head buff bd) (tail buff bd)) as [E | _];
      [contradiction |]. cbn [Z.eqb negb].
    destruct (Z.eqb_spec (tmp_pos buff bd) (head buff bd)) as [E | E].
    + assert (d = 0) by (unfold d; rewrite E, Z.sub_diag; reflexivity).
      rewrite H. cbn [fst snd Z.to_nat seq map]. now repeat split.
    + set (buff1 := set_tmp_pos buff bd
                      (Z.rem (tmp_pos buff bd + 1) EVT_BUF_SIZE)).
      destruct (scan_distance_step (head buff bd) (tmp_pos buff bd))
        as (Hstep & Hpos); [apply Hr | exact Hp | exact E |]. fold d in Hstep, Hpos.
      assert (Ht1 : tmp_pos buff1 bd = Z.rem (tmp_pos buff bd + 1) EVT_BUF_SIZE)
        by (unfold buff1; cbn [tmp_pos set_tmp_pos]; apply upd_same).
      destruct (IH buff1) as (I1 & I2 & I3 & I4 & I5).
      { exact Hb. } { exact Hr. }
      { rewrite Ht1. now apply next_slot_in_range. }
      { exact Hne. }
      { rewrite Ht1. change (head buff1 bd) with (head buff bd).
        rewrite Hstep. lia. }
      rewrite Ht1 in I1. change (head buff1 bd) with (head buff bd) in I1, I2.
      rewrite Hstep in I1.
      destruct (scan_queue n buff1 bd) as [es buff2] eqn:Es.
      cbn [fst snd] in *. split.
      { replace (Z.to_nat d) with (S (Z.to_nat (d - 1))) by lia.
        cbn [seq map]. f_equal.
        - f_equal. symmetry. apply slot_after_zero. exact Hp.
        - rewrite I1, <- seq_shift, map_map. apply map_ext. intros i.
          f_equal. rewrite slot_after_next by lia. f_equal. lia. }
      now repeat split.
Qed.

(** X6.  Scanning a queue with [WDBuff_get_next] reads and does not
    consume.  On a board with storage and a non-empty queue, calling it
    until it answers -1 hands out the slot under the scan cursor and then
    every following slot round the array up to, not including, [head]; it
    stops with the scan cursor on [head], and it changes neither [head] nor
    [tail] nor the storage. *)
Theorem scan_reads_up_to_head
  (buff : WaveDemoBuffers_t) (bd : nat) (slots : Z -> WaveDemoEvent_t)
  (fuel : nat) :
  buffer buff bd = Some slots ->
  cursors_in_range buff bd ->
  0 <= tmp_pos buff bd < EVT_BUF_SIZE ->
  head buff bd <> tail buff bd ->
  let d := (head buff bd - tmp_pos buff bd) mod EVT_BUF_SIZE in
  d < Z.of_nat fuel ->
  fst (scan_queue fuel buff bd)
  = map (fun i => slots (slot_after (tmp_pos buff bd) (Z.of_nat i)))
        (seq 0 (Z.to_nat d)) /\
  tmp_pos (snd (scan_queue fuel buff bd)) bd = head buff bd /\
  head (snd (scan_queue fuel buff bd)) = head buff /\
  tail (snd (scan_queue fuel buff bd)) = tail buff /\
  buffer (snd (scan_queue fuel buff bd)) = buffer buff.
Proof. exact (scan_queue_spec bd slots fuel buff). Qed.

Lemma scan_reads_up_to_head_witness :
  List.length (fst (scan_queue 5 wrapped_queue 0)) = 2%nat /\
  tmp_pos (snd (scan_queue 5 wrapped_queue 0)) 0%nat = 1.
Proof.
  assert (Hr : cursors_in_range wrapped_queue 0)
    by (unfold cursors_in_range; simpl; unfold EVT_BUF_SIZE; lia).
  destruct (scan_reads_up_to_head wrapped_queue 0 (fun _ => event_at 0) 5
              eq_refl Hr ltac:(unfold EVT_BUF_SIZE; simpl; lia)
              ltac:(discriminate) ltac:(vm_compute; reflexivity))
    as (H1 & H2 & _).
  split; [rewrite H1; reflexivity | exact H2].
Defined.

(** ** The occupancy shown on the status line *)

Lemma occupancy_table :
  forallb occupancy_is_percentage (map Z.of_nat (seq 0 2000)) = true.
Proof. vm_compute. reflexivity. Qed.

Lemma occupancy_of_used (used : Z) :
  0 <= used <= EVT_BUF_SIZE - 1 -> occupancy_is_percentage used = true.
Proof.
  intros H. pose proof occupancy_table as T.
  rewrite forallb_forall in T. apply T.
  apply in_map_iff. exists (Z.to_nat used). split; [lia |].
  apply in_seq. unfold EVT_BUF_SIZE in H. lia.
Qed.

Lemma WDBuff_occupancy_spec (buff : WaveDemoBuffers_t) (bd : nat) :
  cursors_in_range buff bd ->
  SFleb F0 (WDBuff_occupancy buff bd) = true /\
  SFleb (WDBuff_occupancy buff bd) F100 = true /\
  (SFeqb (WDBuff_occupancy buff bd) F0 = true <-> WDBuff_empty buff bd = 1) /\
  (SFeqb (WDBuff_occupancy buff bd) F100 = true <-> WDBuff_full buff bd = 1).
Proof.
  intros Hr. pose proof (used_space_bounds buff bd Hr) as Hu.
  pose proof (occupancy_of_used _ Hu) as H.
  change (WDBuff_occupancy buff bd)
    with (occupancy_of (WDBuff_used_space buff bd)).
  unfold occupancy_is_percentage in H.
  apply andb_prop in H. destruct H as (H & H4).
  apply andb_prop in H. destruct H as (H & H3).
  apply andb_prop in H. destruct H as (H1 & H2).
  apply eqb_prop in H3, H4.
  split; [exact H1 |]. split; [exact H2 |]. split.
  - rewrite H3, Z.eqb_eq. pose proof (empty_iff_unused buff bd Hr) as He.
    unfold truthy in He.
    destruct (Z.eqb_spec (WDBuff_used_space buff bd) 0) as [E | E];
      unfold WDBuff_empty in *;
      destruct (head buff bd =? tail buff bd); cbn in He;
      split; intros; congruence.
  - rewrite H4, Z.eqb_eq. symmetry. now apply full_iff_used.
Qed.

(** X7.  The occupancy printed on the status line,
    [(float)(100.0 * used / (EVT_BUF_SIZE - 1))], is a percentage of the
    usable capacity: for cursors inside the array it lies between 0 and
    100, it is 0 for the empty queue and for no other, and 100 for the full
    queue and for no other (in the arithmetic of the machine: the product
    and the quotient in binary64, the result rounded to binary32). *)
Theorem occupancy_is_a_percentage (buff : WaveDemoBuffers_t) (bd : nat) :
  cursors_in_range buff bd ->
  SFleb F0 (WDBuff_occupancy buff bd) = true /\
  SFleb (WDBuff_occupancy buff bd) F100 = true /\
  (SFeqb (WDBuff_occupancy buff bd) F0 = true <-> WDBuff_empty buff bd = 1) /\
  (SFeqb (WDBuff_occupancy buff bd) F100 = true <-> WDBuff_full buff bd = 1).
Proof. exact (WDBuff_occupancy_spec buff bd). Qed.

Lemma occupancy_is_a_percentage_witness :
  cursors_in_range wrapped_queue 0 /\
  SFleb F0 (WDBuff_occupancy wrapped_queue 0) = true /\
  SFleb (WDBuff_occupancy wrapped_queue 0) F100 = true.
Proof.
  assert (Hr : cursors_in_range wrapped_queue 0)
    by (unfold cursors_in_range; simpl; unfold EVT_BUF_SIZE; lia).
  destruct (occupancy_is_a_percentage wrapped_queue 0 Hr) as (H1 & H2 & _).
  split; [exact Hr |]. split; [exact H1 | exact H2].
Defined.

(** ** Whole calls of the synchroniser *)








Section WholeCall.

Variable MultiWaveformProcess :
  (nat -> option WaveDemoEvent_t) -> Z -> nat ->
  WaveDemoEvent_t -> WaveDemoEvent_t.





End WholeCall.




Lemma min_buff_len_attained (w : World) :
  1 <= NumBoards (WDcfg w) ->
  exists bd, (bd < active_boards w)%nat /\
             min_buff_len w = WDBuff_used_space (WDbuff w) bd.
Proof.
  intros HN. unfold min_buff_len, active_boards.
  pose (I := fun (k : nat) (m : Z) =>
    exists b, (b <= k)%nat /\ m = WDBuff_used_space (WDbuff w) b).
  assert (H : I (Z.to_nat (NumBoards (WDcfg w) - 1))
                (for_loop (NumBoards (WDcfg w) - 1)
                   (fun i m =>
                      if WDBuff_used_space (WDbuff w) (S i) <? m
                      then WDBuff_used_space (WDbuff w) (S i) else m)
                   (WDBuff_used_space (WDbuff w) 0%nat))).
  { apply for_loop_invariant.
    - exists 0%nat. split; [lia | reflexivity].
    - intros k m _ (b & Hb & Hm).
      destruct (WDBuff_used_space (WDbuff w) (S k) <? m).
      + exists (S k). split; [lia | reflexivity].
      + exists b. split; [lia | exact Hm]. }
  destruct H as (b & Hb & Hm). exists b. split; [lia | exact Hm].
Qed.

Lemma min_buff_len_zero_iff (w : World) :
  queues_well_formed w ->
  1 <= NumBoards (WDcfg w) ->
  min_buff_len w = 0 <->
  exists bd, (bd < active_boards w)%nat /\ WDBuff_empty (WDbuff w) bd = 1.
Proof.
  intros Hwf HN.
  assert (He : forall bd, (bd < active_boards w)%nat ->
            (WDBuff_empty (WDbuff w) bd = 1 <->
             WDBuff_used_space (WDbuff w) bd = 0)).
  { intros bd Hbd. destruct (Hwf bd Hbd) as (_ & Hr).
    pose proof (empty_iff_unused _ _ Hr) as H. unfold truthy in H.
    unfold WDBuff_empty in *.
    destruct (head (WDbuff w) bd =? tail (WDbuff w) bd); cbn in H;
      destruct (Z.eqb_spec (WDBuff_used_space (WDbuff w) bd) 0);
      split; intros; congruence. }
  split.
  - intros Hz. destruct (min_buff_len_attained w HN) as (bd & Hbd & Hm).
    exists bd. split; [exact Hbd |]. apply He; [exact Hbd |]. congruence.
  - intros (bd & Hbd & Hempty). apply He in Hempty; [| exact Hbd].
    pose proof (min_buff_len_le w bd Hbd) as Hle.
    destruct (min_buff_len_attained w HN) as (b' & Hb' & Hm).
    destruct (Hwf b' Hb') as (_ & Hr').
    pose proof (used_space_bounds _ _ Hr'). lia.
Qed.

Section ReturnValue.

Variable MultiWaveformProcess :
  (nat -> option WaveDemoEvent_t) -> Z -> nat ->
  WaveDemoEvent_t -> WaveDemoEvent_t.



End ReturnValue.


(** ** [ResetEventBuffer] *)

Lemma reset_loop_effect (n : Z) (buff : WaveDemoBuffers_t) :
  let buff' := for_loop n (fun bd b => snd (WDBuff_reset b bd)) buff in
  buffer buff' = buffer buff /\
  forall bd,
    if ((bd <? Z.to_nat n)%nat && negb (is_null (buffer buff bd)))%bool
    then head buff' bd = 0 /\ tail buff' bd = 0 /\ tmp_pos buff' bd = 0
    else head buff' bd = head buff bd /\ tail buff' bd = tail buff bd /\
         tmp_pos buff' bd = tmp_pos buff bd.
Proof.
  pose (I := fun (k : nat) (b : WaveDemoBuffers_t) =>
    buffer b = buffer buff /\
    forall bd,
      if ((bd <? k)%nat && negb (is_null (buffer buff bd)))%bool
      then head b bd = 0 /\ tail b bd = 0 /\ tmp_pos b bd = 0
      else head b bd = head buff bd /\ tail b bd = tail buff bd /\
           tmp_pos b bd = tmp_pos buff bd).
  change (I (Z.to_nat n)
            (for_loop n (fun bd b => snd (WDBuff_reset b bd)) buff)).
  apply for_loop_invariant.
  - split; [reflexivity |]. intros bd. now repeat split.
  - intros k acc _ (Hb & Hc). unfold WDBuff_reset. rewrite Hb.
    destruct (is_null (buffer buff k)) eqn:Ek; cbn [snd].
    + split; [exact Hb |]. intros bd. specialize (Hc bd).
      rewrite ltb_succ. destruct (Nat.eqb_spec bd k) as [-> | Hne].
      * rewrite Ek, andb_false_r in *. exact Hc.
      * now rewrite orb_false_r.
    + split; [exact Hb |]. intros bd. specialize (Hc bd).
      rewrite ltb_succ.
      cbn [head tail tmp_pos set_head set_tail set_tmp_pos].
      destruct (Nat.eqb_spec bd k) as [-> | Hne].
      * rewrite Ek, orb_true_r. cbn [negb andb]. rewrite !upd_same.
        now repeat split.
      * rewrite orb_false_r, !upd_other by exact Hne. exact Hc.
Qed.

Section ResetThenProcess.

Variable MultiWaveformProcess :
  (nat -> option WaveDemoEvent_t) -> Z -> nat ->
  WaveDemoEvent_t -> WaveDemoEvent_t.

(** X10.  [ResetEventBuffer] empties the queue of every active board that
    has storage: its three cursors are 0, so nothing is queued and the whole
    usable capacity is free; it touches no other board and nothing outside
    the queues.  When every active board has storage (and there is at least
    one board), [ProcessesSynchronizedEvents] called next finds nothing to
    do: it returns 0 and changes nothing. *)
Theorem reset_empties_every_queue (w : World) :
  let w' := ResetEventBuffer w in
  WDstats w' = WDstats w /\ WDcfg w' = WDcfg w /\ WDrun w' = WDrun w /\
  MsgLog w' = MsgLog w /\ buffer (WDbuff w') = buffer (WDbuff w) /\
  (forall bd,
      (bd < active_boards w)%nat -> buffer (WDbuff w) bd <> None ->
      head (WDbuff w') bd = 0 /\ tail (WDbuff w') bd = 0 /\
      tmp_pos (WDbuff w') bd = 0 /\
      WDBuff_used_space (WDbuff w') bd = 0 /\
      WDBuff_free_space (WDbuff w') bd = EVT_BUF_SIZE - 1) /\
  (forall bd,
      (active_boards w <= bd)%nat \/ buffer (WDbuff w) bd = None ->
      head (WDbuff w') bd = head (WDbuff w) bd /\
      tail (WDbuff w') bd = tail (WDbuff w) bd /\
      tmp_pos (WDbuff w') bd = tmp_pos (WDbuff w) bd) /\
  ((forall bd, (bd < active_boards w)%nat -> buffer (WDbuff w) bd <> None) ->
   1 <= NumBoards (WDcfg w) ->
   ProcessesSynchronizedEvents MultiWaveformProcess w' = Some (0, w')).
Proof.
  intros w'.
  assert (Hw : WDbuff w'
               = for_loop (NumBoards (WDcfg w))
                   (fun bd b => snd (WDBuff_reset b bd)) (WDbuff w))
    by reflexivity.
  pose proof (reset_loop_effect (NumBoards (WDcfg w)) (WDbuff w)) as He.
  cbv zeta in He. rewrite <- Hw in He. destruct He as (Hb & Hc).
  fold (active_boards w) in Hc.
  assert (Hreset : forall bd,
            (bd < active_boards w)%nat -> buffer (WDbuff w) bd <> None ->
            head (WDbuff w') bd = 0 /\ tail (WDbuff w') bd = 0 /\
            tmp_pos (WDbuff w') bd = 0 /\
            WDBuff_used_space (WDbuff w') bd = 0 /\
            WDBuff_free_space (WDbuff w') bd = EVT_BUF_SIZE - 1).
  { intros bd Hbd Hs. specialize (Hc bd).
    apply Nat.ltb_lt in Hbd. rewrite Hbd in Hc.
    destruct (buffer (WDbuff w) bd); [| congruence].
    cbn [is_null negb andb] in Hc.
    destruct Hc as (H1 & H2 & H3).
    repeat (split; [assumption |]).
    unfold WDBuff_used_space, WDBuff_free_space, WDBuff_full.
    rewrite H1, H2. split; reflexivity. }
  repeat (split; [reflexivity |]). split; [exact Hb |].
  split; [exact Hreset |]. split.
  - intros bd H. specialize (Hc bd). destruct H as [H | H].
    + apply Nat.ltb_ge in H. rewrite H in Hc. exact Hc.
    + rewrite H, andb_false_r in Hc. exact Hc.
  - intros Hs HN.
    assert (Hwf : queues_well_formed w').
    { intros bd Hbd. change (active_boards w') with (active_boards w) in Hbd.
      rewrite Hb. split; [now apply Hs |].
      destruct (Hreset bd Hbd (Hs bd Hbd)) as (H1 & H2 & _).
      unfold cursors_in_range, EVT_BUF_SIZE. rewrite H1, H2. lia. }
    assert (Hz : min_buff_len w' = 0).
    { apply (min_buff_len_zero_iff w' Hwf HN). exists 0%nat.
      assert (H0 : (0 < active_boards w)%nat)
        by (unfold active_boards; lia).
      split; [exact H0 |].
      destruct (Hreset 0%nat H0 (Hs 0%nat H0)) as (H1 & H2 & _).
      unfold WDBuff_empty. now rewrite H1, H2. }
    unfold ProcessesSynchronizedEvents. cbv zeta. rewrite Hz. reflexivity.
Qed.

End ResetThenProcess.

Lemma reset_empties_every_queue_witness :
  WDBuff_used_space (WDbuff (ResetEventBuffer scripted_boards)) 1 = 0 /\
  ProcessesSynchronizedEvents no_processing (ResetEventBuffer scripted_boards)
  = Some (0, ResetEventBuffer scripted_boards).
Proof.
  destruct (reset_empties_every_queue no_processing scripted_boards)
    as (_ & _ & _ & _ & _ & H1 & _ & H2).
  split.
  - destruct (H1 1%nat ltac:(cbn; lia) ltac:(discriminate))
      as (_ & _ & _ & Hu & _). exact Hu.
  - apply H2; [intros bd _; discriminate | cbn; lia].
Defined.

(** ** [MakeSpaceBuffers] *)

Lemma int_of_uint32_small (x : Z) : 0 <= x < 2 ^ 31 -> int_of_uint32 x = x.
Proof.
  intros H. unfold int_of_uint32. cbv zeta.
  rewrite Z.mod_small by lia.
  destruct (Z.ltb_spec x (2 ^ 31)); [reflexivity | lia].
Qed.

(** A loop over all the channels below [n] of board [bd] whose body
    rewrites the visited cell by [g]. *)
Lemma all_channels_cell (n : Z) (bd : nat)
  (g : ChannelStats -> ChannelStats) (s : WaveDemoStats_t) :
  let s' := for_loop n (fun ch => on_chan bd ch g) s in
  s' = set_chan (chan s') s /\
  forall b' ch',
    chan s' b' ch' =
    if (Nat.eqb b' bd && (ch' <? Z.to_nat n)%nat)%bool
    then g (chan s b' ch') else chan s b' ch'.
Proof.
  pose (I := fun (k : nat) (acc : WaveDemoStats_t) =>
    acc = set_chan (chan acc) s /\
    forall b' ch',
      chan acc b' ch' =
      if (Nat.eqb b' bd && (ch' <? k)%nat)%bool
      then g (chan s b' ch') else chan s b' ch').
  change (I (Z.to_nat n) (for_loop n (fun ch => on_chan bd ch g) s)).
  apply for_loop_invariant.
  - split; [now destruct s |]. intros b' ch'. now rewrite andb_false_r.
  - intros k acc _ (Hs & Hc). split.
    + unfold on_chan. rewrite Hs. reflexivity.
    + intros b' ch'. rewrite on_chan_cell, Hc, ltb_succ.
      destruct (Nat.eqb_spec b' bd) as [-> | Hb]; cbn [andb];
        [| reflexivity].
      destruct (Nat.eqb_spec ch' k) as [-> | Hk].
      * rewrite Nat.ltb_irrefl. reflexivity.
      * now rewrite orb_false_r.
Qed.

Lemma used_space_same_cursors (buff buff' : WaveDemoBuffers_t) (bd : nat) :
  head buff' bd = head buff bd -> tail buff' bd = tail buff bd ->
  WDBuff_used_space buff' bd = WDBuff_used_space buff bd /\
  WDBuff_free_space buff' bd = WDBuff_free_space buff bd /\
  WDBuff_empty buff' bd = WDBuff_empty buff bd /\
  (cursors_in_range buff bd -> cursors_in_range buff' bd).
Proof.
  intros Hh Ht.
  unfold WDBuff_used_space, WDBuff_free_space, WDBuff_full, WDBuff_empty,
    cursors_in_range.
  rewrite Hh, Ht. now repeat split.
Qed.

(** The number of events [MakeSpaceBuffers] drops from a board. *)
Lemma make_space_board_spec (NumEvents : nat -> Z) (bd : nat) (w : World) :
  buffer (WDbuff w) bd <> None ->
  cursors_in_range (WDbuff w) bd ->
  0 <= NumEvents bd < 2 ^ 31 ->
  let tight := WDBuff_free_space (WDbuff w) bd <? NumEvents bd in
  let d := if tight
           then Z.min (NumEvents bd) (WDBuff_used_space (WDbuff w) bd)
           else 0 in
  exists w',
    make_space_board NumEvents bd w = Some w' /\
    WDcfg w' = WDcfg w /\ WDrun w' = WDrun w /\ MsgLog w' = MsgLog w /\
    WDstats w' = set_chan (chan (WDstats w')) (WDstats w) /\
    buffer (WDbuff w') = buffer (WDbuff w) /\
    head (WDbuff w') = head (WDbuff w) /\
    tmp_pos (WDbuff w') = tmp_pos (WDbuff w) /\
    (forall b, b <> bd -> tail (WDbuff w') b = tail (WDbuff w) b) /\
    WDBuff_used_space (WDbuff w') bd = WDBuff_used_space (WDbuff w) bd - d /\
    cursors_in_range (WDbuff w') bd /\
    forall b ch,
      chan (WDstats w') b ch =
      if (tight && (Nat.eqb b bd &&
                    (ch <? Z.to_nat (Nch (WDcfg w) bd))%nat))%bool
      then make_space_cell d (chan (WDstats w) b ch)
      else chan (WDstats w) b ch.
Proof.
  intros Hb Hr Hn tight d. unfold make_space_board. cbv zeta.
  rewrite int_of_uint32_small by exact Hn. fold tight.
  pose proof (used_space_bounds _ _ Hr) as Hu.
  destruct tight eqn:Et; unfold d.
  - destruct (WDBuff_remove_spec (WDbuff w) bd (NumEvents bd) Hb
                ltac:(lia) Hr)
      as (R1 & R2 & R3 & R4 & R5 & R6 & R7 & R8).
    destruct (WDBuff_remove (WDbuff w) bd (NumEvents bd)) as [r buff] eqn:Er.
    cbn [fst snd] in *.
    replace (r <? 0) with false by (symmetry; apply Z.ltb_ge; lia).
    destruct (all_channels_cell (Nch (WDcfg w) bd) bd (make_space_cell r)
                (WDstats w)) as (Hs & Hc).
    eexists. split; [reflexivity |].
    cbn [WDcfg WDrun MsgLog WDstats WDbuff set_WDstats set_WDbuff].
    repeat (split; [reflexivity |]). split; [exact Hs |].
    split; [exact R7 |]. split; [exact R5 |]. split; [exact R6 |].
    split; [exact R8 |]. split; [exact R3 |].
    split; [exact R4 |].
    intros b ch. rewrite Hc, R1. reflexivity.
  - exists w. split; [reflexivity |]. repeat (split; [reflexivity |]).
    split; [now destruct (WDstats w) |].
    repeat (split; [reflexivity |]). split; [lia |]. split; [exact Hr |].
    reflexivity.
Qed.

(** The effect of [MakeSpaceBuffers] on board [bd], from [w] to [w']. *)
Lemma make_space_loop_spec (NumEvents : nat -> Z) (bds : list nat) :
  forall w,
    NoDup bds ->
    (forall bd, In bd bds ->
                buffer (WDbuff w) bd <> None /\
                cursors_in_range (WDbuff w) bd /\
                0 <= NumEvents bd < 2 ^ 31) ->
    exists w',
      make_space_loop NumEvents bds w = (1, w') /\
      WDcfg w' = WDcfg w /\ WDrun w' = WDrun w /\ MsgLog w' = MsgLog w /\
      WDstats w' = set_chan (chan (WDstats w')) (WDstats w) /\
      buffer (WDbuff w') = buffer (WDbuff w) /\
      head (WDbuff w') = head (WDbuff w) /\
      tmp_pos (WDbuff w') = tmp_pos (WDbuff w) /\
      forall bd,
        let tight := (if in_dec Nat.eq_dec bd bds then true else false) &&
                     (WDBuff_free_space (WDbuff w) bd <? NumEvents bd) in
        let d := if tight
                 then Z.min (NumEvents bd) (WDBuff_used_space (WDbuff w) bd)
                 else 0 in
        WDBuff_used_space (WDbuff w') bd
        = WDBuff_used_space (WDbuff w) bd - d /\
        (cursors_in_range (WDbuff w) bd -> cursors_in_range (WDbuff w') bd) /\
        (tight = false -> tail (WDbuff w') bd = tail (WDbuff w) bd) /\
        forall ch,
          chan (WDstats w') bd ch =
          if (tight && (ch <? Z.to_nat (Nch (WDcfg w) bd))%nat)%bool
          then make_space_cell d (chan (WDstats w) bd ch)
          else chan (WDstats w) bd ch.
Proof.
  induction bds as [| b rest IH]; intros w Hnd Hok.
  - exists w. split; [reflexivity |]. repeat (split; [reflexivity |]).
    split; [now destruct (WDstats w) |]. repeat (split; [reflexivity |]).
    intros bd. destruct (in_dec Nat.eq_dec bd []) as [[] |].
    cbn [andb]. cbv zeta.
    split; [lia |]. split; [tauto |]. split; reflexivity.
  - inversion Hnd as [| ? ? Hnotin Hnd']; subst.
    destruct (Hok b (or_introl eq_refl)) as (Hb & Hr & Hn).
    destruct (make_space_board_spec NumEvents b w Hb Hr Hn)
      as (w1 & Hrun & Hcfg & Hrn & Hlog & Hst & Hbuf & Hhead & Htmp & Htail
          & Hused & Hr1 & Hchan).
    destruct (IH w1 Hnd') as (w2 & Hloop & Hcfg2 & Hrn2 & Hlog2 & Hst2 & Hbuf2
                               & Hhead2 & Htmp2 & Hper).
    { intros bd Hin. destruct (Hok bd (or_intror Hin)) as (Hb' & Hr' & Hn').
      assert (Hne : bd <> b) by (intros ->; contradiction).
      rewrite Hbuf. split; [exact Hb' |]. split; [| exact Hn'].
      apply (used_space_same_cursors (WDbuff w) (WDbuff w1) bd);
        [now rewrite Hhead | now apply Htail | exact Hr']. }
    exists w2. split; [cbn [make_space_loop]; now rewrite Hrun |].
    split; [congruence |]. split; [congruence |]. split; [congruence |].
    split; [rewrite Hst2, Hst; reflexivity |].
    split; [congruence |]. split; [congruence |]. split; [congruence |].
    intros bd. specialize (Hper bd). cbv zeta in Hper.
    destruct Hper as (P1 & P2 & P3 & P4).
    destruct (Nat.eq_dec bd b) as [-> | Hne].
    + (* the board of this step: the rest of the loop leaves it alone *)
      destruct (in_dec Nat.eq_dec b rest) as [Hin | _]; [contradiction |].
      cbn [andb] in P1, P3, P4. rewrite Z.sub_0_r in P1.
      specialize (P3 eq_refl).
      destruct (in_dec Nat.eq_dec b (b :: rest)) as [_ | Hn0];
        [| exfalso; apply Hn0; now left].
      cbn [andb]. cbv zeta. rewrite P1, Hused.
      split; [reflexivity |]. split; [intros _; now apply P2 |]. split.
      * intros Ht. rewrite P3.
        revert Hrun. unfold make_space_board. cbv zeta.
        rewrite int_of_uint32_small, Ht by exact Hn.
        now intros [= <-].
      * intros ch. rewrite P4, Hchan, Nat.eqb_refl. reflexivity.
    + (* another board: this step left it alone *)
      assert (Hsame := used_space_same_cursors (WDbuff w) (WDbuff w1) bd
                         ltac:(now rewrite Hhead) (Htail bd Hne)).
      destruct Hsame as (U1 & U2 & _ & U4).
      rewrite U1, U2, Hcfg in *.
      assert (Hin : (if in_dec Nat.eq_dec bd (b :: rest) then true else false)
                    = (if in_dec Nat.eq_dec bd rest then true else false)).
      { destruct (in_dec Nat.eq_dec bd (b :: rest)) as [H1 | H1],
                 (in_dec Nat.eq_dec bd rest) as [H2 | H2]; try reflexivity.
        - destruct H1 as [H1 | H1]; [congruence | contradiction].
        - exfalso. apply H1. now right. }
      rewrite Hin. split; [exact P1 |]. split; [tauto |]. split.
      * intros Ht. rewrite P3 by exact Ht. now apply Htail.
      * intros ch. rewrite P4, Hchan.
        apply Nat.eqb_neq in Hne. rewrite Hne, andb_false_r. reflexivity.
Qed.

Lemma MakeSpaceBuffers_spec (NumEvents : nat -> Z) (w : World) :
  queues_well_formed w ->
  (forall bd, (bd < active_boards w)%nat -> 0 <= NumEvents bd < 2 ^ 31) ->
  exists w',
    MakeSpaceBuffers NumEvents w = (1, w') /\
    WDcfg w' = WDcfg w /\ WDrun w' = WDrun w /\ MsgLog w' = MsgLog w /\
    WDstats w' = set_chan (chan (WDstats w')) (WDstats w) /\
    buffer (WDbuff w') = buffer (WDbuff w) /\
    head (WDbuff w') = head (WDbuff w) /\
    tmp_pos (WDbuff w') = tmp_pos (WDbuff w) /\
    (forall bd, (bd < active_boards w)%nat ->
       let tight := WDBuff_free_space (WDbuff w) bd <? NumEvents bd in
       let d := if tight
                then Z.min (NumEvents bd) (WDBuff_used_space (WDbuff w) bd)
                else 0 in
       drained w w' bd = d /\
       WDBuff_free_space (WDbuff w') bd
       = WDBuff_free_space (WDbuff w) bd + d /\
       fst (WDBuff_added (WDbuff w') bd (NumEvents bd))
       = Z.min (NumEvents bd) (EVT_BUF_SIZE - 1) /\
       forall ch,
         chan (WDstats w') bd ch =
         if (tight && (ch <? Z.to_nat (Nch (WDcfg w) bd))%nat)%bool
         then make_space_cell d (chan (WDstats w) bd ch)
         else chan (WDstats w) bd ch) /\
    (forall bd, (active_boards w <= bd)%nat ->
       tail (WDbuff w') bd = tail (WDbuff w) bd /\
       forall ch, chan (WDstats w') bd ch = chan (WDstats w) bd ch).
Proof.
  intros Hwf Hn. unfold MakeSpaceBuffers. fold (active_boards w).
  destruct (make_space_loop_spec NumEvents (seq 0 (active_boards w)) w)
    as (w' & Hrun & Hcfg & Hrn & Hlog & Hst & Hbuf & Hhead & Htmp & Hper).
  { apply seq_NoDup. }
  { intros bd Hin. apply in_seq in Hin.
    destruct (Hwf bd ltac:(lia)) as (Hb & Hr).
    split; [exact Hb |]. split; [exact Hr |]. apply Hn. lia. }
  exists w'. split; [exact Hrun |].
  repeat (split; [assumption |]). split.
  - intros bd Hbd. specialize (Hper bd). cbv zeta in Hper.
    destruct (in_dec Nat.eq_dec bd (seq 0 (active_boards w))) as [_ | Hnot];
      [| exfalso; apply Hnot; apply in_seq; lia].
    cbn [andb] in Hper. destruct Hper as (P1 & P2 & _ & P4).
    destruct (Hwf bd Hbd) as (Hb & Hr). specialize (P2 Hr).
    specialize (Hn bd Hbd).
    set (d := if WDBuff_free_space (WDbuff w) bd <? NumEvents bd
              then Z.min (NumEvents bd) (WDBuff_used_space (WDbuff w) bd)
              else 0) in *.
    destruct (used_free_sum _ _ Hr) as (S0 & F0').
    destruct (used_free_sum _ _ P2) as (S1 & F1').
    pose proof (used_space_bounds _ _ Hr) as Hu.
    assert (Hfree : WDBuff_free_space (WDbuff w') bd
                    = WDBuff_free_space (WDbuff w) bd + d) by lia.
    cbv zeta. split; [unfold drained; lia |]. split; [exact Hfree |].
    split; [| exact P4].
    assert (Hb' : buffer (WDbuff w') bd <> None) by (now rewrite Hbuf).
    destruct (WDBuff_added_spec (WDbuff w') bd (NumEvents bd) Hb'
                ltac:(lia) P2) as (A1 & _).
    rewrite A1, Hfree. unfold d.
    destruct (Z.ltb_spec (WDBuff_free_space (WDbuff w) bd) (NumEvents bd));
      lia.
  - intros bd Hbd. specialize (Hper bd). cbv zeta in Hper.
    destruct (in_dec Nat.eq_dec bd (seq 0 (active_boards w))) as [Hin | _];
      [apply in_seq in Hin; lia |].
    cbn [andb] in Hper. destruct Hper as (_ & _ & P3 & P4).
    split; [now apply P3 | exact P4].
Qed.

(** X11.  [MakeSpaceBuffers] makes room for the events just read.  On
    well-formed queues, with [NumEvents bd] events announced for board
    [bd]: it returns 1; a board with enough free space is left alone; from
    a board with less free space than [NumEvents bd] it drops the
    [min (NumEvents bd) used_space] oldest events - as many as arrive, not
    just the missing room - and adds that number to [EvLost_cnt] and
    [EvProcessed_cnt] of every channel of the board below [Nch], enabled or
    not.  Afterwards [WDBuff_added] accepts all the announced events (up to
    the capacity of [EVT_BUF_SIZE - 1]).  Nothing else is changed. *)
Theorem make_space_drops_oldest_events (NumEvents : nat -> Z) (w : World) :
  queues_well_formed w ->
  (forall bd, (bd < active_boards w)%nat -> 0 <= NumEvents bd < 2 ^ 31) ->
  exists w',
    MakeSpaceBuffers NumEvents w = (1, w') /\
    WDcfg w' = WDcfg w /\ WDrun w' = WDrun w /\ MsgLog w' = MsgLog w /\
    WDstats w' = set_chan (chan (WDstats w')) (WDstats w) /\
    buffer (WDbuff w') = buffer (WDbuff w) /\
    head (WDbuff w') = head (WDbuff w) /\
    tmp_pos (WDbuff w') = tmp_pos (WDbuff w) /\
    (forall bd, (bd < active_boards w)%nat ->
       let tight := WDBuff_free_space (WDbuff w) bd <? NumEvents bd in
       let d := if tight
                then Z.min (NumEvents bd) (WDBuff_used_space (WDbuff w) bd)
                else 0 in
       drained w w' bd = d /\
       WDBuff_free_space (WDbuff w') bd
       = WDBuff_free_space (WDbuff w) bd + d /\
       fst (WDBuff_added (WDbuff w') bd (NumEvents bd))
       = Z.min (NumEvents bd) (EVT_BUF_SIZE - 1) /\
       forall ch,
         chan (WDstats w') bd ch =
         if (tight && (ch <? Z.to_nat (Nch (WDcfg w) bd))%nat)%bool
         then make_space_cell d (chan (WDstats w) bd ch)
         else chan (WDstats w) bd ch) /\
    (forall bd, (active_boards w <= bd)%nat ->
       tail (WDbuff w') bd = tail (WDbuff w) bd /\
       forall ch, chan (WDstats w') bd ch = chan (WDstats w) bd ch).
Proof. exact (MakeSpaceBuffers_spec NumEvents w). Qed.

Lemma crowded_board_well_formed : queues_well_formed crowded_board.
Proof.
  intros bd Hbd. split; [discriminate |].
  unfold cursors_in_range, EVT_BUF_SIZE. cbn. lia.
Qed.

Lemma make_space_drops_oldest_events_witness :
  queues_well_formed crowded_board /\
  exists w',
    MakeSpaceBuffers (fun _ => 10) crowded_board = (1, w') /\
    drained crowded_board w' 0 = 10 /\
    fst (WDBuff_added (WDbuff w') 0 10) = 10 /\
    EvLost_cnt (chan (WDstats w') 0 0) = 10.
Proof.
  split; [exact crowded_board_well_formed |].
  destruct (make_space_drops_oldest_events (fun _ => 10) crowded_board
              crowded_board_well_formed ltac:(intros; lia))
    as (w' & H1 & _ & _ & _ & _ & _ & _ & _ & H2 & _).
  exists w'. split; [exact H1 |].
  destruct (H2 0%nat ltac:(cbn; lia)) as (D1 & _ & D3 & D4).
  split; [exact D1 |]. split; [exact D3 |]. rewrite D4. reflexivity.
Defined.

(** ** [ProcessesUnsynchronizedEvents] *)



Lemma same_globals_set_chan (s s' : WaveDemoStats_t) :
  set_chan (fun _ _ => zero_channel) s' = set_chan (fun _ _ => zero_channel) s ->
  s' = set_chan (chan s') s.
Proof.
  destruct s, s'. unfold set_chan. cbn. intros [= -> -> -> -> -> -> -> -> -> -> -> -> ->].
  reflexivity.
Qed.

Section UnsynchronizedProperties.

Variable WaveformProcess :
  WaveDemoConfig_t -> nat -> nat -> WaveDemoEvent_t -> WaveDemoEvent_t.








End UnsynchronizedProperties.


(** The fault of [EventProcessing] in the unsynchronised mode.  On
    [lonely_board] the start board (board 0) is skipped because its queue
    is empty, its reference event pointer is still NULL, and the event of
    board 1 is processed: the call faults before the event is removed. *)
Example unsynchronized_call_without_reference_faults :
  queues_well_formed lonely_board /\
  ~ reference_event_ready lonely_board /\
  ProcessesUnsynchronizedEvents no_waveform_processing (fun _ => 1)
    lonely_board = None.
Proof.
  split.
  { intros bd Hbd. split; [discriminate |].
    unfold cursors_in_range, EVT_BUF_SIZE. cbn.
    destruct (Nat.eqb bd 1); lia. }
  split.
  { intros (_ & [H | (_ & _ & H)]); [now apply H | discriminate H]. }
  reflexivity.
Qed.


(** ** [UpdateStatistics]: what it reads and what it writes *)

Lemma same_counters_trans (a b c : ChannelStats) :
  same_counters a b -> same_counters b c -> same_counters a c.
Proof.
  unfold same_counters.
  intros (A1 & A2 & A3 & A4 & A5 & A6 & A7 & A8 & A9)
         (B1 & B2 & B3 & B4 & B5 & B6 & B7 & B8 & B9).
  repeat split; congruence.
Qed.

Lemma read_rates_counters (run : WaveDemoRun_t) (c : ChannelStats) :
  same_counters c (read_rates run c).
Proof. unfold same_counters, read_rates. stage_frame. Qed.

Lemma input_rate_counters (run : WaveDemoRun_t) (acq : float)
  (c : ChannelStats) : same_counters c (input_rate run acq c).
Proof. unfold same_counters, input_rate. stage_frame. Qed.

Lemma lost_rate_counters (run : WaveDemoRun_t) (c : ChannelStats) :
  same_counters c (lost_rate run c).
Proof. unfold same_counters, lost_rate. stage_frame. Qed.

Lemma clamp_lost_rate_counters (c : ChannelStats) :
  same_counters c (clamp_lost_rate c).
Proof. unfold same_counters, clamp_lost_rate. stage_frame. Qed.

Lemma dead_time_counters (c : ChannelStats) : same_counters c (dead_time c).
Proof. unfold same_counters, dead_time. stage_frame. Qed.

Lemma busy_time_counters (c : ChannelStats) : same_counters c (busy_time c).
Proof. unfold same_counters, busy_time. stage_frame. Qed.

Lemma matching_ratio_counters (c : ChannelStats) :
  same_counters c (matching_ratio c).
Proof. unfold same_counters, matching_ratio. stage_frame. Qed.

Lemma save_counters_counters (c : ChannelStats) :
  same_counters c (save_counters c).
Proof. unfold same_counters, save_counters. cbv zeta. now repeat split. Qed.

Lemma update_channel_counters (run : WaveDemoRun_t) (acq : float)
  (c : ChannelStats) : same_counters c (update_channel run acq c).
Proof.
  unfold update_channel, computed_rates.
  eapply same_counters_trans; [apply read_rates_counters |].
  eapply same_counters_trans; [apply input_rate_counters |].
  eapply same_counters_trans; [apply lost_rate_counters |].
  eapply same_counters_trans; [apply clamp_lost_rate_counters |].
  eapply same_counters_trans; [apply dead_time_counters |].
  eapply same_counters_trans; [apply busy_time_counters |].
  eapply same_counters_trans; [apply matching_ratio_counters |].
  apply save_counters_counters.
Qed.

(** The channel loops of [UpdateStatistics] write channel cells only. *)
Lemma UpdateStatistics_globals (cfg : WaveDemoConfig_t) (run : WaveDemoRun_t)
  (t : Z) (s : WaveDemoStats_t) :
  snd (UpdateStatistics cfg run t s)
  = set_chan (chan (snd (UpdateStatistics cfg run t s)))
      (set_PrevProcTstampAll (LatestProcTstampAll s)
         (update_globals run t s)).
Proof.
  unfold UpdateStatistics. cbv zeta. cbn [snd].
  set (s0 := update_globals run t s).
  set (r := for_loop (NumBoards cfg) _ s0).
  assert (H : set_chan (fun _ _ => zero_channel) r
              = set_chan (fun _ _ => zero_channel) s0).
  { apply (for_loop_invariant
             (fun _ acc => set_chan (fun _ _ => zero_channel) acc
                           = set_chan (fun _ _ => zero_channel) s0));
      [reflexivity |].
    intros k acc _ HI. rewrite <- HI.
    apply (for_enabled_channels_frame
             (fun s' => set_chan (fun _ _ => zero_channel) s')).
    reflexivity. }
  apply same_globals_set_chan in H. clearbody r.
  assert (HL : LatestProcTstampAll s0 = LatestProcTstampAll s).
  { unfold s0, update_globals. cbv zeta. split_ifs; reflexivity. }
  assert (HLr : LatestProcTstampAll r = LatestProcTstampAll s).
  { rewrite H. exact HL. }
  rewrite HLr. rewrite H. reflexivity.
Qed.

Lemma update_globals_totals (run : WaveDemoRun_t) (t : Z)
  (s : WaveDemoStats_t) : same_totals s (update_globals run t s).
Proof. unfold same_totals, update_globals. stage_frame. Qed.

Lemma UpdateStatistics_reads_counters
  (cfg : WaveDemoConfig_t) (run : WaveDemoRun_t) (t : Z)
  (s : WaveDemoStats_t) :
  fst (UpdateStatistics cfg run t s) = 0 /\
  same_totals s (snd (UpdateStatistics cfg run t s)) /\
  forall b ch,
    same_counters (chan s b ch)
      (chan (snd (UpdateStatistics cfg run t s)) b ch) /\
    (((b <? Z.to_nat (NumBoards cfg))%nat && channel_on cfg b ch)%bool = false ->
     chan (snd (UpdateStatistics cfg run t s)) b ch = chan s b ch).
Proof.
  split; [reflexivity |]. split.
  - rewrite UpdateStatistics_globals.
    destruct (update_globals_totals run t s) as (H1 & H2 & H3 & H4 & H5 & H6).
    unfold same_totals.
    cbn [RxByte_cnt TotEvRead_cnt UnSyncEv_cnt StartTime AcqStopTime
         LatestProcTstampAll set_chan set_PrevProcTstampAll].
    now repeat split.
  - intros b ch. rewrite UpdateStatistics_cell.
    destruct ((b <? Z.to_nat (NumBoards cfg))%nat && channel_on cfg b ch)%bool.
    + split; [apply update_channel_counters | discriminate].
    + split; [now repeat split | reflexivity].
Qed.

(** X13.  [UpdateStatistics] derives figures and takes snapshots; it never
    changes what the acquisition counts.  It returns 0; the totals
    ([RxByte_cnt], [TotEvRead_cnt], [UnSyncEv_cnt], [StartTime],
    [AcqStopTime], [LatestProcTstampAll]) and, for every board and channel,
    the cumulative counters and device time stamps are the same after the
    call as before; and the cell of a channel that is disabled, or not below
    [Nch], or of a board that is not active, is not written at all. *)
Theorem update_never_changes_the_counters
  (cfg : WaveDemoConfig_t) (run : WaveDemoRun_t) (t : Z)
  (s : WaveDemoStats_t) :
  fst (UpdateStatistics cfg run t s) = 0 /\
  same_totals s (snd (UpdateStatistics cfg run t s)) /\
  forall b ch,
    same_counters (chan s b ch)
      (chan (snd (UpdateStatistics cfg run t s)) b ch) /\
    (((b <? Z.to_nat (NumBoards cfg))%nat && channel_on cfg b ch)%bool = false ->
     chan (snd (UpdateStatistics cfg run t s)) b ch = chan s b ch).
Proof. exact (UpdateStatistics_reads_counters cfg run t s). Qed.

(** ** [UpdateStatistics]: the figures it stores *)

Lemma SFltb_irrefl (x : spec_float) : SFltb x x = false.
Proof.
  destruct x as [[] | [] | | [] m e]; try reflexivity;
    unfold SFltb, SFcompare; rewrite Z.compare_refl, Pos.compare_cont_refl;
    reflexivity.
Qed.

(** The two clamps [if (x < 0) x = 0; if (x > 1) x = 1;]. *)
Lemma clamped_within_unit (x : float) :
  within_unit
    (let y := if flt x F0 then F0 else x in if fgt y F1 then F1 else y).
Proof.
  unfold within_unit. cbv zeta.
  destruct (flt x F0) eqn:E0.
  - vm_compute. now split.
  - destruct (fgt x F1) eqn:E1; [vm_compute; now split | now split].
Qed.

Lemma read_rates_consistent (run : WaveDemoRun_t) (c : ChannelStats) :
  fgt (EvFilt_rate (read_rates run c)) (EvRead_rate (read_rates run c))
  = false /\
  flt (EvOutput_rate (read_rates run c)) F0 = false.
Proof.
  unfold read_rates. cbv zeta.
  match goal with
  | |- context [if fgt (EvFilt_rate ?c1) (EvRead_rate ?c1) then _ else _] =>
      set (c0 := c1)
  end.
  destruct (fgt (EvFilt_rate c0) (EvRead_rate c0)) eqn:E1;
    match goal with
    | |- context [if flt (EvOutput_rate ?c2) F0 then _ else _] =>
        destruct (flt (EvOutput_rate c2) F0) eqn:E2
    end;
    cbn [EvFilt_rate EvRead_rate EvOutput_rate set_EvFilt_rate
         set_EvOutput_rate] in *;
    split; try assumption; try apply SFltb_irrefl; reflexivity.
Qed.

Lemma input_rate_consistent (run : WaveDemoRun_t) (acq : float)
  (c : ChannelStats) :
  feq (EvInput_rate (input_rate run acq c)) Fm1 = true \/
  flt (EvInput_rate (input_rate run acq c))
      (EvRead_rate (input_rate run acq c)) = false.
Proof.
  unfold input_rate. cbv zeta.
  match goal with
  | |- context [if (fne (EvInput_rate ?c1) Fm1 && _)%bool then _ else _] =>
      set (c0 := c1)
  end.
  destruct (fne (EvInput_rate c0) Fm1 &&
            flt (EvInput_rate c0) (EvRead_rate c0))%bool eqn:E.
  - right. cbn [EvInput_rate EvRead_rate set_EvInput_rate].
    apply SFltb_irrefl.
  - apply andb_false_iff in E. destruct E as [E | E].
    + left. unfold fne in E. now apply negb_false_iff in E.
    + now right.
Qed.

Lemma clamp_lost_rate_consistent (c : ChannelStats) :
  fgt (EvLost_rate (clamp_lost_rate c)) (EvInput_rate (clamp_lost_rate c))
  = false.
Proof.
  unfold clamp_lost_rate.
  destruct (fgt (EvLost_rate c) (EvInput_rate c)) eqn:E; [| exact E].
  cbn [EvLost_rate EvInput_rate set_EvLost_rate]. apply SFltb_irrefl.
Qed.

Lemma dead_time_within_unit (c : ChannelStats) :
  within_unit (DeadTime (dead_time c)).
Proof.
  unfold dead_time. cbv zeta.
  match goal with
  | |- context [if flt (DeadTime ?c1) F0 then _ else _] => set (c0 := c1)
  end.
  pose proof (clamped_within_unit (DeadTime c0)) as H. cbv zeta in H.
  destruct (flt (DeadTime c0) F0);
    cbn [DeadTime set_DeadTime] in *;
    match goal with
    | |- context [if fgt ?x F1 then _ else _] => destruct (fgt x F1)
    end; exact H.
Qed.

Lemma busy_time_within_unit (c : ChannelStats) :
  within_unit (BusyTime (busy_time c)).
Proof.
  unfold busy_time. cbv zeta.
  match goal with
  | |- context [if flt (BusyTime ?c1) F0 then _ else _] => set (c0 := c1)
  end.
  pose proof (clamped_within_unit (BusyTime c0)) as H. cbv zeta in H.
  destruct (flt (BusyTime c0) F0);
    cbn [BusyTime set_BusyTime] in *;
    match goal with
    | |- context [if fgt ?x F1 then _ else _] => destruct (fgt x F1)
    end; exact H.
Qed.

(** What the stages after a given one leave alone. *)
Lemma input_rate_frame_after (c : ChannelStats) :
  let c' := save_counters (matching_ratio (busy_time (dead_time c))) in
  EvInput_rate c' = EvInput_rate c /\ EvLost_rate c' = EvLost_rate c /\
  EvRead_rate c' = EvRead_rate c /\ DeadTime c' = DeadTime (dead_time c) /\
  BusyTime c' = BusyTime (busy_time (dead_time c)).
Proof.
  cbv zeta.
  assert (D : EvInput_rate (dead_time c) = EvInput_rate c /\
              EvLost_rate (dead_time c) = EvLost_rate c /\
              EvRead_rate (dead_time c) = EvRead_rate c)
    by (unfold dead_time; stage_frame).
  set (c1 := dead_time c) in *.
  assert (B : EvInput_rate (busy_time c1) = EvInput_rate c1 /\
              EvLost_rate (busy_time c1) = EvLost_rate c1 /\
              EvRead_rate (busy_time c1) = EvRead_rate c1 /\
              DeadTime (busy_time c1) = DeadTime c1)
    by (unfold busy_time; stage_frame).
  set (c2 := busy_time c1) in *.
  assert (M : EvInput_rate (matching_ratio c2) = EvInput_rate c2 /\
              EvLost_rate (matching_ratio c2) = EvLost_rate c2 /\
              EvRead_rate (matching_ratio c2) = EvRead_rate c2 /\
              DeadTime (matching_ratio c2) = DeadTime c2 /\
              BusyTime (matching_ratio c2) = BusyTime c2)
    by (unfold matching_ratio; stage_frame).
  set (c3 := matching_ratio c2) in *.
  assert (S : EvInput_rate (save_counters c3) = EvInput_rate c3 /\
              EvLost_rate (save_counters c3) = EvLost_rate c3 /\
              EvRead_rate (save_counters c3) = EvRead_rate c3 /\
              DeadTime (save_counters c3) = DeadTime c3 /\
              BusyTime (save_counters c3) = BusyTime c3)
    by (unfold save_counters; cbv zeta; now repeat split).
  destruct D as (D1 & D2 & D3). destruct B as (B1 & B2 & B3 & B4).
  destruct M as (M1 & M2 & M3 & M4 & M5).
  destruct S as (S1 & S2 & S3 & S4 & S5).
  repeat split; congruence.
Qed.

Lemma update_channel_consistent (run : WaveDemoRun_t) (acq : float)
  (c : ChannelStats) : rates_consistent (update_channel run acq c).
Proof.
  destruct (update_channel_read_rates run acq c) as ((R1 & R2 & R3 & _) & _).
  destruct (read_rates_consistent run c) as (C1 & C2).
  unfold rates_consistent. rewrite R1, R2, R3.
  split; [exact C1 |]. split; [exact C2 |].
  unfold update_channel, computed_rates in *.
  set (c0 := read_rates run c) in *.
  set (c1 := input_rate run acq c0) in *.
  set (c2 := lost_rate run c1) in *.
  set (c3 := clamp_lost_rate c2) in *.
  destruct (input_rate_frame_after c3) as (F1' & F2 & F3 & F4 & F5).
  cbv zeta in F1', F2, F3, F4, F5.
  rewrite F1', F2, F4, F5.
  assert (I3 : EvInput_rate c3 = EvInput_rate c1).
  { transitivity (EvInput_rate c2); [| apply lost_rate_input_frame].
    unfold c3, clamp_lost_rate. split_ifs; reflexivity. }
  assert (Rd : EvRead_rate c1 = EvRead_rate c0)
    by (exact (proj1 (input_rate_read_frame run acq c0))).
  split; [| split; [apply clamp_lost_rate_consistent |
                    split; [apply dead_time_within_unit |
                            apply busy_time_within_unit]]].
  rewrite I3, <- Rd. apply input_rate_consistent.
Qed.

(** X14.  Whatever the counters hold, the figures [UpdateStatistics]
    stores for a channel it visits respect the corrections of the code: the
    filtered rate does not exceed the read rate, the output rate is not
    negative, the input rate is the sentinel -1 or not below the read rate,
    the lost rate does not exceed the input rate, and the dead time and the
    busy time are neither below 0 nor above 1 (comparisons of binary32
    values, as the code makes them). *)
Theorem stored_rates_are_consistent
  (cfg : WaveDemoConfig_t) (run : WaveDemoRun_t) (t : Z)
  (s : WaveDemoStats_t) (b ch : nat) :
  (b < Z.to_nat (NumBoards cfg))%nat ->
  channel_on cfg b ch = true ->
  rates_consistent (chan (snd (UpdateStatistics cfg run t s)) b ch).
Proof.
  intros Hb Hc. rewrite (after_is_update_channel _ _ _ _ _ _ Hb Hc).
  apply update_channel_consistent.
Qed.

Lemma stored_rates_are_consistent_witness :
  (0 < Z.to_nat (NumBoards (boards_cfg 1)))%nat /\
  channel_on (boards_cfg 1) 0 0 = true /\
  rates_consistent
    (chan (snd (UpdateStatistics (boards_cfg 1) running 1000
                  inconsistent_stats)) 0 0).
Proof.
  assert (Hb : (0 < Z.to_nat (NumBoards (boards_cfg 1)))%nat)
    by (cbn; lia).
  assert (Hc : channel_on (boards_cfg 1) 0 0 = true) by reflexivity.
  split; [exact Hb |]. split; [exact Hc |].
  exact (stored_rates_are_consistent (boards_cfg 1) running 1000
           inconsistent_stats 0 0 Hb Hc).
Defined.

(** ** Two updates in a row *)

Lemma same_snapshot_trans (a b c : ChannelStats) :
  same_snapshot a b -> same_snapshot b c -> same_snapshot a c.
Proof.
  unfold same_snapshot.
  intros (A1 & A2 & A3 & A4 & A5 & A6) (B1 & B2 & B3 & B4 & B5 & B6).
  repeat split; congruence.
Qed.

Lemma rates_keep_snapshot (run : WaveDemoRun_t) (acq : float)
  (c : ChannelStats) :
  same_snapshot c (dead_time (clamp_lost_rate (computed_rates run acq c))).
Proof.
  unfold computed_rates.
  set (c0 := read_rates run c). set (c1 := input_rate run acq c0).
  set (c2 := lost_rate run c1). set (c3 := clamp_lost_rate c2).
  assert (H0 : same_snapshot c c0)
    by (unfold c0, same_snapshot, read_rates; stage_frame).
  assert (H1 : same_snapshot c0 c1)
    by (unfold c1, same_snapshot, input_rate; stage_frame).
  assert (H2 : same_snapshot c1 c2)
    by (unfold c2, same_snapshot, lost_rate; stage_frame).
  assert (H3 : same_snapshot c2 c3)
    by (unfold c3, same_snapshot, clamp_lost_rate; stage_frame).
  assert (H4 : same_snapshot c3 (dead_time c3))
    by (unfold same_snapshot, dead_time; stage_frame).
  eauto using same_snapshot_trans.
Qed.

Lemma save_counters_snapshot (c : ChannelStats) :
  snapshot_taken (save_counters c).
Proof. unfold snapshot_taken, save_counters. cbv zeta. now repeat split. Qed.

Lemma update_channel_snapshot (run : WaveDemoRun_t) (acq : float)
  (c : ChannelStats) : snapshot_taken (update_channel run acq c).
Proof. unfold update_channel. apply save_counters_snapshot. Qed.

Lemma busy_time_quiet (c : ChannelStats) :
  LatestReadTstamp c <= PrevReadTstamp c ->
  BusyTime (busy_time c) = F0 /\ same_snapshot c (busy_time c).
Proof.
  intros H. unfold busy_time. cbv zeta.
  cbn [LatestReadTstamp PrevReadTstamp set_BusyTime].
  replace (LatestReadTstamp c >? PrevReadTstamp c) with false
    by (symmetry; rewrite Z.gtb_ltb; apply Z.ltb_ge; exact H).
  cbn [BusyTime set_BusyTime].
  replace (flt F0 F0) with false by reflexivity.
  cbn [BusyTime set_BusyTime].
  replace (fgt F0 F1) with false by reflexivity.
  split; [reflexivity | now repeat split].
Qed.

Lemma matching_ratio_quiet (c : ChannelStats) :
  EvProcessed_cnt c <= EvProcessed_pcnt c ->
  MatchingRatio (matching_ratio c) = F0 /\
  BusyTime (matching_ratio c) = BusyTime c /\
  EvRead_cnt (matching_ratio c) = EvRead_cnt c /\
  EvRead_pcnt (matching_ratio c) = EvRead_pcnt c.
Proof.
  intros H. unfold matching_ratio.
  replace (EvProcessed_cnt c >? EvProcessed_pcnt c) with false
    by (symmetry; rewrite Z.gtb_ltb; apply Z.ltb_ge; exact H).
  now repeat split.
Qed.

Lemma save_counters_figures (c : ChannelStats) :
  EvRead_dcnt (save_counters c) = u64 (EvRead_cnt c - EvRead_pcnt c) /\
  MatchingRatio (save_counters c) = MatchingRatio c /\
  BusyTime (save_counters c) = BusyTime c.
Proof. unfold save_counters. cbv zeta. now repeat split. Qed.

Lemma quiet_stages (c : ChannelStats) :
  LatestReadTstamp c <= PrevReadTstamp c ->
  EvProcessed_cnt c <= EvProcessed_pcnt c ->
  EvRead_cnt c = EvRead_pcnt c ->
  EvRead_dcnt (save_counters (matching_ratio (busy_time c))) = 0 /\
  MatchingRatio (save_counters (matching_ratio (busy_time c))) = F0 /\
  BusyTime (save_counters (matching_ratio (busy_time c))) = F0.
Proof.
  intros H1 H2 H3.
  destruct (busy_time_quiet c H1) as (B0 & (B1 & B2 & B3 & B4 & _ & _)).
  destruct (matching_ratio_quiet (busy_time c)) as (M0 & M1 & M2 & M3);
    [lia |].
  destruct (save_counters_figures (matching_ratio (busy_time c)))
    as (S0 & S1 & S2).
  rewrite S0, S1, S2, M0, M1, M2, M3, B0, B1, B2.
  split; [| split; reflexivity].
  replace (EvRead_cnt c - EvRead_pcnt c) with 0 by lia. reflexivity.
Qed.

(** A channel whose snapshot is up to date shows no activity. *)
Lemma update_channel_quiet (run : WaveDemoRun_t) (acq : float)
  (c : ChannelStats) :
  snapshot_taken c ->
  EvRead_dcnt (update_channel run acq c) = 0 /\
  MatchingRatio (update_channel run acq c) = F0 /\
  BusyTime (update_channel run acq c) = F0.
Proof.
  intros (S1 & S2 & S3 & S4 & S5 & S6).
  destruct (rates_keep_snapshot run acq c) as (K1 & K2 & K3 & K4 & K5 & K6).
  unfold update_channel. apply quiet_stages; lia.
Qed.

Lemma UpdateStatistics_scalars (cfg : WaveDemoConfig_t) (run : WaveDemoRun_t)
  (t : Z) (s : WaveDemoStats_t) :
  let s' := snd (UpdateStatistics cfg run t s) in
  PrevProcTstampAll s' = LatestProcTstampAll s /\
  LatestProcTstampAll s' = LatestProcTstampAll s /\
  StartTime s' = StartTime s /\
  LastUpdateTime s' = t /\ BlockRead_cnt s' = 0 /\
  RxByte_pcnt s' = RxByte_cnt s /\
  RealTimeSource s'
  = (if LatestProcTstampAll s >? PrevProcTstampAll s
     then REALTIME_FROM_BOARDS else REALTIME_FROM_COMPUTER) /\
  AcqRealTime s'
  = (if LatestProcTstampAll s >? PrevProcTstampAll s
     then fdiv (f32_of_Z (LatestProcTstampAll s)) F1e6
     else f32_of_Z (u64 (t - StartTime s))).
Proof.
  cbv zeta. rewrite UpdateStatistics_globals.
  cbn [PrevProcTstampAll LatestProcTstampAll StartTime LastUpdateTime
       BlockRead_cnt RxByte_pcnt RealTimeSource AcqRealTime set_chan
       set_PrevProcTstampAll].
  unfold update_globals. cbv zeta.
  destruct (LatestProcTstampAll s >? PrevProcTstampAll s);
    destruct (truthy (IntegratedRates run)); now repeat split.
Qed.

(** X15.  An update that follows another one with no acquisition in
    between reports no activity.  After any call of [UpdateStatistics] the
    snapshot of every visited channel equals the counters; so a second call
    (at any time [t2]) takes the real time from the computer clock,
    [CurrentTime - StartTime], and stores for every visited channel a
    zero count of newly read events, a zero matching ratio and a zero busy
    time, the counters being still the ones of the start. *)
Theorem second_update_reports_no_activity
  (cfg : WaveDemoConfig_t) (run : WaveDemoRun_t) (t1 t2 : Z)
  (s : WaveDemoStats_t) :
  let s1 := snd (UpdateStatistics cfg run t1 s) in
  let s2 := snd (UpdateStatistics cfg run t2 s1) in
  PrevProcTstampAll s1 = LatestProcTstampAll s1 /\
  RealTimeSource s2 = REALTIME_FROM_COMPUTER /\
  AcqRealTime s2 = f32_of_Z (u64 (t2 - StartTime s)) /\
  forall b ch,
    (b < Z.to_nat (NumBoards cfg))%nat ->
    channel_on cfg b ch = true ->
    snapshot_taken (chan s1 b ch) /\
    EvRead_dcnt (chan s2 b ch) = 0 /\
    MatchingRatio (chan s2 b ch) = F0 /\
    BusyTime (chan s2 b ch) = F0 /\
    same_counters (chan s b ch) (chan s2 b ch).
Proof.
  intros s1 s2.
  destruct (UpdateStatistics_scalars cfg run t1 s)
    as (P1 & L1 & T1 & _). fold s1 in P1, L1, T1.
  destruct (UpdateStatistics_scalars cfg run t2 s1)
    as (_ & _ & _ & _ & _ & _ & R2 & A2). fold s2 in R2, A2.
  rewrite P1, L1 in R2, A2.
  replace (LatestProcTstampAll s >? LatestProcTstampAll s) with false
    in R2, A2 by (symmetry; rewrite Z.gtb_ltb; apply Z.ltb_irrefl).
  split; [congruence |]. split; [exact R2 |].
  split; [rewrite A2, T1; reflexivity |].
  intros b ch Hb Hc.
  assert (Hs1 : snapshot_taken (chan s1 b ch)).
  { unfold s1. rewrite (after_is_update_channel _ _ _ _ _ _ Hb Hc).
    apply update_channel_snapshot. }
  split; [exact Hs1 |].
  assert (E2 : chan s2 b ch
               = update_channel run (AcqRealTime (update_globals run t2 s1))
                   (chan s1 b ch))
    by (unfold s2; apply (after_is_update_channel _ _ _ _ _ _ Hb Hc)).
  destruct (update_channel_quiet run
              (AcqRealTime (update_globals run t2 s1)) (chan s1 b ch) Hs1)
    as (Q1 & Q2 & Q3).
  rewrite E2. repeat (split; [assumption |]).
  apply (same_counters_trans _ (chan s1 b ch)).
  - unfold s1. rewrite (after_is_update_channel _ _ _ _ _ _ Hb Hc).
    apply update_channel_counters.
  - apply update_channel_counters.
Qed.

(** ** The real time: [UpdateTimes4Stats] and [UpdateStatistics] *)

Lemma UpdateTimes4Stats_scalars (bd ch : nat) (e : WaveDemoEvent_t)
  (s : WaveDemoStats_t) :
  LatestProcTstampAll (UpdateTimes4Stats bd ch e s)
  = Z.max (LatestProcTstampAll s) (event_time ch e) /\
  PrevProcTstampAll (UpdateTimes4Stats bd ch e s) = PrevProcTstampAll s /\
  StartTime (UpdateTimes4Stats bd ch e s) = StartTime s /\
  AcqStopTime (UpdateTimes4Stats bd ch e s)
  = float_of_double
      (ddiv (f64_of_Z (Z.max (LatestProcTstampAll s) (event_time ch e)))
            D1e6).
Proof.
  unfold UpdateTimes4Stats, event_time. cbv zeta.
  set (time := u64 (DataGroup_TDC e (Nat.div ch 2) * 5)).
  destruct (Z.gtb_spec time (LatestProcTstampAll s)) as [Hgt | Hle];
    cbn [LatestProcTstampAll PrevProcTstampAll StartTime AcqStopTime on_chan
         set_chan set_AcqStopTime set_LatestProcTstampAll].
  - rewrite Z.max_r by lia. now repeat split.
  - rewrite Z.max_l by lia. now repeat split.
Qed.

Lemma record_times_scalars (calls : list (nat * nat * WaveDemoEvent_t)) :
  forall s,
    LatestProcTstampAll (record_times calls s)
    = newest_time calls (LatestProcTstampAll s) /\
    PrevProcTstampAll (record_times calls s) = PrevProcTstampAll s /\
    StartTime (record_times calls s) = StartTime s.
Proof.
  induction calls as [| [[bd ch] e] rest IH]; intros s.
  - now repeat split.
  - unfold record_times, newest_time. cbn [fold_left].
    fold (record_times rest (UpdateTimes4Stats bd ch e s)).
    fold (newest_time rest
            (Z.max (LatestProcTstampAll s) (event_time ch e))).
    destruct (IH (UpdateTimes4Stats bd ch e s)) as (I1 & I2 & I3).
    destruct (UpdateTimes4Stats_scalars bd ch e s) as (U1 & U2 & U3 & _).
    rewrite I1, I2, I3, U1, U2, U3. now repeat split.
Qed.

Lemma record_times_stop_time (calls : list (nat * nat * WaveDemoEvent_t)) :
  forall s,
    calls <> [] ->
    AcqStopTime (record_times calls s)
    = float_of_double
        (ddiv (f64_of_Z (LatestProcTstampAll (record_times calls s))) D1e6).
Proof.
  induction calls as [| [[bd ch] e] rest IH]; intros s Hne; [congruence |].
  unfold record_times. cbn [fold_left].
  fold (record_times rest (UpdateTimes4Stats bd ch e s)).
  destruct rest as [| c rest'].
  - cbn [record_times fold_left].
    destruct (UpdateTimes4Stats_scalars bd ch e s) as (U1 & _ & _ & U4).
    now rewrite U4, U1.
  - apply IH. discriminate.
Qed.

Lemma newest_time_spec (calls : list (nat * nat * WaveDemoEvent_t)) :
  forall base,
    base <= newest_time calls base /\
    (base < newest_time calls base <->
     exists bd ch e, In (bd, ch, e) calls /\ base < event_time ch e).
Proof.
  induction calls as [| [[bd ch] e] rest IH]; intros base.
  - split; [cbn; lia |]. split; [cbn; lia |].
    intros (? & ? & ? & [] & _).
  - unfold newest_time. cbn [fold_left].
    fold (newest_time rest (Z.max base (event_time ch e))).
    destruct (IH (Z.max base (event_time ch e))) as (I1 & I2).
    split; [lia |]. split.
    + intros Hlt. destruct (Z_lt_le_dec base (event_time ch e)) as [L | L].
      * exists bd, ch, e. split; [now left | exact L].
      * rewrite Z.max_l in I1, I2, Hlt by lia.
        destruct (proj1 I2 Hlt) as (bd' & ch' & e' & Hin & Hn).
        exists bd', ch', e'. split; [now right | exact Hn].
    + intros (bd' & ch' & e' & [Heq | Hin] & Hn).
      * injection Heq as -> -> ->. lia.
      * destruct (Z_lt_le_dec (Z.max base (event_time ch e))
                    (event_time ch' e')) as [L | L].
        -- assert (Z.max base (event_time ch e)
                   < newest_time rest (Z.max base (event_time ch e))).
           { apply I2. exists bd', ch', e'. now split. }
           lia.
        -- lia.
Qed.

(** X16.  The real time of the acquisition follows the newest event.
    [UpdateTimes4Stats] never lets [LatestProcTstampAll] go back: after
    the events decoded since the last update it is the newest of its old
    value and their time stamps, and [AcqStopTime] is that time in ms.
    The next [UpdateStatistics] takes the
    real time from the boards, [LatestProcTstampAll / 1e6], exactly when
    one of these events is newer than everything seen at the previous
    update; otherwise it falls back to the computer clock,
    [CurrentTime - StartTime]. *)
Theorem real_time_follows_the_newest_event
  (cfg : WaveDemoConfig_t) (run : WaveDemoRun_t) (t1 t2 : Z)
  (s : WaveDemoStats_t) (calls : list (nat * nat * WaveDemoEvent_t)) :
  let s1 := snd (UpdateStatistics cfg run t1 s) in
  let s2 := record_times calls s1 in
  let s3 := snd (UpdateStatistics cfg run t2 s2) in
  let newer := exists bd ch e, In (bd, ch, e) calls /\
                               LatestProcTstampAll s < event_time ch e in
  LatestProcTstampAll s2 = newest_time calls (LatestProcTstampAll s) /\
  LatestProcTstampAll s <= LatestProcTstampAll s2 /\
  (calls <> [] ->
   AcqStopTime s2
   = float_of_double (ddiv (f64_of_Z (LatestProcTstampAll s2)) D1e6)) /\
  (RealTimeSource s3 = REALTIME_FROM_BOARDS <-> newer) /\
  (RealTimeSource s3 = REALTIME_FROM_COMPUTER <-> ~ newer) /\
  (newer ->
   AcqRealTime s3 = fdiv (f32_of_Z (LatestProcTstampAll s2)) F1e6) /\
  (~ newer -> AcqRealTime s3 = f32_of_Z (u64 (t2 - StartTime s))).
Proof.
  intros s1 s2 s3 newer.
  destruct (UpdateStatistics_scalars cfg run t1 s)
    as (P1 & L1 & T1 & _). fold s1 in P1, L1, T1.
  destruct (record_times_scalars calls s1) as (L2 & P2 & T2).
  fold s2 in L2, P2, T2. rewrite L1 in L2. rewrite P1 in P2.
  rewrite T1 in T2.
  destruct (UpdateStatistics_scalars cfg run t2 s2)
    as (_ & _ & _ & _ & _ & _ & R3 & A3). fold s3 in R3, A3.
  rewrite P2 in R3, A3. rewrite T2 in A3.
  destruct (newest_time_spec calls (LatestProcTstampAll s)) as (N1 & N2).
  rewrite <- L2 in N1, N2. fold newer in N2.
  split; [exact L2 |]. split; [exact N1 |].
  split; [apply record_times_stop_time |].
  destruct (Z.gtb_spec (LatestProcTstampAll s2) (LatestProcTstampAll s))
    as [Hgt | Hle].
  - assert (Hn : newer) by (apply N2; lia).
    rewrite R3, A3. split; [tauto |]. split; [| tauto].
    split; [discriminate | tauto].
  - assert (Hn : ~ newer) by (intros H; apply N2 in H; lia).
    rewrite R3, A3. split; [| tauto].
    split; [discriminate | tauto].
Qed.

(** ** [ResetStatistics] *)

Lemma update_channel_zero (run : WaveDemoRun_t) (acq : float) :
  update_channel run acq zero_channel = zero_channel.
Proof.
  unfold update_channel, computed_rates.
  assert (H0 : read_rates run zero_channel = zero_channel).
  { unfold read_rates. cbv zeta.
    destruct (truthy (IntegratedRates run)); reflexivity. }
  rewrite H0.
  assert (H1 : input_rate run acq zero_channel = zero_channel).
  { unfold input_rate. cbv zeta.
    destruct (truthy (AcqRun run)); reflexivity. }
  rewrite H1.
  assert (H2 : lost_rate run zero_channel = zero_channel).
  { unfold lost_rate. destruct (truthy (IntegratedRates run)); reflexivity. }
  rewrite H2. reflexivity.
Qed.

(** X17.  [ResetStatistics] zeroes every counter, rate and snapshot and
    records the start time when the acquisition runs; an update made right
    afterwards, before any event was counted, leaves every figure of every
    channel at zero, whatever the mode and the configuration, and takes the
    real time from the computer clock. *)
Theorem fresh_statistics_show_zero
  (cfg : WaveDemoConfig_t) (run : WaveDemoRun_t) (now t : Z) :
  let s0 := snd (ResetStatistics run now) in
  let s1 := snd (UpdateStatistics cfg run t s0) in
  fst (ResetStatistics run now) = 0 /\
  StartTime s0 = (if truthy (AcqRun run) then u64 now else 0) /\
  (forall b ch, chan s0 b ch = zero_channel) /\
  (forall b ch, chan s1 b ch = zero_channel) /\
  RealTimeSource s1 = REALTIME_FROM_COMPUTER /\
  AcqRealTime s1 = f32_of_Z (u64 (t - StartTime s0)).
Proof.
  intros s0 s1. split; [reflexivity |].
  assert (Hc0 : forall b ch, chan s0 b ch = zero_channel).
  { intros b ch. unfold s0, ResetStatistics. cbn [snd].
    destruct (truthy (AcqRun run)); reflexivity. }
  assert (HL : LatestProcTstampAll s0 = 0 /\ PrevProcTstampAll s0 = 0).
  { unfold s0, ResetStatistics. cbn [snd].
    destruct (truthy (AcqRun run)); split; reflexivity. }
  split.
  { unfold s0, ResetStatistics. cbn [snd].
    destruct (truthy (AcqRun run)); reflexivity. }
  split; [exact Hc0 |]. split.
  { intros b ch. unfold s1. rewrite UpdateStatistics_cell, Hc0.
    destruct (_ && _)%bool; [apply update_channel_zero | reflexivity]. }
  destruct (UpdateStatistics_scalars cfg run t s0)
    as (_ & _ & _ & _ & _ & _ & R & A). fold s1 in R, A.
  destruct HL as (HL & HP). rewrite HL, HP in R, A.
  split; [exact R | exact A].
Qed.

(** ** Histograms *)

Lemma last_bin_bound (n : Z) :
  1 <= n < 2 ^ 31 -> int_of_uint32 (u32 (n - 1)) = n - 1.
Proof.
  intros H. unfold u32. rewrite Z.mod_small by lia.
  apply int_of_uint32_small. lia.
Qed.

Lemma Histo1D_AddCount_spec (h : Histogram1D_t) (Bin : Z) :
  1 <= Nbin h < 2 ^ 31 ->
  let r := Histo1D_AddCount h Bin in
  (fst r = 0 <-> 0 <= Bin < Nbin h - 1) /\
  (fst r = 0 \/ fst r = -1) /\
  Nbin (snd r) = Nbin h /\
  (0 <= Bin < Nbin h - 1 ->
   H_data (snd r) Bin = u32 (H_data h Bin + 1) /\
   (forall i, i <> Bin -> H_data (snd r) i = H_data h i) /\
   H_cnt (snd r) = u32 (H_cnt h + 1) /\
   Ovf_cnt (snd r) = Ovf_cnt h /\ Unf_cnt (snd r) = Unf_cnt h) /\
  (Bin < 0 ->
   H_data (snd r) = H_data h /\ H_cnt (snd r) = H_cnt h /\
   Ovf_cnt (snd r) = Ovf_cnt h /\ Unf_cnt (snd r) = u32 (Unf_cnt h + 1)) /\
  (Nbin h - 1 <= Bin ->
   H_data (snd r) = H_data h /\ H_cnt (snd r) = H_cnt h /\
   Ovf_cnt (snd r) = u32 (Ovf_cnt h + 1) /\ Unf_cnt (snd r) = Unf_cnt h).
Proof.
  intros Hn. cbv zeta. unfold Histo1D_AddCount.
  rewrite last_bin_bound by exact Hn.
  destruct (Z.ltb_spec Bin 0) as [Hneg | Hpos].
  - cbn [fst snd H_data Nbin H_cnt Ovf_cnt Unf_cnt].
    split; [split; [discriminate | lia] |]. split; [now right |].
    split; [reflexivity |]. split; [lia |]. split; [now repeat split | lia].
  - destruct (Z.geb_spec Bin (Nbin h - 1)) as [Hov | Hin].
    + cbn [fst snd H_data Nbin H_cnt Ovf_cnt Unf_cnt].
      split; [split; [discriminate | lia] |]. split; [now right |].
      split; [reflexivity |]. split; [lia |].
      split; [lia | now repeat split].
    + cbn [fst snd H_data Nbin H_cnt Ovf_cnt Unf_cnt].
      split; [split; [lia | reflexivity] |]. split; [now left |].
      split; [reflexivity |]. split; [| split; lia].
      intros _. rewrite Z.eqb_refl. split; [reflexivity |].
      split; [| now repeat split].
      intros i Hi. destruct (Z.eqb_spec i Bin); [contradiction | reflexivity].
Qed.

(** X18.  [Histo1D_AddCount] on a histogram of [Nbin] bins (at least one,
    fewer than 2^31) returns 0 exactly for [0 <= Bin < Nbin - 1], and then
    raises that cell and [H_cnt] by one; a negative [Bin] raises [Unf_cnt]
    and [Bin >= Nbin - 1] raises [Ovf_cnt], both return -1 and leave the
    cells alone.  So the last allocated cell, [Nbin - 1], is never filled:
    a value that falls into it is counted as an overflow. *)
Theorem add_count_never_fills_the_last_bin (h : Histogram1D_t) (Bin : Z) :
  1 <= Nbin h < 2 ^ 31 ->
  let r := Histo1D_AddCount h Bin in
  (fst r = 0 <-> 0 <= Bin < Nbin h - 1) /\
  (fst r = 0 \/ fst r = -1) /\
  Nbin (snd r) = Nbin h /\
  (0 <= Bin < Nbin h - 1 ->
   H_data (snd r) Bin = u32 (H_data h Bin + 1) /\
   (forall i, i <> Bin -> H_data (snd r) i = H_data h i) /\
   H_cnt (snd r) = u32 (H_cnt h + 1) /\
   Ovf_cnt (snd r) = Ovf_cnt h /\ Unf_cnt (snd r) = Unf_cnt h) /\
  (Bin < 0 ->
   H_data (snd r) = H_data h /\ H_cnt (snd r) = H_cnt h /\
   Ovf_cnt (snd r) = Ovf_cnt h /\ Unf_cnt (snd r) = u32 (Unf_cnt h + 1)) /\
  (Nbin h - 1 <= Bin ->
   H_data (snd r) = H_data h /\ H_cnt (snd r) = H_cnt h /\
   Ovf_cnt (snd r) = u32 (Ovf_cnt h + 1) /\ Unf_cnt (snd r) = Unf_cnt h).
Proof. exact (Histo1D_AddCount_spec h Bin). Qed.

Lemma add_count_never_fills_the_last_bin_witness :
  1 <= Nbin (blank_histogram 1024) < 2 ^ 31 /\
  fst (Histo1D_AddCount (blank_histogram 1024) 1023) = -1 /\
  Ovf_cnt (snd (Histo1D_AddCount (blank_histogram 1024) 1023)) = 1 /\
  H_data (snd (Histo1D_AddCount (blank_histogram 1024) 1023)) 1023 = 0.
Proof.
  assert (Hn : 1 <= Nbin (blank_histogram 1024) < 2 ^ 31) by (cbn; lia).
  split; [exact Hn |].
  destruct (add_count_never_fills_the_last_bin (blank_histogram 1024) 1023 Hn)
    as (H1 & H2 & _ & _ & _ & H6).
  destruct (H6 ltac:(cbn; lia)) as (D & _ & O & _).
  split.
  - destruct H2 as [H2 | H2]; [| exact H2].
    apply H1 in H2. cbn in H2. lia.
  - split; [rewrite O; reflexivity | rewrite D; reflexivity].
Defined.

Lemma count_bins_cons (p : Z -> bool) (b : Z) (bins : list Z) :
  count_bins p (b :: bins) = (if p b then 1 else 0) + count_bins p bins.
Proof.
  unfold count_bins. cbn [filter]. destruct (p b); cbn [List.length]; lia.
Qed.

Lemma count_bins_bounds (p : Z -> bool) (bins : list Z) :
  0 <= count_bins p bins <= Z.of_nat (List.length bins).
Proof.
  induction bins as [| b bins IH]; [unfold count_bins; cbn; lia |].
  rewrite count_bins_cons. cbn [List.length]. destruct (p b); lia.
Qed.

(** A run of calls without wrap-around of the 32-bit counters. *)
Lemma fill_histogram_spec (bins : list Z) :
  forall h,
    1 <= Nbin h < 2 ^ 31 ->
    0 <= H_cnt h -> 0 <= Unf_cnt h -> 0 <= Ovf_cnt h ->
    H_cnt h + Z.of_nat (List.length bins) < 2 ^ 32 ->
    Unf_cnt h + Z.of_nat (List.length bins) < 2 ^ 32 ->
    Ovf_cnt h + Z.of_nat (List.length bins) < 2 ^ 32 ->
    (forall i, fills_a_cell (Nbin h) i = true ->
               0 <= H_data h i /\
               H_data h i + Z.of_nat (List.length bins) < 2 ^ 32) ->
    let h' := fill_histogram bins h in
    Nbin h' = Nbin h /\
    H_cnt h' = H_cnt h + count_bins (fills_a_cell (Nbin h)) bins /\
    Unf_cnt h' = Unf_cnt h + count_bins (fun b => b <? 0) bins /\
    Ovf_cnt h' = Ovf_cnt h + count_bins (fun b => b >=? Nbin h - 1) bins /\
    forall i,
      H_data h' i =
      H_data h i + (if fills_a_cell (Nbin h) i
                    then count_bins (Z.eqb i) bins else 0).
Proof.
  induction bins as [| b bins IH]; intros h Hn Hc Hu Ho Bc Bu Bo Bd.
  - cbv zeta. cbn [fill_histogram fold_left]. unfold count_bins. cbn.
    repeat (split; [lia |]). intros i. destruct (fills_a_cell _ i); lia.
  - cbv zeta. unfold fill_histogram. cbn [fold_left].
    fold (fill_histogram bins (snd (Histo1D_AddCount h b))).
    cbn [List.length] in Bc, Bu, Bo, Bd.
    destruct (Histo1D_AddCount_spec h b Hn) as (_ & _ & N1 & Hin & Hneg & Hov).
    cbv zeta in N1, Hin, Hneg, Hov.
    set (h1 := snd (Histo1D_AddCount h b)) in *.
    rewrite !count_bins_cons.
    assert (u32_small : forall x, 0 <= x < 2 ^ 32 -> u32 x = x)
      by (intros x Hx; unfold u32; now apply Z.mod_small).
    destruct (Z.ltb_spec b 0) as [Lneg | Lpos].
    + destruct (Hneg Lneg) as (D & C & O & U).
      rewrite u32_small in U by lia.
      destruct (IH h1) as (I1 & I2 & I3 & I4 & I5);
        try rewrite N1; try rewrite C; try rewrite O; try rewrite U;
        try rewrite D; try lia; try assumption.
      { intros i Hi. specialize (Bd i Hi). lia. }
      rewrite N1, C, O, U, D in *.
      assert (Ef : fills_a_cell (Nbin h) b = false).
      { unfold fills_a_cell. destruct (Z.leb_spec 0 b); [lia | reflexivity]. }
      assert (Eo : (b >=? Nbin h - 1) = false).
      { destruct (Z.geb_spec b (Nbin h - 1)); [lia | reflexivity]. }
      rewrite Ef, Eo. split; [exact I1 |]. split; [lia |]. split; [lia |].
      split; [lia |]. intros i. rewrite I5, count_bins_cons.
      destruct (fills_a_cell (Nbin h) i) eqn:Ei; [| reflexivity].
      destruct (Z.eqb_spec i b) as [-> | _]; [congruence | lia].
    + destruct (Z_lt_le_dec b (Nbin h - 1)) as [Lin | Lov].
      * destruct (Hin ltac:(lia)) as (D & Dn & C & O & U).
        assert (Ef : fills_a_cell (Nbin h) b = true).
        { unfold fills_a_cell. apply andb_true_intro.
          split; [apply Z.leb_le | apply Z.ltb_lt]; lia. }
        destruct (Bd b Ef) as (Bd0 & Bd1).
        rewrite u32_small in C, D by lia.
        assert (Eo : (b >=? Nbin h - 1) = false).
        { destruct (Z.geb_spec b (Nbin h - 1)); [lia | reflexivity]. }
        destruct (IH h1) as (I1 & I2 & I3 & I4 & I5);
          try rewrite N1; try rewrite C; try rewrite O; try rewrite U;
          try lia; try assumption.
        { intros i Hi. specialize (Bd i Hi).
          destruct (Z.eq_dec i b) as [-> | Hne];
            [rewrite D | rewrite (Dn i Hne)]; lia. }
        rewrite N1, C, O, U in *. rewrite Ef, Eo.
        split; [exact I1 |]. split; [lia |]. split; [lia |]. split; [lia |].
        intros i. rewrite I5, count_bins_cons.
        destruct (Z.eq_dec i b) as [-> | Hne].
        -- rewrite D, Ef, Z.eqb_refl. lia.
        -- rewrite (Dn i Hne).
           destruct (fills_a_cell (Nbin h) i); [| reflexivity].
           destruct (Z.eqb_spec i b); [contradiction | lia].
      * destruct (Hov Lov) as (D & C & O & U).
        rewrite u32_small in O by lia.
        destruct (IH h1) as (I1 & I2 & I3 & I4 & I5);
          try rewrite N1; try rewrite C; try rewrite O; try rewrite U;
          try rewrite D; try lia; try assumption.
        { intros i Hi. specialize (Bd i Hi). lia. }
        rewrite N1, C, O, U, D in *.
        assert (Ef : fills_a_cell (Nbin h) b = false).
        { unfold fills_a_cell. destruct (Z.ltb_spec b (Nbin h - 1));
            [lia | apply andb_false_r]. }
        assert (Eo : (b >=? Nbin h - 1) = true).
        { destruct (Z.geb_spec b (Nbin h - 1)); [reflexivity | lia]. }
        rewrite Ef, Eo. split; [exact I1 |]. split; [lia |]. split; [lia |].
        split; [lia |]. intros i. rewrite I5, count_bins_cons.
        destruct (fills_a_cell (Nbin h) i) eqn:Ei; [| reflexivity].
        destruct (Z.eqb_spec i b) as [-> | _]; [congruence | lia].
Qed.

Lemma sum_cells_ext (m : nat) (f g : Z -> Z) :
  (forall i, 0 <= i < Z.of_nat m -> f i = g i) ->
  sum_cells m f = sum_cells m g.
Proof.
  induction m as [| m IH]; intros H; [reflexivity |].
  cbn [sum_cells]. rewrite IH, H by (intros; try apply H; lia). reflexivity.
Qed.

Lemma sum_cells_add (m : nat) (f g : Z -> Z) :
  sum_cells m (fun i => f i + g i) = sum_cells m f + sum_cells m g.
Proof.
  induction m as [| m IH]; [reflexivity |]. cbn [sum_cells]. rewrite IH. lia.
Qed.

Lemma sum_cells_indicator (m : nat) (b : Z) :
  sum_cells m (fun i => if i =? b then 1 else 0)
  = if ((0 <=? b) && (b <? Z.of_nat m))%bool then 1 else 0.
Proof.
  induction m as [| m IH].
  - cbn [sum_cells]. destruct (Z.leb_spec 0 b), (Z.ltb_spec b (Z.of_nat 0));
      cbn [andb]; try reflexivity; lia.
  - cbn [sum_cells]. rewrite IH.
    destruct (Z.eqb_spec (Z.of_nat m) b) as [E | Hne];
      destruct (Z.leb_spec 0 b), (Z.ltb_spec b (Z.of_nat m)),
               (Z.ltb_spec b (Z.of_nat (S m)));
      cbn [andb]; try reflexivity; lia.
Qed.

Lemma sum_cells_counts (m : nat) (bins : list Z) :
  sum_cells m (fun i => count_bins (Z.eqb i) bins)
  = count_bins (fun b => ((0 <=? b) && (b <? Z.of_nat m))%bool) bins.
Proof.
  induction bins as [| b bins IH].
  - unfold count_bins. cbn [filter List.length].
    induction m as [| m IHm]; [reflexivity |]. cbn [sum_cells].
    rewrite IHm. reflexivity.
  - rewrite count_bins_cons, <- IH, <- sum_cells_indicator, <- sum_cells_add.
    apply sum_cells_ext. intros i _. apply count_bins_cons.
Qed.

Lemma count_bins_partition (n : Z) (bins : list Z) :
  1 <= n ->
  count_bins (fills_a_cell n) bins + count_bins (fun b => b <? 0) bins
  + count_bins (fun b => b >=? n - 1) bins
  = Z.of_nat (List.length bins).
Proof.
  intros Hn. induction bins as [| b bins IH]; [reflexivity |].
  rewrite !count_bins_cons. cbn [List.length]. unfold fills_a_cell at 1.
  cbv beta.
  destruct (Z.leb_spec 0 b), (Z.ltb_spec b (n - 1)), (Z.ltb_spec b 0),
           (Z.geb_spec b (n - 1)); cbn [andb]; lia.
Qed.

Lemma histogram_tally (h0 : Histogram1D_t) (bins : list Z) :
  1 <= Nbin h0 < 2 ^ 31 ->
  Z.of_nat (List.length bins) < 2 ^ 32 ->
  let n := Nbin h0 in
  let h := fill_histogram bins (snd (ResetHistogram1D h0)) in
  Nbin h = n /\
  H_cnt h = count_bins (fills_a_cell n) bins /\
  Unf_cnt h = count_bins (fun b => b <? 0) bins /\
  Ovf_cnt h = count_bins (fun b => b >=? n - 1) bins /\
  H_cnt h + Unf_cnt h + Ovf_cnt h = Z.of_nat (List.length bins) /\
  sum_cells (Z.to_nat (n - 1)) (H_data h) = H_cnt h /\
  (forall i, 0 <= i < n - 1 -> H_data h i = count_bins (Z.eqb i) bins) /\
  H_data h (n - 1) = 0.
Proof.
  intros Hn Hlen n h.
  set (h1 := snd (ResetHistogram1D h0)).
  assert (Hcell : forall i, 0 <= i < n -> H_data h1 i = 0).
  { intros i Hi. unfold h1, ResetHistogram1D. cbn [snd H_data]. fold n.
    destruct (Z.leb_spec 0 i), (Z.ltb_spec i n); cbn [andb];
      try reflexivity; lia. }
  destruct (fill_histogram_spec bins h1) as (I1 & I2 & I3 & I4 & I5);
    try (cbn; lia); try exact Hn.
  { intros i Hi. unfold fills_a_cell in Hi.
    apply andb_prop in Hi. destruct Hi as (Hi1 & Hi2).
    apply Z.leb_le in Hi1. apply Z.ltb_lt in Hi2.
    change (Nbin h1) with n in Hi2.
    rewrite Hcell by lia. lia. }
  change (fill_histogram bins h1) with h in I1, I2, I3, I4, I5.
  change (Nbin h1) with n in *. change (H_cnt h1) with 0 in I2.
  change (Unf_cnt h1) with 0 in I3. change (Ovf_cnt h1) with 0 in I4.
  rewrite Z.add_0_l in I2, I3, I4.
  assert (Hin : forall i, 0 <= i < n - 1 ->
                          H_data h i = count_bins (Z.eqb i) bins).
  { intros i Hi. rewrite I5, Hcell by lia.
    assert (Ef : fills_a_cell n i = true).
    { unfold fills_a_cell. apply andb_true_intro.
      split; [apply Z.leb_le | apply Z.ltb_lt]; lia. }
    now rewrite Ef. }
  split; [exact I1 |]. split; [exact I2 |]. split; [exact I3 |].
  split; [exact I4 |].
  split; [rewrite I2, I3, I4; apply count_bins_partition; lia |].
  split; [| split; [exact Hin |]].
  - rewrite (sum_cells_ext _ _ (fun i => count_bins (Z.eqb i) bins))
      by (intros i Hi; apply Hin; lia).
    rewrite sum_cells_counts, I2. unfold fills_a_cell.
    rewrite Z2Nat.id by lia. reflexivity.
  - rewrite I5, Hcell by lia.
    assert (Ef : fills_a_cell n (n - 1) = false).
    { unfold fills_a_cell. destruct (Z.ltb_spec (n - 1) (n - 1));
        [lia | apply andb_false_r]. }
    now rewrite Ef.
Qed.

(** X19.  A histogram counts every call exactly once.  After
    [ResetHistogram1D] and any run of fewer than 2^32 calls of
    [Histo1D_AddCount], every call is counted in exactly one of [H_cnt],
    [Unf_cnt] and [Ovf_cnt], so that the three add up to the number of
    calls; cell [i] holds the number of calls made with [Bin = i];
    [H_cnt] is the sum of the cells; and the last cell is still 0. *)
Theorem histogram_counts_every_call_once
  (h0 : Histogram1D_t) (bins : list Z) :
  1 <= Nbin h0 < 2 ^ 31 ->
  Z.of_nat (List.length bins) < 2 ^ 32 ->
  let n := Nbin h0 in
  let h := fill_histogram bins (snd (ResetHistogram1D h0)) in
  Nbin h = n /\
  H_cnt h = count_bins (fills_a_cell n) bins /\
  Unf_cnt h = count_bins (fun b => b <? 0) bins /\
  Ovf_cnt h = count_bins (fun b => b >=? n - 1) bins /\
  H_cnt h + Unf_cnt h + Ovf_cnt h = Z.of_nat (List.length bins) /\
  sum_cells (Z.to_nat (n - 1)) (H_data h) = H_cnt h /\
  (forall i, 0 <= i < n - 1 -> H_data h i = count_bins (Z.eqb i) bins) /\
  H_data h (n - 1) = 0.
Proof. exact (histogram_tally h0 bins). Qed.

Lemma histogram_counts_every_call_once_witness :
  1 <= Nbin (blank_histogram 4) < 2 ^ 31 /\
  H_cnt (fill_histogram [0; 2; 3; -1; 2; 7]
           (snd (ResetHistogram1D (blank_histogram 4)))) = 3 /\
  Ovf_cnt (fill_histogram [0; 2; 3; -1; 2; 7]
             (snd (ResetHistogram1D (blank_histogram 4)))) = 2.
Proof.
  assert (Hn : 1 <= Nbin (blank_histogram 4) < 2 ^ 31) by (cbn; lia).
  split; [exact Hn |].
  destruct (histogram_counts_every_call_once (blank_histogram 4)
              [0; 2; 3; -1; 2; 7] Hn ltac:(cbn; lia))
    as (_ & H2 & _ & H4 & _).
  split; [rewrite H2; reflexivity | rewrite H4; reflexivity].
Defined.

(** ** The reference channels *)

Lemma ref_channel_loop_spec (b : nat) (cfg : WaveDemoConfig_t) (m : nat) :
  forall a,
    (exists ch, (a <= ch < a + m)%nat /\
                truthy (ChannelEnable cfg b ch) = true /\
                (forall ch', (a <= ch' < ch)%nat ->
                             truthy (ChannelEnable cfg b ch') = false) /\
                ref_channel_loop (seq a m) b cfg
                = set_RefChannel (upd (RefChannel cfg) b (Z.of_nat ch)) cfg) \/
    ((forall ch, (a <= ch < a + m)%nat ->
                 truthy (ChannelEnable cfg b ch) = false) /\
     ref_channel_loop (seq a m) b cfg = cfg).
Proof.
  induction m as [| m IH]; intros a.
  - right. split; [intros ch Hch; lia | reflexivity].
  - cbn [seq ref_channel_loop].
    destruct (truthy (ChannelEnable cfg b a)) eqn:Ea.
    + left. exists a. split; [lia |]. split; [exact Ea |].
      split; [intros ch' Hch'; lia | reflexivity].
    + destruct (IH (S a)) as [(ch & Hch & He & Hmin & Hr) | (Hnone & Hr)].
      * left. exists ch. split; [lia |]. split; [exact He |].
        split; [| exact Hr].
        intros ch' Hch'. destruct (Nat.eq_dec ch' a) as [-> | Hne];
          [exact Ea | apply Hmin; lia].
      * right. split; [| exact Hr].
        intros ch Hch. destruct (Nat.eq_dec ch a) as [-> | Hne];
          [exact Ea | apply Hnone; lia].
Qed.

Lemma SetRefCh_spec (cfg : WaveDemoConfig_t) :
  let cfg' := SetRefCh cfg in
  cfg' = set_RefChannel (RefChannel cfg') cfg /\
  forall b,
    ((b < Z.to_nat (NumBoards cfg))%nat ->
     (forall ch, channel_on cfg b ch = true ->
        exists r, RefChannel cfg' b = Z.of_nat r /\
                  channel_on cfg b r = true /\ (r <= ch)%nat) /\
     ((forall ch, channel_on cfg b ch = false) ->
      RefChannel cfg' b = RefChannel cfg b)) /\
    ((Z.to_nat (NumBoards cfg) <= b)%nat ->
     RefChannel cfg' b = RefChannel cfg b).
Proof.
  cbv zeta. unfold SetRefCh.
  pose (I := fun (k : nat) (acc : WaveDemoConfig_t) =>
    acc = set_RefChannel (RefChannel acc) cfg /\
    forall b,
      ((b < k)%nat ->
       (forall ch, channel_on cfg b ch = true ->
          exists r, RefChannel acc b = Z.of_nat r /\
                    channel_on cfg b r = true /\ (r <= ch)%nat) /\
       ((forall ch, channel_on cfg b ch = false) ->
        RefChannel acc b = RefChannel cfg b)) /\
      ((k <= b)%nat -> RefChannel acc b = RefChannel cfg b)).
  assert (H : I (Z.to_nat (NumBoards cfg))
                (for_loop (NumBoards cfg)
                   (fun b acc =>
                      ref_channel_loop (seq 0 (Z.to_nat (Nch acc b))) b acc)
                   cfg)).
  { apply for_loop_invariant.
    - split; [now destruct cfg |]. intros b. split; [lia | reflexivity].
    - intros k acc Hk (Hs & Hb).
      assert (Hn : Nch acc = Nch cfg) by (rewrite Hs; reflexivity).
      assert (He : ChannelEnable acc = ChannelEnable cfg)
        by (rewrite Hs; reflexivity).
      assert (Hon : forall ch,
                channel_on cfg k ch = true <->
                (ch < Z.to_nat (Nch acc k))%nat /\
                truthy (ChannelEnable acc k ch) = true).
      { intros ch. unfold channel_on. rewrite Hn, He, andb_true_iff.
        rewrite Z.ltb_lt. split; intros (H1 & H2); split;
          try assumption; lia. }
      destruct (ref_channel_loop_spec k acc (Z.to_nat (Nch acc k)) 0)
        as [(r & Hr & Her & Hmin & Hres) | (Hnone & Hres)];
        rewrite Hres.
      + split; [rewrite Hs; reflexivity |].
        intros b. cbn [RefChannel set_RefChannel].
        destruct (Nat.eq_dec b k) as [-> | Hne].
        * rewrite upd_same. split; [intros _ | lia]. split.
          -- intros ch Hch. exists r. split; [reflexivity |].
             split; [apply Hon; split; [lia | exact Her] |].
             apply Hon in Hch. destruct Hch as (Hch1 & Hch2).
             destruct (Nat.le_gt_cases r ch) as [Hle | Hgt]; [exact Hle |].
             rewrite Hmin in Hch2 by lia. discriminate.
          -- intros Hoff. specialize (Hoff r).
             assert (channel_on cfg k r = true)
               by (apply Hon; split; [lia | exact Her]).
             congruence.
        * rewrite upd_other by exact Hne.
          destruct (Hb b) as (Hb1 & Hb2). split.
          -- intros Hlt. apply Hb1. lia.
          -- intros Hge. apply Hb2. lia.
      + split; [exact Hs |]. intros b.
        destruct (Hb b) as (Hb1 & Hb2).
        destruct (Nat.eq_dec b k) as [-> | Hne].
        * split; [intros _ | lia]. split.
          -- intros ch Hch. apply Hon in Hch. destruct Hch as (Hch1 & Hch2).
             rewrite Hnone in Hch2 by lia. discriminate.
          -- intros _. apply Hb2. lia.
        * split.
          -- intros Hlt. apply Hb1. lia.
          -- intros Hge. apply Hb2. lia. }
  destruct H as (Hs & Hb). split; [exact Hs |].
  intros b. destruct (Hb b) as (Hb1 & Hb2). split; assumption.
Qed.

(** X20.  [SetRefCh] gives every active board its lowest enabled channel
    as reference channel: if the board has an enabled channel below [Nch],
    the new [RefChannel] is an enabled channel and no enabled channel lies
    below it; a board with no enabled channel, and every board that is not
    active, keeps its [RefChannel].  No other member of the configuration
    is changed. *)
Theorem reference_channel_is_lowest_enabled (cfg : WaveDemoConfig_t) :
  let cfg' := SetRefCh cfg in
  cfg' = set_RefChannel (RefChannel cfg') cfg /\
  forall b,
    ((b < Z.to_nat (NumBoards cfg))%nat ->
     (forall ch, channel_on cfg b ch = true ->
        exists r, RefChannel cfg' b = Z.of_nat r /\
                  channel_on cfg b r = true /\ (r <= ch)%nat) /\
     ((forall ch, channel_on cfg b ch = false) ->
      RefChannel cfg' b = RefChannel cfg b)) /\
    ((Z.to_nat (NumBoards cfg) <= b)%nat ->
     RefChannel cfg' b = RefChannel cfg b).
Proof. exact (SetRefCh_spec cfg). Qed.

Lemma reference_channel_is_lowest_enabled_witness :
  RefChannel (SetRefCh sparse_cfg) 0%nat = 2 /\
  RefChannel (SetRefCh sparse_cfg) 1%nat = RefChannel sparse_cfg 1%nat.
Proof.
  destruct (reference_channel_is_lowest_enabled sparse_cfg) as (_ & H).
  split.
  - destruct (H 0%nat) as (H0 & _).
    destruct (H0 ltac:(cbn; lia)) as (Hon & _).
    destruct (Hon 2%nat eq_refl) as (r & Hr & Hc & Hle).
    rewrite Hr.
    assert (E : r = 0%nat \/ r = 1%nat \/ r = 2%nat) by lia.
    destruct E as [-> | [-> | ->]]; [discriminate | discriminate | reflexivity].
  - destruct (H 1%nat) as (H1 & _).
    destruct (H1 ltac:(cbn; lia)) as (_ & Hoff). apply Hoff.
    intros ch. unfold channel_on. cbn. apply andb_false_r.
Defined.

(** ** The progress indicator *)

Lemma low_bits (p : Z) : Z.land p 7 = p mod 8.
Proof. change 7 with (Z.ones 3). now rewrite Z.land_ones. Qed.

Lemma addProgressIndicator_spec (p : Z) :
  addProgressIndicator p = (p mod 8 + 1) mod 4.
Proof.
  unfold addProgressIndicator, truthy.
  destruct (Z.eqb_spec (Z.lor p 8) 0) as [E | _].
  - apply Z.lor_eq_0_iff in E. destruct E as (_ & E). discriminate.
  - cbn [negb]. cbv zeta. rewrite low_bits.
    pose proof (Z.mod_pos_bound p 8 eq_refl).
    apply Z.rem_mod_nonneg; lia.
Qed.

Lemma shown_flag_is_ignored (p : Z) :
  addProgressIndicator (Z.lor p 8) = addProgressIndicator p.
Proof.
  rewrite !addProgressIndicator_spec, <- !low_bits.
  rewrite Z.land_lor_distr_l. change (Z.land 8 7) with 0.
  now rewrite Z.lor_0_r.
Qed.

(** X21.  The progress wheel turns on every tick.  Whatever [*progress]
    holds, [addProgressIndicator] sets it to the next of the four
    positions, [((progress mod 8) + 1) mod 4]: its test [*progress | 0x8]
    holds for every value, so the flag that [getProgressIndicator] sets
    when the wheel is shown makes no difference and no tick is skipped.
    After a tick [getProgressIndicator] returns the character of that
    position, never ['X'], and the tick that follows a display moves on by
    exactly one position. *)
Theorem progress_wheel_turns_on_every_tick (p : Z) :
  let p1 := addProgressIndicator p in
  p1 = (p mod 8 + 1) mod 4 /\ 0 <= p1 <= 3 /\
  addProgressIndicator (Z.lor p 8) = p1 /\
  fst (getProgressIndicator p1) = wheel p1 /\
  fst (getProgressIndicator p1) <> "X"%char /\
  addProgressIndicator (snd (getProgressIndicator p1)) = (p1 + 1) mod 4 /\
  addProgressIndicator p1 = (p1 + 1) mod 4.
Proof.
  cbv zeta. rewrite shown_flag_is_ignored, (addProgressIndicator_spec p).
  set (p1 := (p mod 8 + 1) mod 4).
  assert (Hp : 0 <= p1 <= 3)
    by (pose proof (Z.mod_pos_bound (p mod 8 + 1) 4 eq_refl); lia).
  split; [reflexivity |]. split; [exact Hp |]. split; [reflexivity |].
  clearbody p1.
  assert (E : p1 = 0 \/ p1 = 1 \/ p1 = 2 \/ p1 = 3) by lia.
  destruct E as [-> | [-> | [-> | ->]]];
    (split; [reflexivity |]); (split; [discriminate |]);
    split; reflexivity.
Qed.
